(** * PI-Finder: trial-metadata gateway, investigators search endpoint and
      the client-side result reconciler.

    A shallow embedding of
    - [pi-finder/app/api/trial-meta/route.ts]   (module [TrialMetaRoute]),
    - [pi-finder/hooks/use-trial-meta.ts]       (module [UseTrialMeta]),
    - [pi-finder/app/api/investigators/route.ts] (module [InvestigatorsRoute]),
    - [pi-finder/app/pi-finder/page.tsx]        (module [Page]),
    with the JavaScript built-ins they call collected in module [Js].

    JavaScript strings are modelled as Rocq strings of 8-bit characters.  The
    model is exact on ASCII text, which is what NCT identifiers, years, page
    numbers and the registry's enumeration values are made of. *)

From Stdlib Require Import ZArith QArith String Ascii List Bool Lia.
From stdpp Require Import base option list gmap strings pretty sorting.

Local Open Scope string_scope.
Local Open Scope Z_scope.

(* ===================================================================== *)
(** ** JavaScript built-ins used by the sources *)
(* ===================================================================== *)
Module Js.

(** *** Characters and strings *)

Definition code (c : ascii) : nat := nat_of_ascii c.

Definition inRange (lo hi : nat) (c : ascii) : bool :=
  (Nat.leb lo (code c)) && (Nat.leb (code c) hi).

(** [0-9] *)
Definition isDigit (c : ascii) : bool := inRange 48 57 c.

(** [A-Z] *)
Definition isUpper (c : ascii) : bool := inRange 65 90 c.

(** White space stripped by [String.prototype.trim] (ASCII part): TAB, LF,
    VT, FF, CR and SPACE. *)
Definition isWhiteSpace (c : ascii) : bool :=
  inRange 9 13 c || Nat.eqb (code c) 32.

Definition lowerChar (c : ascii) : ascii :=
  if isUpper c then ascii_of_nat (code c + 32) else c.

(** [s.toLowerCase()]: the ASCII letters are lowered, every other
    character is kept. *)
Fixpoint toLowerCase (s : string) : string :=
  match s with
  | EmptyString => EmptyString
  | String c r => String (lowerChar c) (toLowerCase r)
  end.

(** [s.startsWith(p)] *)
Definition startsWith (s p : string) : bool := String.prefix p s.

(** [s.includes(sub)] *)
Fixpoint includes (s sub : string) : bool :=
  startsWith s sub ||
  match s with
  | EmptyString => false
  | String _ r => includes r sub
  end.

Fixpoint trimStart (s : string) : string :=
  match s with
  | EmptyString => EmptyString
  | String c r => if isWhiteSpace c then trimStart r else s
  end.

Fixpoint trimEnd (s : string) : string :=
  match s with
  | EmptyString => EmptyString
  | String c r =>
      match trimEnd r with
      | EmptyString => if isWhiteSpace c then EmptyString else String c EmptyString
      | r' => String c r'
      end
  end.

(** [s.trim()] *)
Definition trim (s : string) : string := trimEnd (trimStart s).

(** [s.split(sep)] for a one-character separator; never returns the empty
    list ([("").split(",")] is [[""]]). *)
Fixpoint split (sep : ascii) (s : string) : list string :=
  match s with
  | EmptyString => [EmptyString]
  | String c r =>
      if Ascii.eqb c sep then EmptyString :: split sep r
      else match split sep r with
           | [] => [String c EmptyString]
           | hd :: tl => String c hd :: tl
           end
  end.

(** [xs.join(sep)] *)
Definition join (sep : string) (xs : list string) : string :=
  String.concat sep xs.

(** Truthiness of a string: non-empty. *)
Definition truthyStr (s : string) : bool :=
  match s with EmptyString => false | _ => true end.

(** Truthiness of a nullable string ([null], [undefined] and [""] are
    falsy). *)
Definition truthy (o : option string) : bool :=
  match o with Some s => truthyStr s | None => false end.

Fixpoint allChars (p : ascii -> bool) (s : string) : bool :=
  match s with
  | EmptyString => true
  | String c r => p c && allChars p r
  end.

(** [/^[0-9]{n}$/.test(s)] *)
Definition testDigits (n : nat) (s : string) : bool :=
  Nat.eqb (String.length s) n && allChars isDigit s.

(** [/^\d+$/.test(s)] *)
Definition testDigitsPlus (s : string) : bool :=
  truthyStr s && allChars isDigit s.

(** [s.match(re)] for a regular expression that is one character class:
    the first character of [s] in the class, as a one-character string. *)
Fixpoint matchClass (p : ascii -> bool) (s : string) : option string :=
  match s with
  | EmptyString => None
  | String c r => if p c then Some (String c EmptyString) else matchClass p r
  end.

(** [xs.slice(start, end)] with JavaScript's treatment of negative and
    out-of-range indices. *)
Definition slice {A} (start end_ : Z) (xs : list A) : list A :=
  let len := Z.of_nat (length xs) in
  let k := if start <? 0 then Z.max (len + start) 0 else Z.min start len in
  let final := if end_ <? 0 then Z.max (len + end_) 0 else Z.min end_ len in
  take (Z.to_nat (final - k)) (drop (Z.to_nat k) xs).

(** [Math.ceil(a / b)] for integers [a] and [b > 0]. *)
Definition ceilDiv (a b : Z) : Z := - ((- a) / b).

(** *** Numbers

    A JavaScript number is NaN, an infinity or a finite value.  Finite
    values are kept as exact rationals: the sources only compare, subtract
    and multiply them, and rounding to binary64 changes none of the sign
    or order facts proved below. *)
Inductive Num : Type :=
| NaN
| NegInf
| Fin (q : Q)
| PosInf.

Definition ofZ (z : Z) : Num := Fin (inject_Z z).

Definition isNaN (n : Num) : bool :=
  match n with NaN => true | _ => false end.

(** Truthiness of a number: neither [NaN] nor zero. *)
Definition truthyNum (n : Num) : bool :=
  match n with
  | NaN => false
  | Fin q => negb (Qeq_bool q 0)
  | _ => true
  end.

Definition Qltb (a b : Q) : bool := negb (Qle_bool b a).

(** [a < b] *)
Definition lt (a b : Num) : bool :=
  match a, b with
  | NaN, _ | _, NaN => false
  | NegInf, NegInf => false
  | NegInf, _ => true
  | _, NegInf => false
  | PosInf, _ => false
  | Fin _, PosInf => true
  | Fin x, Fin y => Qltb x y
  end.

(** [a > b] *)
Definition gt (a b : Num) : bool := lt b a.

(** [a <= b] as a proposition (false when either side is NaN). *)
Definition le (a b : Num) : Prop :=
  match a, b with
  | NaN, _ | _, NaN => False
  | NegInf, _ => True
  | _, PosInf => True
  | Fin x, Fin y => (x <= y)%Q
  | _, _ => False
  end.

(** [Math.max(a, b)] *)
Definition Math_max (a b : Num) : Num :=
  match a, b with
  | NaN, _ | _, NaN => NaN
  | _, _ => if lt b a then a else b
  end.

(** [a - b] *)
Definition sub (a b : Num) : Num :=
  match a, b with
  | NaN, _ | _, NaN => NaN
  | PosInf, PosInf | NegInf, NegInf => NaN
  | PosInf, _ | _, NegInf => PosInf
  | NegInf, _ | _, PosInf => NegInf
  | Fin x, Fin y => Fin (x - y)
  end.

Definition sign (n : Num) : Z :=
  match n with
  | NaN => 0
  | NegInf => -1
  | PosInf => 1
  | Fin q => Z.sgn (Qnum q)
  end.

(** [a * b] *)
Definition mul (a b : Num) : Num :=
  match a, b with
  | NaN, _ | _, NaN => NaN
  | Fin x, Fin y => Fin (x * y)
  | _, _ =>
      match (sign a * sign b)%Z with
      | Z0 => NaN
      | Zpos _ => PosInf
      | Zneg _ => NegInf
      end
  end.

(** *** [Number(string)]

    StringToNumber: surrounding white space is dropped; the empty string
    is [0]; otherwise the text must be a signed decimal literal (digits,
    optional fraction, optional exponent, or [Infinity]) or an unsigned
    [0x], [0o] or [0b] integer literal; anything else is [NaN]. *)

Definition digitVal (c : ascii) : Z := Z.of_nat (code c) - 48.

(** Leading decimal digits of [s]: their value, their number, the rest. *)
Fixpoint readDigits (s : string) (acc : Z) (n : nat) : Z * nat * string :=
  match s with
  | String c r =>
      if isDigit c then readDigits r (acc * 10 + digitVal c) (S n)
      else (acc, n, s)
  | EmptyString => (acc, n, s)
  end.

(** Value of a digit in base [b] (up to 16), if it is one. *)
Definition baseDigit (b : Z) (c : ascii) : option Z :=
  let v :=
    if isDigit c then digitVal c
    else if inRange 97 102 c then Z.of_nat (code c) - 87
    else if inRange 65 70 c then Z.of_nat (code c) - 55
    else 16 in
  if v <? b then Some v else None.

Fixpoint readBase (b : Z) (s : string) (acc : Z) : option Z :=
  match s with
  | EmptyString => Some acc
  | String c r =>
      match baseDigit b c with
      | Some v => readBase b r (acc * b + v)
      | None => None
      end
  end.

Definition nonDecimal (b : Z) (digits : string) : Num :=
  match digits with
  | EmptyString => NaN
  | _ => match readBase b digits 0 with
         | Some v => ofZ v
         | None => NaN
         end
  end.

(** An optional sign: whether it is [-], and the text after it. *)
Definition splitSign (s : string) : bool * string :=
  match s with
  | String c r =>
      if Ascii.eqb c "-" then (true, r)
      else if Ascii.eqb c "+" then (false, r)
      else (false, s)
  | EmptyString => (false, s)
  end.

(** The exponent part after [e] or [E]: optional sign, at least one digit,
    nothing after. *)
Definition readExponent (s : string) : option Z :=
  let '(neg, body) := splitSign s in
  match readDigits body 0 0 with
  | (v, S _, EmptyString) => Some (if neg then - v else v)
  | _ => None
  end.

Definition scale10 (q : Q) (e : Z) : Q :=
  if 0 <=? e then Qred (q * inject_Z (10 ^ e))
  else Qred (q / inject_Z (10 ^ (- e))).

(** An unsigned decimal literal other than [Infinity]. *)
Definition unsignedDecimal (s : string) : option Q :=
  let '(i, ni, r1) := readDigits s 0 0 in
  let '(f, nf, r2) :=
    match r1 with
    | String "." r => readDigits r 0 0
    | _ => (0, O, r1)
    end in
  match (ni + nf)%nat with
  | O => None
  | _ =>
      let mant := Qred (Qmake (i * 10 ^ Z.of_nat nf + f)
                              (Z.to_pos (10 ^ Z.of_nat nf))) in
      match r2 with
      | EmptyString => Some mant
      | String c r =>
          if Ascii.eqb c "e" || Ascii.eqb c "E"
          then option_map (scale10 mant) (readExponent r)
          else None
      end
  end.

Definition signedDecimal (s : string) : Num :=
  let '(neg, body) := splitSign s in
  if String.eqb body "Infinity" then (if neg then NegInf else PosInf)
  else match unsignedDecimal body with
       | Some q => Fin (if neg then Qred (- q) else q)
       | None => NaN
       end.

(** The base announced by a [0x], [0o] or [0b] prefix (either case). *)
Definition radixPrefix (c0 c1 : ascii) : option Z :=
  if negb (Ascii.eqb c0 "0") then None
  else if Ascii.eqb c1 "x" || Ascii.eqb c1 "X" then Some 16
  else if Ascii.eqb c1 "o" || Ascii.eqb c1 "O" then Some 8
  else if Ascii.eqb c1 "b" || Ascii.eqb c1 "B" then Some 2
  else None.

Definition Number (s : string) : Num :=
  match trim s with
  | EmptyString => ofZ 0
  | String c0 (String c1 r) =>
      match radixPrefix c0 c1 with
      | Some b => nonDecimal b r
      | None => signedDecimal (String c0 (String c1 r))
      end
  | t => signedDecimal t
  end.

(** [String(n)] / template-literal rendering of a number.  Exact for
    integers; a non-integer value is shown as the fraction
    numerator/denominator (the endpoints only render values read from
    all-digit strings, which are integers). *)
Definition toString (n : Num) : string :=
  match n with
  | NaN => "NaN"
  | PosInf => "Infinity"
  | NegInf => "-Infinity"
  | Fin q =>
      if Pos.eqb (Qden q) 1 then pretty (Qnum q)
      else pretty (Qnum q) ++ "/" ++ pretty (Zpos (Qden q))
  end.

(** [a >= b] and [a <= b] as tests (false when either side is NaN). *)
Definition ge (a b : Num) : bool :=
  match a, b with
  | NaN, _ | _, NaN => false
  | _, _ => negb (lt a b)
  end.

Definition leb (a b : Num) : bool := ge b a.

(** The order of [Array.prototype.sort] without a comparator, on strings:
    code unit by code unit. *)
Definition strLe (a b : string) : Prop := String.leb a b = true.

Global Instance strLe_dec (a b : string) : Decision (strLe a b).
Proof. unfold strLe. apply _. Defined.

(** [xs.sort()] on strings: the sorted rearrangement of [xs]. *)
Definition sort (xs : list string) : list string := merge_sort strLe xs.

End Js.

(* ===================================================================== *)
(** ** Shared types: [lib/constants.ts], [lib/types.ts] *)
(* ===================================================================== *)

Definition ITEMS_PER_PAGE : Z := 6.

(** [TrialMeta]: what the metadata endpoint returns per study. *)
Module TrialMeta.
Record t : Type := mk {
  nctId : string;
  phase : string;
  fundedBy : option string;
  overallStatus : option string;
}.
End TrialMeta.

(** [Physician]: one investigator as sent to the client. *)
Module Physician.
Record t : Type := mk {
  id : Z;
  name : string;
  role : option string;
  facility : option string;
  city : option string;
  state : option string;
  zip : option string;
  affiliation : option string;
  nctId : option string;
  distance : Js.Num;
  startDate : string;
  trialTitle : option string;
}.
End Physician.

Module ApiResponse.
Record t : Type := mk {
  physicians : list Physician.t;
  totalCount : Z;
}.
End ApiResponse.

(** A JSON response of a route handler. *)
Inductive HttpResponse (A : Type) : Type :=
| JsonOk (body : A)
| JsonError (error : string) (status : Z).
Arguments JsonOk {A} body.
Arguments JsonError {A} error status.

(* ===================================================================== *)
(** ** [app/api/trial-meta/route.ts] *)
(* ===================================================================== *)
Module TrialMetaRoute.

Definition MAX_BATCH : Z := 100.

(** [CtStudy]: the trimmed study record of the registry. *)
Record DesignModule : Type := { phases : option (list string) }.
Record LeadSponsor : Type := { class : option string }.
Record SponsorCollaboratorsModule : Type :=
  { leadSponsor : option LeadSponsor }.
Record StatusModule : Type := { overallStatus : option string }.
Record IdentificationModule : Type := { nctId : string }.
Record ProtocolSection : Type := {
  identificationModule : IdentificationModule;
  designModule : option DesignModule;
  sponsorCollaboratorsModule : option SponsorCollaboratorsModule;
  statusModule : option StatusModule;
}.
Record CtStudy : Type := { protocolSection : ProtocolSection }.

(** One request to the registry: the query parameters that vary
    ([fields] and [format] are constants). *)
Record CtRequest : Type := mkCtRequest {
  filter_ids : string;
  pageSize : string;
  pageToken : option string;
}.

(** The registry's answer: an HTTP status and the parsed body. *)
Record CtResponse : Type := mkCtResponse {
  res_status : Z;
  studies : option (list CtStudy);
  nextPageToken : option string;
}.

(** What [await fetch(url)] and, after a success status, [await res.json()]
    can do: reject with an error (network failure, unparsable body of a
    success response), or yield a response with its status and, for a
    success, its parsed body. *)
Inductive Fetched : Type :=
| Rejected (message : string)
| Responded (res : CtResponse).

(** [res.ok] *)
Definition ok (res : CtResponse) : bool :=
  (200 <=? res_status res) && (res_status res <=? 299).

(** How [fetchTrialMeta] ends: it returns, it throws, or the registry keeps
    handing out continuation tokens beyond the pages we are willing to
    follow. *)
Inductive Outcome (A : Type) : Type :=
| Returned (value : A)
| Threw (message : string)
| Unfinished.
Arguments Returned {A} value.
Arguments Threw {A} message.
Arguments Unfinished {A}.

(** A run: the requests issued, in order, and how it ended. *)
Record Run (A : Type) : Type := mkRun {
  requests : list CtRequest;
  outcome : Outcome A;
}.
Arguments mkRun {A} requests outcome.
Arguments requests {A} r.
Arguments outcome {A} r.

(** The [for (let i = 0; i < ids.length; i += MAX_BATCH)] loop: the
    batches [ids.slice(i, i + MAX_BATCH)] it visits.  [n] bounds the
    number of iterations; [length ids] always suffices. *)
Fixpoint batchesFrom (n : nat) (i : Z) (ids : list string) : list (list string) :=
  match n with
  | O => []
  | S n' =>
      if i <? Z.of_nat (length ids)
      then Js.slice i (i + MAX_BATCH) ids :: batchesFrom n' (i + MAX_BATCH) ids
      else []
  end.

Definition batches (ids : list string) : list (list string) :=
  batchesFrom (length ids) 0 ids.

Definition failureMessage (res : CtResponse) : string :=
  "ClinicalTrials.gov request failed (" ++ pretty (res_status res) ++ ")".

(** Phase string of a raw study, e.g. "PHASE2" gives "2". *)
Definition normalizePhase (s : CtStudy) : string :=
  let raw :=
    match designModule (protocolSection s) with
    | Some d => match phases d with
                | Some (p :: _) => p
                | _ => "NA"
                end
    | None => "NA"
    end in
  match Js.matchClass (Js.inRange 49 52) raw with
  | Some m => m
  | None => "NA"
  end.

(** The final [out.map(...)]: trim a study to what the UI needs. *)
Definition trimStudy (s : CtStudy) : TrialMeta.t :=
  {| TrialMeta.nctId := nctId (identificationModule (protocolSection s));
     TrialMeta.phase := normalizePhase s;
     TrialMeta.fundedBy :=
       match sponsorCollaboratorsModule (protocolSection s) with
       | Some m => match leadSponsor m with
                   | Some l => class l
                   | None => None
                   end
       | None => None
       end;
     TrialMeta.overallStatus :=
       match statusModule (protocolSection s) with
       | Some m => overallStatus m
       | None => None
       end |}.

(** The parsed JSON body of a POST request: unparsable ([req.json()]
    rejects with [message]), or an object whose [ids] member is an array
    of strings or is not an array. *)
Inductive Body : Type :=
| Unparsable (message : string)
| Parsed (ids : option (list string)).

Section Gateway.
(** The registry, as seen through [fetch]. *)
Variable fetch : CtRequest -> Fetched.

(** The [do ... while (pageToken)] loop of one batch, following at most
    [fuel] pages.  [log] and [out] are the requests issued and the
    studies collected so far; the result is the final log and either the
    extended [out] or the way the loop ended early. *)
Fixpoint fetchPages (fuel : nat) (batch : list string)
         (pageToken : option string)
         (log : list CtRequest) (out : list CtStudy)
  : Run (list CtStudy) :=
  match fuel with
  | O => mkRun log Unfinished
  | S fuel' =>
      let req :=
        {| filter_ids := Js.join "," batch;
           pageSize := pretty (Z.of_nat (length batch));
           pageToken := if Js.truthy pageToken then pageToken else None |} in
      let log' := (log ++ [req])%list in
      match fetch req with
      | Rejected msg => mkRun log' (Threw msg)
      | Responded res =>
          if negb (ok res) then mkRun log' (Threw (failureMessage res))
          else
            let out' :=
              match studies res with
              | Some (s :: ss) => (out ++ s :: ss)%list
              | _ => out
              end in
            if Js.truthy (nextPageToken res)
            then fetchPages fuel' batch (nextPageToken res) log' out'
            else mkRun log' (Returned out')
      end
  end.

(** The batch loop. *)
Fixpoint fetchBatches (fuel : nat) (bs : list (list string))
         (log : list CtRequest) (out : list CtStudy)
  : Run (list CtStudy) :=
  match bs with
  | [] => mkRun log (Returned out)
  | batch :: rest =>
      let r := fetchPages fuel batch None log out in
      match outcome r with
      | Returned out' => fetchBatches fuel rest (requests r) out'
      | _ => r
      end
  end.

(** [fetchTrialMeta(ids)] *)
Definition fetchTrialMeta (fuel : nat) (ids : list string)
  : Run (list TrialMeta.t) :=
  let r := fetchBatches fuel (batches ids) [] [] in
  mkRun (requests r)
        match outcome r with
        | Returned out => Returned (map trimStudy out)
        | Threw m => Threw m
        | Unfinished => Unfinished
        end.

(** The [catch] block shared by GET and POST. *)
Definition catch (message : string) : HttpResponse (list TrialMeta.t) :=
  JsonError message (if Js.includes message "ClinicalTrials" then 502 else 500).

(** What a handler does once it has its list of ids.  [None] stands for
    a request that never completes. *)
Definition respond (missing : string) (fuel : nat) (ids : list string)
  : option (HttpResponse (list TrialMeta.t)) :=
  match ids with
  | [] => Some (JsonError missing 400)
  | _ =>
      match outcome (fetchTrialMeta fuel ids) with
      | Returned trimmed => Some (JsonOk trimmed)
      | Threw m => Some (catch m)
      | Unfinished => None
      end
  end.

(** The ids a GET request carries: [idsParam] is
    [req.nextUrl.searchParams.get("ids")]. *)
Definition idsOfQuery (idsParam : option string) : list string :=
  List.filter (fun id => negb (Nat.eqb (String.length id) 0))
              (map Js.trim (Js.split "," (default "" idsParam))).

Definition GET (fuel : nat) (idsParam : option string)
  : option (HttpResponse (list TrialMeta.t)) :=
  respond "Missing ids query parameter" fuel (idsOfQuery idsParam).

(** [Array.isArray(body?.ids) ? body.ids.filter(Boolean) : []] *)
Definition idsOfBody (ids : option (list string)) : list string :=
  match ids with
  | Some l => List.filter Js.truthyStr l
  | None => []
  end.

Definition POST (fuel : nat) (body : Body)
  : option (HttpResponse (list TrialMeta.t)) :=
  match body with
  | Unparsable m => Some (catch m)
  | Parsed ids =>
      respond "Request body must include 'ids' array" fuel (idsOfBody ids)
  end.

End Gateway.

End TrialMetaRoute.

(* ===================================================================== *)
(** ** The URL between the hook and the route *)
(* ===================================================================== *)

(** What [req.nextUrl.searchParams] holds for a request sent to a URL
    written as a path followed by a query, as the hook writes it.  The URL
    is parsed as the URL standard prescribes (white space stripped at both
    ends, tabs and newlines removed, the fragment cut off at the first
    "#"), and its query is read as [application/x-www-form-urlencoded]
    text: pairs separated by "&", name and value separated by the first
    "=", "+" read as a space and "%XY" as the byte written in hexadecimal.
    (The characters the URL parser itself escapes in a query are read back
    unchanged, so that only the escapes written in the URL show.  An escape
    above [%7F] stands for UTF-8 text outside ASCII, and is kept as the
    byte.) *)
Module Url.

(** ASCII tab or newline: removed wherever it stands. *)
Definition isTabOrNewline (c : ascii) : bool :=
  Nat.eqb (Js.code c) 9 || Nat.eqb (Js.code c) 10 || Nat.eqb (Js.code c) 13.

(** C0 control or space: stripped from both ends. *)
Definition isC0OrSpace (c : ascii) : bool := Nat.leb (Js.code c) 32.

Fixpoint stripStart (s : string) : string :=
  match s with
  | EmptyString => EmptyString
  | String c r => if isC0OrSpace c then stripStart r else s
  end.

Fixpoint stripEnd (s : string) : string :=
  match s with
  | EmptyString => EmptyString
  | String c r =>
      match stripEnd r with
      | EmptyString => if isC0OrSpace c then EmptyString else String c EmptyString
      | r' => String c r'
      end
  end.

Fixpoint remove (p : ascii -> bool) (s : string) : string :=
  match s with
  | EmptyString => EmptyString
  | String c r => if p c then remove p r else String c (remove p r)
  end.

(** The text the parser works on. *)
Definition input (url : string) : string :=
  remove isTabOrNewline (stripEnd (stripStart url)).

(** The text before the first [c] (all of it when there is none), and the
    text after it (if there is one). *)
Fixpoint before (c : ascii) (s : string) : string :=
  match s with
  | EmptyString => EmptyString
  | String d r => if Ascii.eqb d c then EmptyString else String d (before c r)
  end.

Fixpoint after (c : ascii) (s : string) : option string :=
  match s with
  | EmptyString => None
  | String d r => if Ascii.eqb d c then Some r else after c r
  end.

(** The query of the URL: what stands between the first "?" and the
    fragment. *)
Definition query (url : string) : option string :=
  after "?" (before "#" (input url)).

Definition hexVal (c : ascii) : option nat :=
  if Js.inRange 48 57 c then Some (Js.code c - 48)%nat
  else if Js.inRange 65 70 c then Some (Js.code c - 55)%nat
  else if Js.inRange 97 102 c then Some (Js.code c - 87)%nat
  else None.

Fixpoint percentDecode (s : string) : string :=
  match s with
  | EmptyString => EmptyString
  | String c r =>
      if Ascii.eqb c "%" then
        match r with
        | String h (String l r') =>
            match hexVal h, hexVal l with
            | Some a, Some b =>
                String (ascii_of_nat (16 * a + b)) (percentDecode r')
            | _, _ => String c (percentDecode r)
            end
        | _ => String c (percentDecode r)
        end
      else String c (percentDecode r)
  end.

Fixpoint plusToSpace (s : string) : string :=
  match s with
  | EmptyString => EmptyString
  | String c r => String (if Ascii.eqb c "+" then " "%char else c) (plusToSpace r)
  end.

(** One "name=value" piece of the query. *)
Definition pair (piece : string) : string * string :=
  (percentDecode (plusToSpace (before "=" piece)),
   percentDecode (plusToSpace (default "" (after "=" piece)))).

(** [url.searchParams] *)
Definition searchParams (url : string) : list (string * string) :=
  match query url with
  | Some q => map pair (List.filter Js.truthyStr (Js.split "&" q))
  | None => []
  end.

(** [params.get(name)]: the value of the first pair called [name]. *)
Fixpoint get (name : string) (params : list (string * string)) : option string :=
  match params with
  | [] => None
  | (n, v) :: rest => if String.eqb n name then Some v else get name rest
  end.

End Url.

(* ===================================================================== *)
(** ** [hooks/use-trial-meta.ts] *)
(* ===================================================================== *)
Module UseTrialMeta.

Definition queryString (ids : list string) : string := Js.join "," ids.

(** The URL of the query-string form. *)
Definition url (ids : list string) : string :=
  "/api/trial-meta?ids=" ++ queryString ids.

Definition shouldPost (ids : list string) : bool :=
  1800 <? Z.of_nat (String.length (url ids)).

(** The request [queryFn] sends for a non-empty list of ids. *)
Inductive Transport : Type :=
| ViaGet (url : string)
| ViaPost (ids : list string).

Definition transport (ids : list string) : Transport :=
  if shouldPost ids then ViaPost ids else ViaGet (url ids).

(** [const keyIds = [...ids].sort()] and the [queryKey] built from it. *)
Definition keyIds (ids : list string) : list string := Js.sort ids.

Definition queryKey (ids : list string) : string * string :=
  ("trialMeta", Js.join "," (keyIds ids)).

(** [enabled: ids.length > 0] *)
Definition enabled (ids : list string) : bool :=
  0 <? Z.of_nat (length ids).

Section Client.
Variable fetch : TrialMetaRoute.CtRequest -> TrialMetaRoute.Fetched.

(** [queryFn], run against the route handlers.  The hook writes the
    identifiers into the URL as they are, without escaping them; the GET
    handler reads [searchParams.get("ids")] from that URL.  [None]: the
    request never completes. *)
Definition queryFn (fuel : nat) (ids : list string)
  : option (TrialMetaRoute.Outcome (list TrialMeta.t)) :=
  match ids with
  | [] => Some (TrialMetaRoute.Returned [])
  | _ =>
      let res :=
        match transport ids with
        | ViaPost ids' =>
            TrialMetaRoute.POST fetch fuel (TrialMetaRoute.Parsed (Some ids'))
        | ViaGet url' =>
            TrialMetaRoute.GET fetch fuel (Url.get "ids" (Url.searchParams url'))
        end in
      match res with
      | None => None
      | Some (JsonOk body) => Some (TrialMetaRoute.Returned body)
      | Some (JsonError _ status) =>
          Some (TrialMetaRoute.Threw
                  ("Failed to fetch trial meta (" ++ pretty status ++ ")"))
      end
  end.
End Client.

End UseTrialMeta.

(* ===================================================================== *)
(** ** [app/api/investigators/route.ts] *)
(* ===================================================================== *)
Module InvestigatorsRoute.

(** The query parameters read by the handler; [None] is what
    [searchParams.get] returns for an absent parameter. *)
Record Query : Type := mkQuery {
  q_zip : option string;
  q_radius : option string;
  q_page : option string;
  q_startYear : option string;
  q_endYear : option string;
}.

(** A row of the [investigators] table. *)
Module Row.
Record t : Type := mk {
  id : Z;
  name : string;
  role : option string;
  facility : option string;
  city : option string;
  state : option string;
  zip : option string;
  affiliation : option string;
  nctId : option string;
  startDate : option string;
}.
End Row.

(** The conditions built with drizzle's [inArray], [gte], [lte], [and]. *)
Inductive Clause : Type :=
| inArray_zip (zipList : list string)
| gte_startDate (date : string)
| lte_startDate (date : string).

Inductive Sql : Type :=
| where_ (clause : Clause)
| and (clauses : list Clause).

(** The two database queries of one request: both use [whereExpr]; the
    row query adds [limit] and [offset]. *)
Record Plan : Type := mkPlan {
  whereExpr : Sql;
  limit : Z;
  offset : Js.Num;
}.

(** [(y) => !y || /^[0-9]{4}$/.test(y)] *)
Definition isValidYear (y : option string) : bool :=
  negb (Js.truthy y) || Js.testDigits 4 (default "" y).

(** [y ? Number(y) : undefined] *)
Definition yearNum (y : option string) : option Js.Num :=
  if Js.truthy y then Some (Js.Number (default "" y)) else None.

(** Truthiness of [number | undefined]. *)
Definition truthyOpt (n : option Js.Num) : bool :=
  match n with Some x => Js.truthyNum x | None => false end.

(** The "swap if needed" step. *)
Definition swapYears (startYearNum endYearNum : option Js.Num)
  : option Js.Num * option Js.Num :=
  match startYearNum, endYearNum with
  | Some s, Some e =>
      if Js.truthyNum s && Js.truthyNum e && Js.gt s e
      then (endYearNum, startYearNum)
      else (startYearNum, endYearNum)
  | _, _ => (startYearNum, endYearNum)
  end.

(** [Math.max(Number(searchParams.get("page") ?? "1"), 1)] *)
Definition pageOf (q : Query) : Js.Num :=
  Js.Math_max (Js.Number (default "1" (q_page q))) (Js.ofZ 1).

(** [(page - 1) * ITEMS_PER_PAGE] *)
Definition offsetOf (q : Query) : Js.Num :=
  Js.mul (Js.sub (pageOf q) (Js.ofZ 1)) (Js.ofZ ITEMS_PER_PAGE).

Definition whereClauses (zipList : list string)
           (startYearNum endYearNum : option Js.Num) : list Clause :=
  ([inArray_zip zipList]
     ++ (if truthyOpt startYearNum
         then [gte_startDate (Js.toString (default Js.NaN startYearNum) ++ "-01-01")]
         else [])
     ++ (if truthyOpt endYearNum
         then [lte_startDate (Js.toString (default Js.NaN endYearNum) ++ "-12-31")]
         else []))%list.

Section Handler.
(** The [zipcodes] package. *)
Variable zipcodes_lookup : string -> bool.
Variable zipcodes_radius : string -> Js.Num -> list string.
Variable zipcodes_distance : string -> string -> Js.Num.
(** The database: the rows of the ordered, limited row query and the
    result of the count query.  (A rejected query is left to the
    framework: the handler has no [catch].) *)
Variable select_rows : Plan -> list Row.t.
Variable select_count : Sql -> Z.

(** The handler up to the database queries: an error response, or the
    postal code and the queries to run. *)
Definition plan (q : Query) : HttpResponse (string * Plan) :=
  let zip := default "" (q_zip q) in
  let radiusMiles := Js.Number (default "15" (q_radius q)) in
  let startYear := q_startYear q in
  let endYear := q_endYear q in
  if negb (isValidYear startYear) || negb (isValidYear endYear)
  then JsonError "startYear/endYear must be 4‑digit numbers" 400
  else
    let '(startYearNum, endYearNum) :=
      swapYears (yearNum startYear) (yearNum endYear) in
    if negb (Js.testDigits 5 zip) then JsonError "Invalid zip" 400
    else if negb (zipcodes_lookup zip) then JsonError "Unknown zip" 404
    else
      let zipList := zipcodes_radius zip radiusMiles in
      let clauses := whereClauses zipList startYearNum endYearNum in
      let whereExpr :=
        match clauses with
        | [c] => where_ c
        | _ => and clauses
        end in
      JsonOk (zip, {| whereExpr := whereExpr;
                      limit := ITEMS_PER_PAGE;
                      offset := offsetOf q |}).

(** The post-processing [rows.map(...)]. *)
Definition toPhysician (zip : string) (row : Row.t) : Physician.t :=
  {| Physician.id := Row.id row;
     Physician.name := Row.name row;
     Physician.role := Row.role row;
     Physician.facility := Row.facility row;
     Physician.city := Row.city row;
     Physician.state := Row.state row;
     Physician.zip := Row.zip row;
     Physician.affiliation := Row.affiliation row;
     Physician.nctId := Row.nctId row;
     Physician.distance :=
       match Row.zip row with
       | Some z => if Js.testDigits 5 z then zipcodes_distance zip z
                   else Js.PosInf
       | None => Js.PosInf
       end;
     Physician.startDate :=
       if Js.truthy (Row.startDate row) then default "" (Row.startDate row)
       else "";
     Physician.trialTitle := Row.nctId row |}.

(** [GET(req)] *)
Definition GET (q : Query) : HttpResponse ApiResponse.t :=
  match plan q with
  | JsonError e s => JsonError e s
  | JsonOk (zip, p) =>
      JsonOk {| ApiResponse.physicians := map (toPhysician zip) (select_rows p);
                ApiResponse.totalCount := select_count (whereExpr p) |}
  end.
End Handler.

End InvestigatorsRoute.

(* ===================================================================== *)
(** ** [app/pi-finder/page.tsx]: the result reconciler *)
(* ===================================================================== *)
Module Page.

(** [TrialFilters] of [components/trial-filter-drawer.tsx]. *)
Inductive SponsorType : Type := Any | Industry.

Record TrialFilters : Type := mkFilters {
  phases : list string;
  sponsorType : SponsorType;
  recruitingOnly : bool;
}.

Definition DEFAULT_FILTERS : TrialFilters :=
  {| phases := []; sponsorType := Any; recruitingOnly := false |}.

Record SearchParams : Type := mkSearchParams {
  zipCode : string;
  radius : Js.Num;
  startYear : option Js.Num;
  endYear : option Js.Num;
}.

(** The component state a render reads: the [useState] cells and the
    results of the two [useQuery] hooks. *)
Record State : Type := mkState {
  currentPage : Z;
  searchParams : option SearchParams;
  filters : TrialFilters;
  (* useQuery(["physicians", searchParams, currentPage]) *)
  data : option ApiResponse.t;
  isLoading : bool;
  isFetching : bool;
  error : option string;
  (* the full-set fetch *)
  allPhysicians : option (list Physician.t);
  allLoading : bool;
  allError : option string;
  allPhysiciansDataAvailable : bool;
  (* useTrialMeta(nctIds) *)
  trialMetaData : option (list TrialMeta.t);
  metaLoading : bool;
  metaError : option string;
}.

Definition sponsorIs (a b : SponsorType) : bool :=
  match a, b with
  | Any, Any | Industry, Industry => true
  | _, _ => false
  end.

Definition isActive (f : TrialFilters) : bool :=
  (0 <? Z.of_nat (length (phases f)))
  || negb (sponsorIs (sponsorType f) Any)
  || recruitingOnly f.

Definition isTrialFilterActive (st : State) : bool := isActive (filters st).

(** [data?.physicians || []] *)
Definition pagePhysicians (st : State) : list Physician.t :=
  match data st with
  | Some d => ApiResponse.physicians d
  | None => []
  end.

(** [isTrialFilterActive && allPhysicians ? allPhysicians
      : data?.physicians || []] *)
Definition base (st : State) : list Physician.t :=
  match allPhysicians st with
  | Some all => if isTrialFilterActive st then all else pagePhysicians st
  | None => pagePhysicians st
  end.

Definition nctIds (st : State) : list string :=
  omap (fun p => match Physician.nctId p with
                 | Some i => if Js.truthyStr i then Some i else None
                 | None => None
                 end)
       (base st).

(** [data: trialMeta = []] *)
Definition trialMeta (st : State) : list TrialMeta.t :=
  default [] (trialMetaData st).

(** The lookup built by [m.set(tm.nctId, tm)] over [trialMeta]. *)
Definition metaMapOf (tms : list TrialMeta.t) : gmap string TrialMeta.t :=
  foldl (fun m tm => <[TrialMeta.nctId tm := tm]> m) ∅ tms.

Definition metaMap (st : State) : gmap string TrialMeta.t :=
  metaMapOf (trialMeta st).

(** The callback of [base.filter(...)]. *)
Definition keep (f : TrialFilters) (m : gmap string TrialMeta.t)
           (p : Physician.t) : bool :=
  let meta :=
    match Physician.nctId p with
    | Some i => if Js.truthyStr i then m !! i else None
    | None => None
    end in
  match meta with
  | None => false
  | Some meta =>
      if (0 <? Z.of_nat (length (phases f)))
         && negb (existsb (String.eqb (TrialMeta.phase meta)) (phases f))
      then false
      else if sponsorIs (sponsorType f) Industry
              && negb (match TrialMeta.fundedBy meta with
                       | Some s => String.eqb (Js.toLowerCase s) "industry"
                       | None => false
                       end)
      then false
      else if recruitingOnly f
              && negb (match TrialMeta.overallStatus meta with
                       | Some s => Js.startsWith (Js.toLowerCase s) "recruit"
                       | None => false
                       end)
      then false
      else true
  end.

Definition filteredPhysicians (st : State) : list Physician.t :=
  let base := base st in
  match base with
  | [] => []
  | _ =>
      let noPhase := Nat.eqb (length (phases (filters st))) 0 in
      let anySponsor := sponsorIs (sponsorType (filters st)) Any in
      let noRecruit := negb (recruitingOnly (filters st)) in
      if negb (isTrialFilterActive st) || (noPhase && anySponsor && noRecruit)
      then base
      else List.filter (keep (filters st) (metaMap st)) base
  end.

Definition paginatedPhysicians (st : State) : list Physician.t :=
  if isTrialFilterActive st then
    let start := (currentPage st - 1) * ITEMS_PER_PAGE in
    let end_ := start + ITEMS_PER_PAGE in
    Js.slice start end_ (filteredPhysicians st)
  else filteredPhysicians st.

Definition displayPhysicians (st : State) : list Physician.t :=
  paginatedPhysicians st.

Definition filteredTotalCount (st : State) : Z :=
  Z.of_nat (length (filteredPhysicians st)).

Definition filteredTotalPages (st : State) : Z :=
  Js.ceilDiv (filteredTotalCount st) ITEMS_PER_PAGE.

(** [data?.totalCount || 0] *)
Definition serverTotalCount (st : State) : Z :=
  match data st with
  | Some d => if ApiResponse.totalCount d =? 0 then 0 else ApiResponse.totalCount d
  | None => 0
  end.

Definition totalCountToShow (st : State) : Z :=
  if isTrialFilterActive st then filteredTotalCount st else serverTotalCount st.

Definition totalPagesToShow (st : State) : Z :=
  if isTrialFilterActive st then filteredTotalPages st
  else Js.ceilDiv (serverTotalCount st) ITEMS_PER_PAGE.

Definition isSearching (st : State) : bool := isLoading st || isFetching st.

(** *** What the results section renders *)

Inductive Results : Type :=
| Skeletons
| Cards (shown : list Physician.t) (totalPages : Z)
| EmptyPlaceholder (message : string)
| Nothing.

Record View : Type := mkView {
  (** [<ErrorMessage>] for the page query *)
  errorMessage : option string;
  (** "Showing a-b of n results": (a, b, n) *)
  resultsCount : option (Z * Z * Z);
  allSkeleton : bool;
  (** [<ErrorMessage>] for the full-set fetch *)
  allErrorMessage : option string;
  results : Results;
  (** "Failed to fetch trial metadata. Filters may be incomplete." *)
  metaWarning : bool;
}.

Definition isNonEmpty {A} (l : list A) : bool :=
  match l with [] => false | _ => true end.

Definition render (st : State) : View :=
  let shown := displayPhysicians st in
  let n := Z.of_nat (length shown) in
  {| errorMessage := error st;
     resultsCount :=
       if bool_decide (is_Some (searchParams st))
          && negb (isSearching st || allLoading st)
          && negb (bool_decide (is_Some (error st)))
          && negb (Js.truthy (allError st))
          && isNonEmpty shown
       then Some ((currentPage st - 1) * ITEMS_PER_PAGE + 1,
                  Z.min ((currentPage st - 1) * ITEMS_PER_PAGE + n)
                        (totalCountToShow st),
                  totalCountToShow st)
       else None;
     allSkeleton := allLoading st;
     allErrorMessage := if Js.truthy (allError st) then allError st else None;
     results :=
       if isSearching st then Skeletons
       else if isNonEmpty shown then Cards shown (totalPagesToShow st)
       else if bool_decide (is_Some (searchParams st))
               && negb (bool_decide (is_Some (error st)))
       then EmptyPlaceholder "No PIs match the selected filters."
       else Nothing;
     metaWarning := bool_decide (is_Some (metaError st)) |}.

(** *** The full-set fetch: the effect on [isTrialFilterActive] and
    [searchParams], and the two ways its promise settles (while the effect
    has not been cleaned up: [cancelled] is false) *)

Definition set_all (st : State)
           (all : option (list Physician.t)) (loading : bool)
           (err : option string) (available : bool) : State :=
  {| currentPage := currentPage st;
     searchParams := searchParams st;
     filters := filters st;
     data := data st;
     isLoading := isLoading st;
     isFetching := isFetching st;
     error := error st;
     allPhysicians := all;
     allLoading := loading;
     allError := err;
     allPhysiciansDataAvailable := available;
     trialMetaData := trialMetaData st;
     metaLoading := metaLoading st;
     metaError := metaError st |}.

(** The synchronous part of the effect.  [true]: the fetch was issued. *)
Definition fetchAllEffect (st : State) : State * bool :=
  if isTrialFilterActive st && bool_decide (is_Some (searchParams st))
  then (set_all st (allPhysicians st) true None false, true)
  else (set_all st None (allLoading st) None false, false).

(** [.then(...)] followed by [.finally(...)] *)
Definition fetchAllResolved (res : ApiResponse.t) (st : State) : State :=
  set_all st (Some (ApiResponse.physicians res)) false (allError st) true.


(** [setFilters(f)] *)
Definition setFilters (f : TrialFilters) (st : State) : State :=
  {| currentPage := currentPage st;
     searchParams := searchParams st;
     filters := f;
     data := data st;
     isLoading := isLoading st;
     isFetching := isFetching st;
     error := error st;
     allPhysicians := allPhysicians st;
     allLoading := allLoading st;
     allError := allError st;
     allPhysiciansDataAvailable := allPhysiciansDataAvailable st;
     trialMetaData := trialMetaData st;
     metaLoading := metaLoading st;
     metaError := metaError st |}.

End Page.

(* ===================================================================== *)
(** ** [lib/api.ts] *)
(* ===================================================================== *)
Module Api.

(** How the promise returned by [fetchResults] settles. *)
Inductive Settled (A : Type) : Type :=
| Fulfilled (value : A)
| Failed (message : string).
Arguments Fulfilled {A} value.
Arguments Failed {A} message.

(** The query parameters [fetchResults] sets.  The endpoint does not read
    [indications], so the request record has no field for it. *)
Definition request (zipCode : string) (radius : Js.Num) (page : Js.Num)
           (startYear endYear : option Js.Num) : InvestigatorsRoute.Query :=
  {| InvestigatorsRoute.q_zip := Some zipCode;
     InvestigatorsRoute.q_radius := Some (Js.toString radius);
     InvestigatorsRoute.q_page := Some (Js.toString page);
     InvestigatorsRoute.q_startYear :=
       match startYear with
       | Some y => if Js.truthyNum y then Some (Js.toString y) else None
       | None => None
       end;
     InvestigatorsRoute.q_endYear :=
       match endYear with
       | Some y => if Js.truthyNum y then Some (Js.toString y) else None
       | None => None
       end |}.

Section Client.
(** [/api/investigators], as seen through [fetch]: the parameters are
    delivered as set, and the response is the handler's. *)
Variable endpoint : InvestigatorsRoute.Query -> HttpResponse ApiResponse.t.

(** [fetchResults(zipCode, radius, indications, page, startYear, endYear)] *)
Definition fetchResults (zipCode : string) (radius : Js.Num)
           (indications : list string) (page : Js.Num)
           (startYear endYear : option Js.Num) : Settled ApiResponse.t :=
  if negb (Js.testDigits 5 zipCode)
  then Failed "Invalid ZIP code. Please enter a valid 5‑digit ZIP code."
  else
    match endpoint (request zipCode radius page startYear endYear) with
    | JsonOk body => Fulfilled body
    | JsonError e status =>
        Failed (if Js.truthyStr e then e
                else "Request failed with status " ++ pretty status)
    end.
End Client.

End Api.

(* ===================================================================== *)
(** ** [components/pagination-controls.tsx] *)
(* ===================================================================== *)
Module PaginationControls.

(** An entry of [pages]: a page number, ["ellipsis-start"] or
    ["ellipsis-end"]. *)
Inductive PageItem : Type :=
| PageNumber (n : Z)
| EllipsisStart
| EllipsisEnd.

Definition getPageNumbers (currentPage totalPages : Z) : list PageItem :=
  let startPage := Z.max 2 (currentPage - 1) in
  let endPage := Z.min (totalPages - 1) (currentPage + 1) in
  ([PageNumber 1]
     ++ (if 2 <? startPage then [EllipsisStart] else [])
     ++ map PageNumber (seqZ startPage (endPage - startPage + 1))
     ++ (if endPage <? totalPages - 1 then [EllipsisEnd] else [])
     ++ (if 1 <? totalPages then [PageNumber totalPages] else []))%list.

(** What the component renders inside its list. *)
Inductive Control : Type :=
| Previous
| PageLink (page : Z)
| Ellipsis
| Next.

Definition toControl (item : PageItem) : Control :=
  match item with
  | PageNumber n => PageLink n
  | EllipsisStart | EllipsisEnd => Ellipsis
  end.

(** [None]: the component renders nothing. *)
Definition render (currentPage totalPages : Z) : option (list Control) :=
  if totalPages <=? 1 then None
  else Some ([Previous]
               ++ map toControl (getPageNumbers currentPage totalPages)
               ++ [Next])%list.

(** The [onClick] handlers: the page passed to [onPageChange], if any. *)
Definition onClick (currentPage totalPages : Z) (c : Control) : option Z :=
  match c with
  | Previous => if 1 <? currentPage then Some (currentPage - 1) else None
  | PageLink page => Some page
  | Ellipsis => None
  | Next => if currentPage <? totalPages then Some (currentPage + 1) else None
  end.

End PaginationControls.

(* ===================================================================== *)
(** ** [components/trial-filter-drawer.tsx] *)
(* ===================================================================== *)
Module TrialFilterDrawer.

Definition PHASE_OPTIONS : list string := ["1"; "2"; "3"; "4"; "NA"].

(** The [counts] memo: studies per phase.  ([study.phase ?? "NA"] is
    [study.phase]: the field of a [TrialMeta] is a string.) *)
Definition counts (meta : list TrialMeta.t) : gmap string Z :=
  foldl (fun m study =>
           let phase := TrialMeta.phase study in
           <[phase := default 0 (m !! phase) + 1]> m)
        ∅ meta.

(** The number shown on the chip of phase [p] ([counts[p] ? ... : null]). *)
Definition chipCount (meta : list TrialMeta.t) (p : string) : option Z :=
  match counts meta !! p with
  | Some n => if n =? 0 then None else Some n
  | None => None
  end.

End TrialFilterDrawer.

(* ===================================================================== *)
(** ** [app/pi-finder/page.tsx]: the search form and the page's requests *)
(* ===================================================================== *)

(** The input cells of the search panel. *)
Module Form.
Record t : Type := mk {
  zipCode : string;
  radius : Js.Num;
  startYear : string;
  endYear : string;
}.
End Form.

Module Search.
Import Page.

Definition setCurrentPage (page : Z) (st : State) : State :=
  {| currentPage := page;
     searchParams := searchParams st;
     filters := filters st;
     data := data st;
     isLoading := isLoading st;
     isFetching := isFetching st;
     error := error st;
     allPhysicians := allPhysicians st;
     allLoading := allLoading st;
     allError := allError st;
     allPhysiciansDataAvailable := allPhysiciansDataAvailable st;
     trialMetaData := trialMetaData st;
     metaLoading := metaLoading st;
     metaError := metaError st |}.

Definition setSearchParams (sp : option SearchParams) (st : State) : State :=
  {| currentPage := currentPage st;
     searchParams := sp;
     filters := filters st;
     data := data st;
     isLoading := isLoading st;
     isFetching := isFetching st;
     error := error st;
     allPhysicians := allPhysicians st;
     allLoading := allLoading st;
     allError := allError st;
     allPhysiciansDataAvailable := allPhysiciansDataAvailable st;
     trialMetaData := trialMetaData st;
     metaLoading := metaLoading st;
     metaError := metaError st |}.

(** [(y) => y === "" || (/^[0-9]{4}$/.test(y) && Number(y) >= 1900
      && Number(y) <= 2100)] *)
Definition isValidYear (y : string) : bool :=
  String.eqb y ""
  || (Js.testDigits 4 y
      && Js.ge (Js.Number y) (Js.ofZ 1900)
      && Js.leb (Js.Number y) (Js.ofZ 2100)).

(** [y ? Number(y) : undefined] *)
Definition yearOf (y : string) : option Js.Num :=
  if Js.truthyStr y then Some (Js.Number y) else None.

Definition truthyYear (n : option Js.Num) : bool :=
  match n with Some x => Js.truthyNum x | None => false end.

(** [handleSearch()] *)
Definition handleSearch (f : Form.t) (st : State) : State :=
  let st := setFilters DEFAULT_FILTERS st in
  let zipCode := Form.zipCode f in
  if negb (Js.truthyStr zipCode)
     || negb (Nat.eqb (String.length zipCode) 5)
     || negb (Js.testDigitsPlus zipCode)
  then st
  else if negb (isValidYear (Form.startYear f))
          || negb (isValidYear (Form.endYear f))
  then st
  else
    let sy := yearOf (Form.startYear f) in
    let ey := yearOf (Form.endYear f) in
    let '(syFixed, eyFixed) :=
      if truthyYear sy && truthyYear ey
         && Js.gt (default Js.NaN sy) (default Js.NaN ey)
      then (ey, sy) else (sy, ey) in
    setSearchParams
      (Some {| zipCode := zipCode;
               radius := Form.radius f;
               startYear := syFixed;
               endYear := eyFixed |})
      (setCurrentPage 1 st).

(** [handlePageChange(page)] (the scrolling aside). *)
Definition handlePageChange (page : Z) (st : State) : State :=
  setCurrentPage page st.

Section Requests.
Variable endpoint : InvestigatorsRoute.Query -> HttpResponse ApiResponse.t.

(** The [queryFn] of the page query. *)
Definition pageQuery (st : State) : Api.Settled ApiResponse.t :=
  match searchParams st with
  | Some sp =>
      Api.fetchResults endpoint (zipCode sp) (radius sp) []
                       (Js.ofZ (currentPage st)) (startYear sp) (endYear sp)
  | None => Api.Fulfilled {| ApiResponse.physicians := [];
                             ApiResponse.totalCount := 0 |}
  end.

(** The full-set fetch of the effect.  [fetchResults] has six parameters:
    the seventh argument of the call ([true], "fetchAll") is dropped. *)
Definition fullSetQuery (sp : SearchParams) : Api.Settled ApiResponse.t :=
  Api.fetchResults endpoint (zipCode sp) (radius sp) []
                   (Js.ofZ 1) (startYear sp) (endYear sp).
End Requests.

End Search.

(* ===================================================================== *)
(** ** Vocabulary of the properties *)
(* ===================================================================== *)
Module Spec.
Import TrialMetaRoute.

(** [s.protocolSection.designModule?.phases?.[0]] *)
Definition firstPhase (s : CtStudy) : option string :=
  match designModule (protocolSection s) with
  | Some d => match phases d with
              | Some ps => head ps
              | None => None
              end
  | None => None
  end.

(** The characters of the class [1-4]. *)
Definition phaseDigits : list ascii := ["1"; "2"; "3"; "4"]%char.

(** A raw study with the given phase list and no sponsor or status. *)
Definition phasedStudy (nct : string) (ps : option (list string)) : CtStudy :=
  {| protocolSection :=
       {| identificationModule := {| nctId := nct |};
          designModule := Some {| phases := ps |};
          sponsorCollaboratorsModule := None;
          statusModule := None |} |}.

(** Sample identifiers "NCT<from>", "NCT<from+1>", ... ([n] of them). *)
Definition sampleIds (from n : nat) : list string :=
  map (fun k : nat => "NCT" ++ pretty k) (seq from n).

(** The studies a request brings back, if the registry answers it with a
    success. *)
Definition studiesOf (fetch : CtRequest -> Fetched) (req : CtRequest)
  : list CtStudy :=
  match fetch req with
  | Responded res => if ok res then default [] (studies res) else []
  | Rejected _ => []
  end.

(** The registry answers [req] with a success. *)
Definition succeeds (fetch : CtRequest -> Fetched) (req : CtRequest) : Prop :=
  exists res, fetch req = Responded res /\ ok res = true.

(** The registry fails [last] in the way reported by [m]: the request is
    rejected with [m], or answered with a non-success status that [m]
    carries. *)
Definition failsWith (fetch : CtRequest -> Fetched) (last : CtRequest)
           (m : string) : Prop :=
  fetch last = Rejected m
  \/ exists res, fetch last = Responded res /\ ok res = false
                 /\ m = failureMessage res.

(** [r] continues a run that had issued [log] and collected [out]: it
    issues further requests, all successful except possibly the last one,
    and, if it returns, returns [out] followed by the studies these
    requests brought back. *)
Definition continues (fetch : CtRequest -> Fetched)
           (log : list CtRequest) (out : list CtStudy)
           (r : Run (list CtStudy)) : Prop :=
  exists new,
    requests r = (log ++ new)%list /\
    match outcome r with
    | Returned out' =>
        Forall (succeeds fetch) new
        /\ out' = (out ++ flat_map (studiesOf fetch) new)%list
    | Threw m =>
        exists pre last,
          new = (pre ++ [last])%list /\ Forall (succeeds fetch) pre
          /\ failsWith fetch last m
    | Unfinished => Forall (succeeds fetch) new
    end.

(** The first request of a batch. *)
Definition requestOf (batch : list string) : CtRequest :=
  {| filter_ids := Js.join "," batch;
     pageSize := pretty (Z.of_nat (length batch));
     pageToken := None |}.

(** The registry answers [req] with a success that has no further page. *)
Definition onePage (fetch : CtRequest -> Fetched) (req : CtRequest) : Prop :=
  exists res, fetch req = Responded res /\ ok res = true
              /\ Js.truthy (nextPageToken res) = false.

(** A raw study that carries only its identifier. *)
Definition bareStudy (nct : string) : CtStudy :=
  {| protocolSection :=
       {| identificationModule := {| nctId := nct |};
          designModule := None;
          sponsorCollaboratorsModule := None;
          statusModule := None |} |}.

(** A registry for examples: it answers every request with status 200,
    one bare study per comma-separated entry of [filter.ids], in one page. *)
Definition echo (req : CtRequest) : Fetched :=
  Responded {| res_status := 200;
               studies := Some (map bareStudy (Js.split "," (filter_ids req)));
               nextPageToken := None |}.

(** A registry for examples that answers every request with [status] and
    an empty body. *)
Definition answering (status : Z) (req : CtRequest) : Fetched :=
  Responded {| res_status := status; studies := None; nextPageToken := None |}.

(** An identifier that survives the query-string form unchanged: it is not
    empty, has no comma, and no white space at either end. *)
Definition noComma (s : string) : bool :=
  Js.allChars (fun c => negb (Ascii.eqb c ",")) s.

Definition clean (id : string) : bool :=
  Js.truthyStr id && noComma id && String.eqb (Js.trim id) id.

(** The [ids] parameter the GET handler reads when the hook asks for
    [ids] through the query-string form. *)
Definition received (ids : list string) : option string :=
  Url.get "ids" (Url.searchParams (UseTrialMeta.url ids)).

(** Text a URL carries unchanged: visible ASCII characters other than
    "#", "&", "+" and "%". *)
Definition plainChar (c : ascii) : bool :=
  Js.inRange 33 126 c
  && negb (Ascii.eqb c "#") && negb (Ascii.eqb c "&")
  && negb (Ascii.eqb c "+") && negb (Ascii.eqb c "%").

Definition plain (s : string) : bool := Js.allChars plainChar s.

(** Two responses carry the same set of records (order and repetitions
    aside), or are the same failure. *)
Definition sameRecords (a b : option (HttpResponse (list TrialMeta.t))) : Prop :=
  match a, b with
  | Some (JsonOk x), Some (JsonOk y) => forall tm, In tm x <-> In tm y
  | Some (JsonError ea sa), Some (JsonError eb sb) => ea = eb /\ sa = sb
  | None, None => True
  | _, _ => False
  end.

End Spec.

Module RouteSpec.
Import InvestigatorsRoute.


Definition withPage (q : Query) (page : option string) : Query :=
  {| q_zip := q_zip q; q_radius := q_radius q; q_page := page;
     q_startYear := q_startYear q; q_endYear := q_endYear q |}.

(** The number written by a string of decimal digits. *)
Fixpoint digitsFrom (s : string) (acc : Z) : Z :=
  match s with
  | EmptyString => acc
  | String c r => digitsFrom r (acc * 10 + Js.digitVal c)
  end.

Definition digitsValue (s : string) : Z := digitsFrom s 0.

(** Collaborators for examples: every postal code is known and is alone in
    its radius, and the database is a table held in memory (smaller than a
    page, so that ordering plays no part). *)
Definition anyZip (zip : string) : bool := true.
Definition onlyItself (zip : string) (radius : Js.Num) : list string := [zip].
Definition noDistance (a b : string) : Js.Num := Js.ofZ 0.

Definition holds (row : Row.t) (c : Clause) : bool :=
  match c with
  | inArray_zip zipList =>
      match Row.zip row with
      | Some z => existsb (String.eqb z) zipList
      | None => false
      end
  | gte_startDate d =>
      match Row.startDate row with
      | Some sd => String.leb d sd
      | None => false
      end
  | lte_startDate d =>
      match Row.startDate row with
      | Some sd => String.leb sd d
      | None => false
      end
  end.

Definition matching (table : list Row.t) (w : Sql) : list Row.t :=
  List.filter (fun row => match w with
                          | where_ c => holds row c
                          | and cs => forallb (holds row) cs
                          end) table.

Definition memRows (table : list Row.t) (p : Plan) : list Row.t :=
  match offset p with
  | Js.Fin q => take (Z.to_nat (limit p))
                     (drop (Z.to_nat (Qnum q / Zpos (Qden q))) (matching table (whereExpr p)))
  | _ => []
  end.

Definition memCount (table : list Row.t) (w : Sql) : Z :=
  Z.of_nat (length (matching table w)).

(** One investigator whose study started in 2015. *)
Definition table2015 : list Row.t :=
  [ {| Row.id := 1; Row.name := "A. Investigator"; Row.role := None;
       Row.facility := None; Row.city := None; Row.state := None;
       Row.zip := Some "77030"; Row.affiliation := None;
       Row.nctId := Some "NCT01"; Row.startDate := Some "2015-06-01" |} ].

Definition exampleGET (q : Query) : HttpResponse ApiResponse.t :=
  GET anyZip onlyItself noDistance (memRows table2015) (memCount table2015) q.

Definition exampleQuery (startYear endYear : option string) : Query :=
  {| q_zip := Some "77030"; q_radius := None; q_page := None;
     q_startYear := startYear; q_endYear := endYear |}.

End RouteSpec.

Module PageSpec.
Import Page.

(** [meta] is the attributes record of [p]: [p] has a non-empty trial
    identifier and the lookup maps it to [meta]. *)
Definition attributed (m : gmap string TrialMeta.t) (p : Physician.t)
           (meta : TrialMeta.t) : Prop :=
  exists i, Physician.nctId p = Some i /\ i <> "" /\ m !! i = Some meta.

(** No attributes record exists for [p]. *)
Definition unattributable (m : gmap string TrialMeta.t) (p : Physician.t) : Prop :=
  forall meta, ~ attributed m p meta.

(** Rules 2 to 4 of the filter predicate. *)
Definition matches (f : TrialFilters) (meta : TrialMeta.t) : Prop :=
  (phases f <> [] -> In (TrialMeta.phase meta) (phases f))
  /\ (sponsorType f = Industry ->
      exists s, TrialMeta.fundedBy meta = Some s
                /\ Js.toLowerCase s = "industry")
  /\ (recruitingOnly f = true ->
      exists s, TrialMeta.overallStatus meta = Some s
                /\ Js.startsWith (Js.toLowerCase s) "recruit" = true).

(** The filter predicate: rule 1 (attributable) and rules 2 to 4. *)
Definition satisfies (f : TrialFilters) (m : gmap string TrialMeta.t)
           (p : Physician.t) : Prop :=
  exists meta, attributed m p meta /\ matches f meta.

(** The page [(currentPage - 1) * 6 .. + 6] of a list. *)
Definition pageOfList (st : State) (l : list Physician.t) : list Physician.t :=
  Js.slice ((currentPage st - 1) * ITEMS_PER_PAGE)
           ((currentPage st - 1) * ITEMS_PER_PAGE + ITEMS_PER_PAGE) l.

(** Data for examples: the two investigators and the two attributes
    records of the scenarios. *)
Definition investigator (n : Z) (nct : option string) (started : string)
  : Physician.t :=
  {| Physician.id := n; Physician.name := "Investigator";
     Physician.role := None; Physician.facility := None;
     Physician.city := None; Physician.state := None;
     Physician.zip := None; Physician.affiliation := None;
     Physician.nctId := nct; Physician.distance := Js.ofZ 0;
     Physician.startDate := started; Physician.trialTitle := nct |}.

Definition inv1 : Physician.t := investigator 1 (Some "NCT01") "2020-01-01".
Definition inv2 : Physician.t := investigator 2 (Some "NCT02") "2021-01-01".
Definition inv3 : Physician.t := investigator 3 None "2019-01-01".

Definition meta1 : TrialMeta.t :=
  TrialMeta.mk "NCT01" "2" (Some "OTHER") (Some "COMPLETED").
Definition meta2 : TrialMeta.t :=
  TrialMeta.mk "NCT02" "3" (Some "INDUSTRY") (Some "RECRUITING").

Definition someSearch : SearchParams :=
  {| zipCode := "77030"; radius := Js.ofZ 15; startYear := None; endYear := None |}.

(** The state once the page query and the metadata query have answered:
    [page] is the server page, [all] the full set if it is held. *)
Definition loaded (f : TrialFilters) (page : list Physician.t)
           (all : option (list Physician.t)) (meta : option (list TrialMeta.t))
           (metaErr : option string) : State :=
  {| currentPage := 1; searchParams := Some someSearch; filters := f;
     data := Some (ApiResponse.mk page 40);
     isLoading := false; isFetching := false; error := None;
     allPhysicians := all; allLoading := false; allError := None;
     allPhysiciansDataAvailable := bool_decide (is_Some all);
     trialMetaData := meta; metaLoading := false; metaError := metaErr |}.

Definition industryRecruiting : TrialFilters :=
  {| phases := []; sponsorType := Industry; recruitingOnly := true |}.
Definition phaseTwo : TrialFilters :=
  {| phases := ["2"]; sponsorType := Any; recruitingOnly := false |}.
Definition recruiting : TrialFilters :=
  {| phases := []; sponsorType := Any; recruitingOnly := true |}.

End PageSpec.

Module ExtraSpec.
Import Page PageSpec.

(** Eight investigators, seven of them on a recruiting trial, held as the
    full set under recruiting-only: two pages of filtered results. *)
Definition sevenRecruiting : list Physician.t :=
  (replicate 7 inv2 ++ [inv1])%list.

Definition twoPages : State :=
  loaded recruiting [] (Some sevenRecruiting) (Some [meta1; meta2]) None.

(** Two investigators, one of them recruiting, seen from page 3. *)
Definition stalePage : State :=
  Search.handlePageChange 3
    (loaded recruiting [inv1; inv2] (Some [inv1; inv2]) (Some [meta1; meta2]) None).

(** What the search form accepts: a postal code of exactly five digits and
    years that are blank or four digits between 1900 and 2100. *)
Definition validYearText (y : string) : Prop :=
  y = "" \/ (Js.testDigits 4 y = true /\ 1900 <= RouteSpec.digitsValue y <= 2100).

Definition validForm (f : Form.t) : Prop :=
  Js.testDigits 5 (Form.zipCode f) = true
  /\ validYearText (Form.startYear f)
  /\ validYearText (Form.endYear f).

(** The year typed in a field, if any. *)
Definition yearValue (y : string) : option Z :=
  if String.eqb y "" then None else Some (RouteSpec.digitsValue y).

(** The two years in ascending order when both are given. *)
Definition ascending (a b : option Z) : option Z * option Z :=
  match a, b with
  | Some x, Some y => (Some (Z.min x y), Some (Z.max x y))
  | _, _ => (a, b)
  end.

(** The date bounds of a search: whole years, both ends included. *)
Definition yearClauses (a b : option Z) : list InvestigatorsRoute.Clause :=
  (match a with
   | Some x => [InvestigatorsRoute.gte_startDate (pretty x ++ "-01-01")]
   | None => []
   end
   ++ match b with
      | Some y => [InvestigatorsRoute.lte_startDate (pretty y ++ "-12-31")]
      | None => []
      end)%list.

(** The condition of a search over the postal codes [zipList] with these
    bounds. *)
Definition expectedWhere (zipList : list string) (a b : option Z)
  : InvestigatorsRoute.Sql :=
  match yearClauses a b with
  | [] => InvestigatorsRoute.where_ (InvestigatorsRoute.inArray_zip zipList)
  | cs => InvestigatorsRoute.and (InvestigatorsRoute.inArray_zip zipList :: cs)
  end.

(** Sample forms. *)
Definition invertedForm : Form.t :=
  Form.mk "77030" (Js.ofZ 15) "2024" "2015".
Definition badZipForm : Form.t :=
  Form.mk "7703" (Js.ofZ 15) "" "".

(** The page numbers among the entries of the pagination list. *)
Definition numbersOf (items : list PaginationControls.PageItem) : list Z :=
  omap (fun item => match item with
                    | PaginationControls.PageNumber n => Some n
                    | _ => None
                    end) items.

(** A registry that cannot be reached: every request is rejected with
    [m]. *)
Definition unreachable (m : string) (req : TrialMetaRoute.CtRequest)
  : TrialMetaRoute.Fetched :=
  TrialMetaRoute.Rejected m.


(** The records of phase [p]. *)
Definition studiesInPhase (p : string) (meta : list TrialMeta.t)
  : list TrialMeta.t :=
  List.filter (fun study => String.eqb (TrialMeta.phase study) p) meta.

(** The numbers on the phase chips, added up (a chip without a number
    counts for nothing). *)
Definition chipTotal (meta : list TrialMeta.t) : Z :=
  foldr Z.add 0
        (map (fun p => default 0 (TrialFilterDrawer.chipCount meta p))
             TrialFilterDrawer.PHASE_OPTIONS).

End ExtraSpec.

(* ===================================================================== *)
(** * Properties *)
(* ===================================================================== *)

(** ** Sanity checks of the JavaScript built-ins *)

Example Number_decimal : Js.Number " 12.50e1 " = Js.Fin 125.
Proof. vm_compute. reflexivity. Qed.

Example Number_year : Js.toString (Js.Number "0123") = "123".
Proof. vm_compute. reflexivity. Qed.

Example Number_hex : Js.Number "0x1F" = Js.ofZ 31.
Proof. vm_compute. reflexivity. Qed.

Example Number_garbage : Js.Number "abc" = Js.NaN.
Proof. vm_compute. reflexivity. Qed.

Example Number_empty : Js.Number "" = Js.ofZ 0.
Proof. vm_compute. reflexivity. Qed.

Example split_keeps_empty_pieces : Js.split "," "a,,b," = ["a"; ""; "b"; ""].
Proof. reflexivity. Qed.

Example trim_both_ends : Js.trim "  a b  " = "a b".
Proof. reflexivity. Qed.

Example slice_negative_start : Js.slice (-6) 0 [1; 2; 3] = [].
Proof. reflexivity. Qed.

Example slice_past_the_end : Js.slice 6 12 [1; 2; 3; 4; 5; 6; 7; 8] = [7; 8].
Proof. reflexivity. Qed.

(** ** Phase normalisation *)

Section PhaseNormalisation.
Import TrialMetaRoute Spec.

Lemma inRange_phaseDigit (c : ascii) :
  Js.inRange 49 52 c = true <-> In c phaseDigits.
Proof.
  destruct c as [[] [] [] [] [] [] [] []]; vm_compute;
    (split;
     [ intros H; first [ discriminate H | tauto ]
     | intros H; first [ reflexivity
                       | exfalso; repeat (destruct H as [H | H]; [discriminate H|]);
                         exact H ] ]).
Qed.

Lemma matchClass_none (p : ascii -> bool) (s : string) :
  (forall c, In c (list_ascii_of_string s) -> p c = false) ->
  Js.matchClass p s = None.
Proof.
  induction s as [|c r IH]; intros H; [reflexivity|].
  simpl. rewrite (H c) by (left; reflexivity).
  apply IH. intros c' Hc'. apply H. right. exact Hc'.
Qed.

Lemma matchClass_first (p : ascii -> bool) (pre post : string) (d : ascii) :
  (forall c, In c (list_ascii_of_string pre) -> p c = false) ->
  p d = true ->
  Js.matchClass p (pre ++ String d post) = Some (String d EmptyString).
Proof.
  induction pre as [|c r IH]; intros Hpre Hd; simpl.
  - rewrite Hd. reflexivity.
  - rewrite (Hpre c) by (left; reflexivity).
    apply IH; [|exact Hd]. intros c' Hc'. apply Hpre. right. exact Hc'.
Qed.

Lemma matchClass_some (p : ascii -> bool) (s m : string) :
  Js.matchClass p s = Some m ->
  exists d, m = String d EmptyString /\ p d = true.
Proof.
  induction s as [|c r IH]; simpl; [discriminate|].
  destruct (p c) eqn:Hc.
  - intros [= <-]. exists c. split; [reflexivity | exact Hc].
  - exact IH.
Qed.

Lemma normalizePhase_unfold (s : CtStudy) :
  normalizePhase s =
  match Js.matchClass (Js.inRange 49 52) (default "NA" (firstPhase s)) with
  | Some m => m
  | None => "NA"
  end.
Proof.
  unfold normalizePhase, firstPhase.
  destruct (designModule (protocolSection s)) as [d|]; [|reflexivity].
  destruct (phases d) as [[|p ps]|]; reflexivity.
Qed.

(** C7.  The normalised phase of a raw study is the first character in
    [1-4] of the first entry of its phase list; it is "NA" when there is
    no first entry or that entry has no such character; so it is always
    one of "1", "2", "3", "4", "NA". *)
Theorem normalizePhase_spec (s : CtStudy) :
  In (normalizePhase s) ["1"; "2"; "3"; "4"; "NA"]
  /\ (firstPhase s = None -> normalizePhase s = "NA")
  /\ (forall raw, firstPhase s = Some raw ->
        (forall c, In c (list_ascii_of_string raw) -> ~ In c phaseDigits) ->
        normalizePhase s = "NA")
  /\ (forall pre d post, firstPhase s = Some (pre ++ String d post) ->
        (forall c, In c (list_ascii_of_string pre) -> ~ In c phaseDigits) ->
        In d phaseDigits ->
        normalizePhase s = String d EmptyString)
  /\ TrialMeta.phase (trimStudy s) = normalizePhase s.
Proof.
  rewrite normalizePhase_unfold.
  assert (Hno : forall t,
             (forall c, In c (list_ascii_of_string t) -> ~ In c phaseDigits) ->
             forall c, In c (list_ascii_of_string t) -> Js.inRange 49 52 c = false).
  { intros t Ht c Hc. destruct (Js.inRange 49 52 c) eqn:E; [|reflexivity].
    exfalso. apply (Ht c Hc). apply inRange_phaseDigit. exact E. }
  repeat split.
  - destruct (Js.matchClass _ _) as [m|] eqn:E.
    + apply matchClass_some in E as (d & -> & Hd).
      apply inRange_phaseDigit in Hd.
      destruct Hd as [<-|[<-|[<-|[<-|[]]]]]; simpl; tauto.
    + simpl. tauto.
  - intros ->. reflexivity.
  - intros raw -> Hraw. simpl.
    rewrite (matchClass_none _ _ (Hno raw Hraw)). reflexivity.
  - intros pre d post -> Hpre Hd. simpl.
    rewrite (matchClass_first _ pre post d (Hno pre Hpre)); [reflexivity|].
    apply inRange_phaseDigit. exact Hd.
  - rewrite <- normalizePhase_unfold. reflexivity.
Qed.

Lemma normalizePhase_spec_witness :
  normalizePhase (phasedStudy "NCT01" (Some ["PHASE2"; "PHASE3"])) = "2"
  /\ normalizePhase (phasedStudy "NCT02" (Some ["EARLY_PHASE1"])) = "1"
  /\ normalizePhase (phasedStudy "NCT03" (Some ["NA"])) = "NA"
  /\ normalizePhase (phasedStudy "NCT04" None) = "NA".
Proof.
  split; [|split; [|split]].
  - apply (normalizePhase_spec (phasedStudy "NCT01" (Some ["PHASE2"; "PHASE3"])))
      with (pre := "PHASE") (post := "").
    + reflexivity.
    + intros c Hc Hd. simpl in Hc, Hd.
      repeat (destruct Hc as [<-|Hc];
              [repeat (destruct Hd as [Hd|Hd]; [discriminate Hd|]); exact Hd|]).
      exact Hc.
    + simpl. tauto.
  - apply (normalizePhase_spec (phasedStudy "NCT02" (Some ["EARLY_PHASE1"])))
      with (pre := "EARLY_PHASE") (post := "").
    + reflexivity.
    + intros c Hc Hd. simpl in Hc, Hd.
      repeat (destruct Hc as [<-|Hc];
              [repeat (destruct Hd as [Hd|Hd]; [discriminate Hd|]); exact Hd|]).
      exact Hc.
    + simpl. tauto.
  - apply (normalizePhase_spec (phasedStudy "NCT03" (Some ["NA"]))) with (raw := "NA").
    + reflexivity.
    + intros c Hc Hd. simpl in Hc, Hd.
      repeat (destruct Hc as [<-|Hc];
              [repeat (destruct Hd as [Hd|Hd]; [discriminate Hd|]); exact Hd|]).
      exact Hc.
  - destruct (normalizePhase_spec (phasedStudy "NCT04" None))
      as (_ & Habsent & _).
    apply Habsent. reflexivity.
Defined.

End PhaseNormalisation.

(** ** Batching *)

Section Batching.
Import TrialMetaRoute Spec.

Lemma slice_window {A} (i w : Z) (l : list A) :
  0 <= i -> 0 <= w ->
  Js.slice i (i + w) l = take (Z.to_nat w) (drop (Z.to_nat i) l).
Proof.
  intros Hi Hw. unfold Js.slice.
  destruct (Z.ltb_spec i 0); [lia|].
  destruct (Z.ltb_spec (i + w) 0); [lia|].
  destruct (Z.le_gt_cases i (Z.of_nat (length l))) as [Hle|Hgt].
  - rewrite (Z.min_l i) by lia.
    destruct (Z.le_gt_cases (i + w) (Z.of_nat (length l))).
    + rewrite Z.min_l by lia. f_equal. lia.
    + rewrite Z.min_r by lia.
      rewrite !take_ge; [reflexivity | rewrite length_drop; lia ..].
  - rewrite (drop_ge l (Z.to_nat i)) by lia.
    rewrite (drop_ge l (Z.to_nat (Z.min i _))) by lia.
    rewrite !take_nil. reflexivity.
Qed.

Lemma batchesFrom_concat (ids : list string) (n : nat) (i : Z) :
  0 <= i -> Z.of_nat (length ids) - i <= Z.of_nat n ->
  concat (batchesFrom n i ids) = drop (Z.to_nat i) ids.
Proof.
  revert i. induction n as [|n IH]; intros i Hi Hn; simpl.
  - rewrite drop_ge by lia. reflexivity.
  - destruct (Z.ltb_spec i (Z.of_nat (length ids))) as [Hlt|Hge].
    + simpl. rewrite IH by (unfold MAX_BATCH; lia).
      rewrite slice_window by (unfold MAX_BATCH; lia).
      replace (Z.to_nat (i + MAX_BATCH))
        with (Z.to_nat i + Z.to_nat MAX_BATCH)%nat by (unfold MAX_BATCH; lia).
      rewrite <- drop_drop. apply take_drop.
    + rewrite drop_ge by lia. reflexivity.
Qed.

Lemma batchesFrom_sizes (ids : list string) (n : nat) (i : Z) :
  0 <= i ->
  Forall (fun b : list string => 0 < Z.of_nat (length b) <= MAX_BATCH)
         (batchesFrom n i ids).
Proof.
  revert i. induction n as [|n IH]; intros i Hi; simpl; [constructor|].
  destruct (Z.ltb_spec i (Z.of_nat (length ids))) as [Hlt|Hge]; [|constructor].
  constructor; [|apply IH; unfold MAX_BATCH; lia].
  rewrite slice_window by (unfold MAX_BATCH; lia).
  rewrite length_take, length_drop. unfold MAX_BATCH. lia.
Qed.

Lemma ceilDiv_step (r b : Z) : 0 < b -> Js.ceilDiv (r - b) b = Js.ceilDiv r b - 1.
Proof.
  intros Hb. unfold Js.ceilDiv.
  replace (- (r - b)) with (- r + 1 * b) by lia.
  rewrite Z.div_add by lia. lia.
Qed.

Lemma ceilDiv_pos (r b : Z) : 0 < b -> 0 < r -> 0 < Js.ceilDiv r b.
Proof.
  intros Hb Hr. unfold Js.ceilDiv.
  assert (- r / b < 0); [|lia].
  apply Z.div_lt_upper_bound; lia.
Qed.

Lemma ceilDiv_nonpos (r b : Z) : 0 < b -> r <= 0 -> Js.ceilDiv r b <= 0.
Proof.
  intros Hb Hr. unfold Js.ceilDiv.
  assert (0 <= - r / b); [|lia].
  apply Z.div_pos; lia.
Qed.

Lemma batchesFrom_count (ids : list string) (n : nat) (i : Z) :
  0 <= i -> Z.of_nat (length ids) - i <= Z.of_nat n ->
  Z.of_nat (length (batchesFrom n i ids))
  = Z.max 0 (Js.ceilDiv (Z.of_nat (length ids) - i) MAX_BATCH).
Proof.
  revert i. induction n as [|n IH]; intros i Hi Hn; simpl.
  - pose proof (ceilDiv_nonpos (Z.of_nat (length ids) - i) MAX_BATCH).
    unfold MAX_BATCH in *. lia.
  - destruct (Z.ltb_spec i (Z.of_nat (length ids))) as [Hlt|Hge].
    + cbn [length]. rewrite Nat2Z.inj_succ, IH by (unfold MAX_BATCH; lia).
      replace (Z.of_nat (length ids) - (i + MAX_BATCH))
        with (Z.of_nat (length ids) - i - MAX_BATCH) by lia.
      rewrite ceilDiv_step by (unfold MAX_BATCH; lia).
      pose proof (ceilDiv_pos (Z.of_nat (length ids) - i) MAX_BATCH).
      unfold MAX_BATCH in *. lia.
    + pose proof (ceilDiv_nonpos (Z.of_nat (length ids) - i) MAX_BATCH).
      simpl. unfold MAX_BATCH in *. lia.
Qed.

Lemma batches_150 (ids : list string) :
  length ids = 150%nat -> batches ids = [take 100 ids; drop 100 ids].
Proof.
  intros H. unfold batches. rewrite H.
  change 150%nat with (S (S (S 147))).
  cbn [batchesFrom]. rewrite H.
  change (0 <? Z.of_nat 150) with true.
  change (0 + MAX_BATCH <? Z.of_nat 150) with true.
  change (0 + MAX_BATCH + MAX_BATCH <? Z.of_nat 150) with false.
  cbv iota.
  rewrite (slice_window 0 MAX_BATCH) by (unfold MAX_BATCH; lia).
  rewrite (slice_window (0 + MAX_BATCH) MAX_BATCH) by (unfold MAX_BATCH; lia).
  change (Z.to_nat MAX_BATCH) with 100%nat.
  change (Z.to_nat 0) with 0%nat.
  change (Z.to_nat (0 + MAX_BATCH)) with 100%nat.
  rewrite drop_0. f_equal. f_equal.
  apply take_ge. rewrite length_drop. lia.
Qed.

End Batching.

(** ** Runs of the gateway *)

Section Runs.
Import TrialMetaRoute Spec.
Variable fetch : CtRequest -> Fetched.

Lemma collect_success (out : list CtStudy) (req : CtRequest)
      (res : CtResponse) :
  fetch req = Responded res -> ok res = true ->
  match studies res with
  | Some (s :: ss) => (out ++ s :: ss)%list
  | _ => out
  end = (out ++ studiesOf fetch req)%list.
Proof.
  intros Hf Hok. unfold studiesOf. rewrite Hf, Hok.
  destruct (studies res) as [[|s ss]|]; simpl;
    rewrite ?app_nil_r; reflexivity.
Qed.

Lemma continues_step (log : list CtRequest) (out : list CtStudy)
      (req : CtRequest) (r : Run (list CtStudy)) :
  succeeds fetch req ->
  continues fetch (log ++ [req]) (out ++ studiesOf fetch req) r ->
  continues fetch log out r.
Proof.
  intros Hreq (new & Hlog & Hout). exists (req :: new). split.
  - rewrite Hlog, <- app_assoc. reflexivity.
  - destruct (outcome r) as [out'|m|].
    + destruct Hout as [Hall ->]. split; [constructor; assumption|].
      simpl. rewrite <- app_assoc. reflexivity.
    + destruct Hout as (pre & last & -> & Hpre & Hlast).
      exists (req :: pre), last. repeat split; [constructor|]; assumption.
    + constructor; assumption.
Qed.

Lemma fetchPages_continues (fuel : nat) (batch : list string)
      (tok : option string) (log : list CtRequest) (out : list CtStudy) :
  continues fetch log out (fetchPages fetch fuel batch tok log out).
Proof.
  revert tok log out. induction fuel as [|fuel IH]; intros tok log out.
  - exists []. simpl. rewrite app_nil_r. split; [reflexivity | constructor].
  - cbn [fetchPages].
    set (req := {| filter_ids := Js.join "," batch;
                   pageSize := pretty (Z.of_nat (length batch));
                   pageToken := if Js.truthy tok then tok else None |}).
    destruct (fetch req) as [msg|res] eqn:Hf.
    + exists [req]. split; [reflexivity|]. simpl.
      exists [], req. repeat split; [constructor | left; exact Hf].
    + destruct (ok res) eqn:Hok; simpl.
      * assert (Hs : succeeds fetch req) by (exists res; split; assumption).
        rewrite (collect_success out req res Hf Hok).
        apply continues_step with req; [exact Hs|].
        destruct (Js.truthy (nextPageToken res)).
        -- apply IH.
        -- exists []. simpl. rewrite !app_nil_r.
           repeat split; constructor.
      * exists [req]. split; [reflexivity|]. simpl.
        exists [], req. repeat split; [constructor|].
        right. exists res. repeat split; assumption.
Qed.

Lemma continues_trans (log : list CtRequest) (out : list CtStudy)
      (r1 r2 : Run (list CtStudy)) (out1 : list CtStudy) :
  continues fetch log out r1 -> outcome r1 = Returned out1 ->
  continues fetch (requests r1) out1 r2 ->
  continues fetch log out r2.
Proof.
  intros (new1 & Hlog1 & H1) Hret (new2 & Hlog2 & H2).
  rewrite Hret in H1. destruct H1 as [Hall1 ->].
  exists (new1 ++ new2)%list. split.
  - rewrite Hlog2, Hlog1, app_assoc. reflexivity.
  - destruct (outcome r2) as [out'|m|].
    + destruct H2 as [Hall2 ->]. split; [apply Forall_app; split; assumption|].
      rewrite flat_map_app, app_assoc. reflexivity.
    + destruct H2 as (pre & last & -> & Hpre & Hlast).
      exists (new1 ++ pre)%list, last. rewrite app_assoc.
      repeat split; [apply Forall_app; split|]; assumption.
    + apply Forall_app; split; assumption.
Qed.

Lemma fetchBatches_continues (fuel : nat) (bs : list (list string))
      (log : list CtRequest) (out : list CtStudy) :
  continues fetch log out (fetchBatches fetch fuel bs log out).
Proof.
  revert log out. induction bs as [|batch rest IH]; intros log out.
  - exists []. simpl. rewrite !app_nil_r. repeat split; constructor.
  - cbn [fetchBatches].
    pose proof (fetchPages_continues fuel batch None log out) as H1.
    destruct (outcome (fetchPages fetch fuel batch None log out)) as [out1|m|] eqn:E.
    + eapply continues_trans; [exact H1 | exact E | apply IH].
    + exact H1.
    + exact H1.
Qed.

(** A request the registry answered with a non-success status ends the
    run: it is the last request, and the run throws its message. *)
Lemma continues_failure (r : Run (list CtStudy)) (req : CtRequest)
      (res : CtResponse) :
  continues fetch [] [] r ->
  In req (requests r) -> fetch req = Responded res -> ok res = false ->
  outcome r = Threw (failureMessage res).
Proof.
  intros (new & Hlog & H) Hin Hf Hok. simpl in Hlog. rewrite Hlog in Hin.
  assert (Hnot : ~ succeeds fetch req).
  { intros (res' & Hf' & Hok'). rewrite Hf in Hf'. injection Hf' as <-.
    rewrite Hok in Hok'. discriminate. }
  assert (Hall : forall l, Forall (succeeds fetch) l -> ~ In req l).
  { intros l Hl Hreq. rewrite Forall_forall in Hl. apply Hnot, Hl.
    apply list_elem_of_In. exact Hreq. }
  destruct (outcome r) as [out'|m|].
  - destruct H as [Hs _]. destruct (Hall _ Hs Hin).
  - destruct H as (pre & last & -> & Hpre & Hlast).
    apply in_app_or in Hin as [Hin|[<-|[]]]; [destruct (Hall _ Hpre Hin)|].
    destruct Hlast as [Hrej|(res' & Hf' & _ & ->)].
    + rewrite Hf in Hrej. discriminate.
    + rewrite Hf in Hf'. injection Hf' as <-. reflexivity.
  - destruct (Hall _ H Hin).
Qed.

Lemma catch_upstream_failure (res : CtResponse) :
  catch (failureMessage res) = JsonError (failureMessage res) 502.
Proof. reflexivity. Qed.

End Runs.

(** ** The metadata endpoint *)

Section Endpoint.
Import TrialMetaRoute Spec.

(** C8.  When the registry answers any request of a metadata fetch (the
    first page of a batch or a continuation page) with a non-success
    status, the fetch throws the message carrying that status instead of
    returning anything, and both handlers answer with that message and
    HTTP status 502, without any record. *)
Theorem upstream_failure_aborts (fetch : CtRequest -> Fetched) (fuel : nat)
        (ids : list string) (req : CtRequest) (res : CtResponse) :
  In req (requests (fetchTrialMeta fetch fuel ids)) ->
  fetch req = Responded res ->
  ok res = false ->
  outcome (fetchTrialMeta fetch fuel ids) = Threw (failureMessage res)
  /\ (forall idsParam, idsOfQuery idsParam = ids ->
        GET fetch fuel idsParam = Some (JsonError (failureMessage res) 502))
  /\ (forall body, idsOfBody body = ids ->
        POST fetch fuel (Parsed body) = Some (JsonError (failureMessage res) 502)).
Proof.
  intros Hin Hf Hok.
  assert (Hthrow : outcome (fetchTrialMeta fetch fuel ids) = Threw (failureMessage res)).
  { unfold fetchTrialMeta in *. cbn [outcome requests] in *.
    rewrite (continues_failure fetch _ req res
               (fetchBatches_continues fetch fuel (batches ids) [] []) Hin Hf Hok).
    reflexivity. }
  assert (Hne : ids <> []).
  { intros ->. exact Hin. }
  assert (Hresp : forall missing,
             respond fetch missing fuel ids = Some (JsonError (failureMessage res) 502)).
  { intros missing. unfold respond. destruct ids as [|i ids']; [congruence|].
    rewrite Hthrow. rewrite catch_upstream_failure. reflexivity. }
  split; [exact Hthrow|]. split.
  - intros idsParam <-. apply Hresp.
  - intros body <-. apply Hresp.
Qed.

Lemma upstream_failure_aborts_witness :
  GET (answering 503) 1 (Some "NCT01")
  = Some (JsonError "ClinicalTrials.gov request failed (503)" 502).
Proof.
  apply (upstream_failure_aborts (answering 503) 1 ["NCT01"]
           {| filter_ids := "NCT01"; pageSize := "1"; pageToken := None |}
           {| res_status := 503; studies := None; nextPageToken := None |}).
  - vm_compute. left. reflexivity.
  - reflexivity.
  - reflexivity.
  - reflexivity.
Defined.

(** A successful continuation page does not rescue a batch whose next page
    fails: the studies of the first page are dropped with the rest. *)
Example second_page_failure_drops_first_page :
  let fetch req :=
    match pageToken req with
    | None => Responded {| res_status := 200;
                           studies := Some [bareStudy "NCT01"];
                           nextPageToken := Some "t1" |}
    | Some _ => answering 500 req
    end in
  GET fetch 5 (Some "NCT01,NCT02")
  = Some (JsonError "ClinicalTrials.gov request failed (500)" 502).
Proof. vm_compute. reflexivity. Qed.

End Endpoint.

(** ** Batches and deduplication *)

Section Deduplication.
Import TrialMetaRoute Spec.

Lemma fetchPages_requests (fetch : CtRequest -> Fetched) (fuel : nat)
      (batch : list string) (tok : option string)
      (log : list CtRequest) (out : list CtStudy) :
  exists new,
    requests (fetchPages fetch fuel batch tok log out) = (log ++ new)%list
    /\ Forall (fun r => filter_ids r = Js.join "," batch) new
    /\ (fuel <> O -> new <> []).
Proof.
  revert tok log out. induction fuel as [|fuel IH]; intros tok log out.
  - exists []. simpl. rewrite app_nil_r. repeat split; [constructor | congruence].
  - cbn [fetchPages].
    set (req := {| filter_ids := Js.join "," batch;
                   pageSize := pretty (Z.of_nat (length batch));
                   pageToken := if Js.truthy tok then tok else None |}).
    assert (Hone : exists new, (log ++ [req])%list = (log ++ new)%list
                     /\ Forall (fun r => filter_ids r = Js.join "," batch) new
                     /\ (S fuel <> O -> new <> [])).
    { exists [req]. repeat split; [repeat constructor | congruence]. }
    destruct (fetch req) as [msg|res]; [exact Hone|].
    destruct (ok res); simpl; [|exact Hone].
    destruct (Js.truthy (nextPageToken res)); [|exact Hone].
    match goal with
    | |- context [fetchPages fetch fuel batch ?t ?l ?o] =>
        destruct (IH t l o) as (new & Hlog & Hall & _)
    end.
    exists (req :: new). rewrite Hlog, <- app_assoc.
    repeat split; [constructor; [reflexivity | exact Hall] | congruence].
Qed.

Lemma fetchBatches_requests (fetch : CtRequest -> Fetched) (fuel : nat)
      (bs : list (list string)) (log : list CtRequest) (out : list CtStudy) :
  exists new,
    requests (fetchBatches fetch fuel bs log out) = (log ++ new)%list
    /\ Forall (fun r => exists b, In b bs /\ filter_ids r = Js.join "," b) new.
Proof.
  revert log out. induction bs as [|batch rest IH]; intros log out.
  - exists []. simpl. rewrite app_nil_r. split; [reflexivity | constructor].
  - cbn [fetchBatches].
    destruct (fetchPages_requests fetch fuel batch None log out)
      as (new1 & Hlog1 & Hall1 & _).
    assert (Hall1' : Forall (fun r => exists b, In b (batch :: rest)
                                       /\ filter_ids r = Js.join "," b) new1).
    { eapply Forall_impl; [exact Hall1|]. intros r Hr.
      exists batch. split; [left; reflexivity | exact Hr]. }
    destruct (outcome (fetchPages fetch fuel batch None log out)) as [out1|m|];
      [|exists new1; split; assumption ..].
    destruct (IH (requests (fetchPages fetch fuel batch None log out)) out1)
      as (new2 & Hlog2 & Hall2).
    exists (new1 ++ new2)%list. split.
    + rewrite Hlog2, Hlog1, app_assoc. reflexivity.
    + apply Forall_app. split; [exact Hall1'|].
      eapply Forall_impl; [exact Hall2|]. intros r (b & Hb & Hr).
      exists b. split; [right; exact Hb | exact Hr].
Qed.

Lemma fetchBatches_onePage (fetch : CtRequest -> Fetched) (fuel : nat)
      (bs : list (list string)) (log : list CtRequest) (out : list CtStudy) :
  (forall b, In b bs -> onePage fetch (requestOf b)) ->
  fetchBatches fetch (S fuel) bs log out
  = mkRun (log ++ map requestOf bs)%list
          (Returned (out ++ flat_map (studiesOf fetch) (map requestOf bs))%list).
Proof.
  revert log out. induction bs as [|batch rest IH]; intros log out Hall.
  - simpl. rewrite !app_nil_r. reflexivity.
  - destruct (Hall batch (or_introl eq_refl)) as (res & Hf & Hok & Htok).
    cbn [fetchBatches fetchPages]. cbn [Js.truthy].
    change {| filter_ids := Js.join "," batch;
              pageSize := pretty (Z.of_nat (length batch));
              pageToken := None |} with (requestOf batch).
    rewrite Hf, Hok, Htok. cbn [negb outcome requests].
    rewrite (collect_success fetch out (requestOf batch) res Hf Hok).
    rewrite IH by (intros b Hb; apply Hall; right; exact Hb).
    cbn [map flat_map]. rewrite <- !app_assoc. reflexivity.
Qed.

(** C3, the claim as stated fails: a list with 150 distinct identifiers,
    51 of them repeated, is cut into three batches of 100, 100 and 1
    entries, and the registry is asked three times. *)
Lemma duplicates_are_batched :
  let ids := (sampleIds 0 150 ++ sampleIds 0 51)%list in
  length (remove_dups ids) = 150%nat
  /\ map length (batches ids) = [100; 100; 1]%nat
  /\ length (requests (fetchTrialMeta echo 1 ids)) = 3%nat.
Proof. vm_compute. repeat split; reflexivity. Qed.

(** Repeated identifiers in different batches come back as repeated
    records. *)
Example duplicates_are_returned_twice :
  let ids := (sampleIds 0 100 ++ ["NCT0"])%list in
  exists out,
    outcome (fetchTrialMeta echo 1 ids) = Returned out
    /\ length (List.filter (fun tm => String.eqb (TrialMeta.nctId tm) "NCT0") out)
       = 2%nat.
Proof. eexists. split; vm_compute; reflexivity. Qed.

(** C3, amended.  The gateway cuts the list of identifiers it receives, as
    it is (repetitions included), into consecutive batches: the batches
    concatenate to the list, each has between 1 and 100 entries, and there
    are ceil(n / 100) of them for a list of n entries.  So a list of 150
    entries, in whatever order, gives exactly two batches, of 100 and 50
    entries.  Every request to the registry carries one of these batches,
    and a fetch that returns yields one record per study the registry
    sent, in the order of the requests. *)
Theorem batches_partition (ids : list string) :
  concat (batches ids) = ids
  /\ Forall (fun b : list string => 0 < Z.of_nat (length b) <= MAX_BATCH)
            (batches ids)
  /\ Z.of_nat (length (batches ids))
     = Js.ceilDiv (Z.of_nat (length ids)) MAX_BATCH
  /\ (length ids = 150%nat ->
      batches ids = [take 100 ids; drop 100 ids]
      /\ map length (batches ids) = [100; 50]%nat)
  /\ (forall fetch fuel,
        Forall (fun r => exists b, In b (batches ids)
                                   /\ filter_ids r = Js.join "," b)
               (requests (fetchTrialMeta fetch fuel ids))
        /\ (forall out,
              outcome (fetchTrialMeta fetch fuel ids) = Returned out ->
              out = map trimStudy
                        (flat_map (studiesOf fetch)
                                  (requests (fetchTrialMeta fetch fuel ids))))
        /\ ((forall b, In b (batches ids) -> onePage fetch (requestOf b)) ->
            requests (fetchTrialMeta fetch (S fuel) ids)
            = map requestOf (batches ids)
            /\ outcome (fetchTrialMeta fetch (S fuel) ids)
               = Returned (map trimStudy
                             (flat_map (studiesOf fetch)
                                       (map requestOf (batches ids)))))).
Proof.
  split; [|split; [|split; [|split]]].
  - unfold batches. rewrite batchesFrom_concat by lia. apply drop_0.
  - apply batchesFrom_sizes. lia.
  - unfold batches. rewrite batchesFrom_count by lia.
    rewrite Z.sub_0_r.
    destruct (length ids) eqn:E; [reflexivity|].
    pose proof (ceilDiv_pos (Z.of_nat (S n)) MAX_BATCH).
    unfold MAX_BATCH in *. lia.
  - intros Hlen. split; [apply batches_150; assumption|].
    rewrite batches_150 by assumption. simpl.
    rewrite length_take, length_drop. do 2 f_equal; lia.
  - intros fetch fuel. split; [|split].
    + destruct (fetchBatches_requests fetch fuel (batches ids) [] [])
        as (new & Hlog & Hall).
      unfold fetchTrialMeta. cbn [requests]. rewrite Hlog. exact Hall.
    + intros out. unfold fetchTrialMeta. cbn [requests outcome].
      destruct (fetchBatches_continues fetch fuel (batches ids) [] [])
        as (new & Hlog & H).
      destruct (outcome (fetchBatches fetch fuel (batches ids) [] []))
        as [out'|m|]; [|discriminate ..].
      intros [= <-]. destruct H as [_ ->]. rewrite Hlog. reflexivity.
    + intros Hone. unfold fetchTrialMeta.
      rewrite (fetchBatches_onePage fetch fuel (batches ids) [] [] Hone).
      split; reflexivity.
Qed.

Lemma batches_partition_witness :
  map length (batches (sampleIds 0 150)) = [100; 50]%nat
  /\ requests (fetchTrialMeta echo 1 (rev (sampleIds 0 150)))
     = map requestOf (batches (rev (sampleIds 0 150))).
Proof.
  split.
  - apply (batches_partition (sampleIds 0 150)). reflexivity.
  - apply (batches_partition (rev (sampleIds 0 150))).
    intros b _. eexists. repeat split; reflexivity.
Defined.

End Deduplication.

(** ** The two transport forms *)

Section Transports.
Import TrialMetaRoute Spec.

Lemma split_noComma (s : string) :
  noComma s = true -> Js.split "," s = [s].
Proof.
  induction s as [|c r IH]; [reflexivity|].
  unfold noComma. simpl. intros [Hc Hr]%andb_prop.
  apply negb_true_iff in Hc. rewrite Hc.
  rewrite (IH Hr). reflexivity.
Qed.

Lemma split_app_comma (a b : string) :
  noComma a = true ->
  Js.split "," (a ++ String "," b) = a :: Js.split "," b.
Proof.
  induction a as [|c r IH]; [reflexivity|].
  unfold noComma. simpl. intros [Hc Hr]%andb_prop.
  apply negb_true_iff in Hc. rewrite Hc.
  rewrite (IH Hr). reflexivity.
Qed.

Lemma split_join (ids : list string) :
  ids <> [] -> forallb noComma ids = true ->
  Js.split "," (Js.join "," ids) = ids.
Proof.
  induction ids as [|a rest IH]; [congruence|].
  intros _ [Ha Hrest]%andb_prop.
  destruct rest as [|b rest'].
  - simpl. apply split_noComma. exact Ha.
  - change (Js.join "," (a :: b :: rest'))
      with (a ++ String "," (Js.join "," (b :: rest'))).
    rewrite split_app_comma by exact Ha.
    rewrite IH by (congruence || exact Hrest). reflexivity.
Qed.

Lemma clean_parts (ids : list string) :
  forallb clean ids = true ->
  forallb noComma ids = true
  /\ map Js.trim ids = ids
  /\ List.filter (fun id => negb (Nat.eqb (String.length id) 0)) ids = ids
  /\ List.filter Js.truthyStr ids = ids.
Proof.
  induction ids as [|a rest IH]; [repeat split|].
  simpl. intros [Ha Hrest]%andb_prop.
  destruct (IH Hrest) as (H1 & H2 & H3 & H4).
  unfold clean in Ha.
  apply andb_prop in Ha as [[Ht Hc]%andb_prop Htrim].
  apply String.eqb_eq in Htrim.
  rewrite Hc, H1, Htrim, H2, Ht, H3, H4.
  destruct a; [discriminate|]. repeat split.
Qed.

Lemma idsOfQuery_join (ids : list string) :
  ids <> [] -> forallb clean ids = true ->
  idsOfQuery (Some (Js.join "," ids)) = ids.
Proof.
  intros Hne Hclean. destruct (clean_parts ids Hclean) as (H1 & H2 & H3 & _).
  unfold idsOfQuery. simpl. rewrite split_join, H2, H3 by assumption.
  reflexivity.
Qed.

(** *** The hook's URL, as the route reads it *)

Lemma plainChar_spec (c : ascii) :
  plainChar c = true ->
  Url.isC0OrSpace c = false /\ Url.isTabOrNewline c = false
  /\ Ascii.eqb c "#" = false /\ Ascii.eqb c "&" = false
  /\ Ascii.eqb c "+" = false /\ Ascii.eqb c "%" = false.
Proof.
  destruct c as [[] [] [] [] [] [] [] []]; vm_compute;
    first [ discriminate | intros _; repeat split ].
Qed.

Lemma allChars_app (p : ascii -> bool) (a b : string) :
  Js.allChars p (a ++ b) = Js.allChars p a && Js.allChars p b.
Proof.
  induction a as [|c r IH]; [reflexivity|].
  simpl. rewrite IH, andb_assoc. reflexivity.
Qed.

Lemma plain_join (ids : list string) :
  forallb plain ids = true -> plain (Js.join "," ids) = true.
Proof.
  unfold plain, Js.join.
  induction ids as [|a rest IH]; [reflexivity|].
  cbn [forallb]. intros [Ha Hrest]%andb_prop.
  destruct rest as [|b rest']; [exact Ha|].
  change (String.concat "," (a :: b :: rest'))
    with (a ++ String "," (String.concat "," (b :: rest'))).
  rewrite allChars_app, Ha.
  cbn [Js.allChars andb]. rewrite (IH Hrest). reflexivity.
Qed.

Lemma stripStart_plain (s : string) :
  plain s = true -> Url.stripStart s = s.
Proof.
  destruct s as [|c r]; [reflexivity|].
  unfold plain. cbn [Js.allChars]. intros [Hc _]%andb_prop.
  destruct (plainChar_spec c Hc) as (H0 & _).
  cbn [Url.stripStart]. rewrite H0. reflexivity.
Qed.

Lemma stripEnd_plain (s : string) :
  plain s = true -> Url.stripEnd s = s.
Proof.
  unfold plain. induction s as [|c r IH]; [reflexivity|].
  cbn [Js.allChars]. intros [Hc Hr]%andb_prop.
  destruct (plainChar_spec c Hc) as (H0 & _).
  cbn [Url.stripEnd]. rewrite (IH Hr), H0. destruct r; reflexivity.
Qed.

Lemma remove_plain (s : string) :
  plain s = true -> Url.remove Url.isTabOrNewline s = s.
Proof.
  unfold plain. induction s as [|c r IH]; [reflexivity|].
  cbn [Js.allChars]. intros [Hc Hr]%andb_prop.
  destruct (plainChar_spec c Hc) as (_ & H1 & _).
  cbn [Url.remove]. rewrite H1, (IH Hr). reflexivity.
Qed.

Lemma before_hash_plain (s : string) :
  plain s = true -> Url.before "#" s = s.
Proof.
  unfold plain. induction s as [|c r IH]; [reflexivity|].
  cbn [Js.allChars]. intros [Hc Hr]%andb_prop.
  destruct (plainChar_spec c Hc) as (_ & _ & H2 & _).
  cbn [Url.before]. rewrite H2, (IH Hr). reflexivity.
Qed.

Lemma split_amp_plain (s : string) :
  plain s = true -> Js.split "&" s = [s].
Proof.
  unfold plain. induction s as [|c r IH]; [reflexivity|].
  cbn [Js.allChars]. intros [Hc Hr]%andb_prop.
  destruct (plainChar_spec c Hc) as (_ & _ & _ & H3 & _).
  cbn [Js.split]. rewrite H3, (IH Hr). reflexivity.
Qed.

Lemma plusToSpace_plain (s : string) :
  plain s = true -> Url.plusToSpace s = s.
Proof.
  unfold plain. induction s as [|c r IH]; [reflexivity|].
  cbn [Js.allChars]. intros [Hc Hr]%andb_prop.
  destruct (plainChar_spec c Hc) as (_ & _ & _ & _ & H4 & _).
  cbn [Url.plusToSpace]. rewrite H4, (IH Hr). reflexivity.
Qed.

Lemma percentDecode_plain (s : string) :
  plain s = true -> Url.percentDecode s = s.
Proof.
  unfold plain. induction s as [|c r IH]; [reflexivity|].
  cbn [Js.allChars]. intros [Hc Hr]%andb_prop.
  destruct (plainChar_spec c Hc) as (_ & _ & _ & _ & _ & H5).
  cbn [Url.percentDecode]. rewrite H5, (IH Hr). reflexivity.
Qed.

(** A query string of plain text reaches the handler as it was written. *)
Lemma received_plain (ids : list string) :
  forallb plain ids = true ->
  received ids = Some (UseTrialMeta.queryString ids).
Proof.
  intros Hplain. apply plain_join in Hplain.
  unfold received, UseTrialMeta.url, UseTrialMeta.queryString.
  set (q := Js.join "," ids) in *.
  assert (Hurl : plain ("/api/trial-meta?ids=" ++ q) = true).
  { unfold plain in *. rewrite allChars_app, Hplain. reflexivity. }
  assert (Hpiece : plain ("ids=" ++ q) = true).
  { unfold plain in *. rewrite allChars_app, Hplain. reflexivity. }
  unfold Url.searchParams, Url.query, Url.input.
  rewrite (stripStart_plain _ Hurl), (stripEnd_plain _ Hurl),
    (remove_plain _ Hurl), (before_hash_plain _ Hurl).
  change (Url.after "?" ("/api/trial-meta?ids=" ++ q)) with (Some ("ids=" ++ q)).
  cbv beta iota. rewrite (split_amp_plain _ Hpiece).
  change (List.filter Js.truthyStr ["ids=" ++ q]) with ["ids=" ++ q].
  cbn [map]. unfold Url.pair.
  change (Url.before "=" ("ids=" ++ q)) with "ids".
  change (Url.after "=" ("ids=" ++ q)) with (Some q).
  cbn [from_option id].
  rewrite (plusToSpace_plain _ Hplain), (percentDecode_plain _ Hplain).
  reflexivity.
Qed.

(** The hook does not escape what it writes into the URL: a "+" reaches
    the handler as a space, "%41" as "A", an "&" ends the parameter and a
    "#" ends the query. *)
Example hook_url_is_not_escaped :
  received ["A+B"] = Some "A B"
  /\ received ["A%41"] = Some "AA"
  /\ received ["A&B"] = Some "A"
  /\ received ["A#B"; "C"] = Some "A"
  /\ received ["#"] = Some ""
  /\ UseTrialMeta.queryFn echo 1 ["#"]
     = Some (Threw "Failed to fetch trial meta (400)").
Proof. repeat split; vm_compute; reflexivity. Qed.

(** C6, the claim as stated fails: for the one-element identifier list
    [" NCT01"] the query-string form looks up "NCT01" (the handler trims
    it) and the body form looks up " NCT01"; against a registry that
    echoes what it is asked, the two record sets differ. *)
Lemma transports_disagree :
  let ids := [" NCT01"] in
  ~ sameRecords (GET echo 1 (received ids))
                (POST echo 1 (Parsed (Some ids))).
Proof.
  vm_compute. intros H.
  destruct (H {| TrialMeta.nctId := "NCT01"; TrialMeta.phase := "NA";
                 TrialMeta.fundedBy := None;
                 TrialMeta.overallStatus := None |}) as [H1 _].
  destruct (H1 (or_introl eq_refl)) as [H2|[]]. discriminate H2.
Qed.

(** An identifier with a comma is one identifier in the body form and two
    in the query-string form; one with a "+" is looked up with a space in
    the query-string form. *)
Example comma_splits_an_identifier :
  idsOfQuery (received ["A,B"]) = ["A"; "B"]
  /\ idsOfBody (Some ["A,B"]) = ["A,B"]
  /\ idsOfQuery (received ["A+B"]) = ["A B"]
  /\ idsOfBody (Some ["A+B"]) = ["A+B"].
Proof. repeat split; reflexivity. Qed.

(** C6, amended.  For every non-empty list of identifiers that are not
    empty, contain no comma and are made of visible ASCII characters other
    than "#", "&", "+" and "%" (so that the unescaped URL of the
    query-string form carries them unchanged), the GET handler reads the
    query string as the hook wrote it, the query-string form and the body
    form hand the same list to the gateway and so give the same response
    (the same records in the same order, or the same failure); and the
    client sends the body form exactly when the query-string URL is longer
    than 1800 characters. *)
Theorem transports_agree (fetch : CtRequest -> Fetched) (fuel : nat)
        (ids : list string) :
  (ids <> [] -> forallb clean ids = true -> forallb plain ids = true ->
   received ids = Some (UseTrialMeta.queryString ids)
   /\ idsOfQuery (received ids) = ids
   /\ idsOfBody (Some ids) = ids
   /\ GET fetch fuel (received ids) = POST fetch fuel (Parsed (Some ids))
   /\ sameRecords (GET fetch fuel (received ids))
                  (POST fetch fuel (Parsed (Some ids)))
   /\ UseTrialMeta.queryFn fetch fuel ids
      = match POST fetch fuel (Parsed (Some ids)) with
        | None => None
        | Some (JsonOk body) => Some (Returned body)
        | Some (JsonError _ status) =>
            Some (Threw ("Failed to fetch trial meta (" ++ pretty status ++ ")"))
        end)
  /\ (UseTrialMeta.transport ids = UseTrialMeta.ViaPost ids
      <-> 1800 < Z.of_nat (String.length
                             ("/api/trial-meta?ids=" ++ Js.join "," ids)))
  /\ (UseTrialMeta.transport ids
        = UseTrialMeta.ViaGet ("/api/trial-meta?ids=" ++ Js.join "," ids)
      <-> Z.of_nat (String.length
                      ("/api/trial-meta?ids=" ++ Js.join "," ids)) <= 1800).
Proof.
  split; [|split].
  - intros Hne Hclean Hplain.
    pose proof (received_plain ids Hplain) as Hrec.
    assert (Hq : idsOfQuery (received ids) = ids)
      by (rewrite Hrec; apply idsOfQuery_join; assumption).
    assert (Hb : idsOfBody (Some ids) = ids)
      by (destruct (clean_parts ids Hclean) as (_ & _ & _ & H4); exact H4).
    assert (Heq : GET fetch fuel (received ids)
                  = POST fetch fuel (Parsed (Some ids))).
    { unfold GET, POST. rewrite Hq, Hb. unfold respond.
      destruct ids; [congruence | reflexivity]. }
    split; [exact Hrec|]. split; [exact Hq|]. split; [exact Hb|].
    split; [exact Heq|]. split.
    + rewrite Heq. unfold sameRecords.
      destruct (POST fetch fuel (Parsed (Some ids))) as [[body|e st]|];
        [intros tm; reflexivity | split; reflexivity | exact I].
    + unfold UseTrialMeta.queryFn, UseTrialMeta.transport.
      destruct ids as [|i ids']; [congruence|].
      destruct (UseTrialMeta.shouldPost (i :: ids')); [reflexivity|].
      fold (received (i :: ids')). rewrite Heq. reflexivity.
  - unfold UseTrialMeta.transport, UseTrialMeta.shouldPost, UseTrialMeta.url,
      UseTrialMeta.queryString.
    destruct (Z.ltb_spec 1800
                (Z.of_nat (String.length
                             ("/api/trial-meta?ids=" ++ Js.join "," ids))));
      split; intros H'; first [reflexivity | assumption | discriminate H' | lia].
  - unfold UseTrialMeta.transport, UseTrialMeta.shouldPost, UseTrialMeta.url,
      UseTrialMeta.queryString.
    destruct (Z.ltb_spec 1800
                (Z.of_nat (String.length
                             ("/api/trial-meta?ids=" ++ Js.join "," ids))));
      split; intros H'; first [reflexivity | assumption | discriminate H' | lia].
Qed.

Lemma transports_agree_witness :
  GET echo 1 (received ["NCT01"; "NCT02"])
  = POST echo 1 (Parsed (Some ["NCT01"; "NCT02"]))
  /\ UseTrialMeta.transport (sampleIds 1000 250)
     = UseTrialMeta.ViaPost (sampleIds 1000 250).
Proof.
  split.
  - destruct (transports_agree echo 1 ["NCT01"; "NCT02"]) as (H & _ & _).
    destruct H as (_ & _ & _ & Heq & _);
      [discriminate | reflexivity | reflexivity | exact Heq].
  - destruct (transports_agree echo 1 (sampleIds 1000 250)) as (_ & H & _).
    apply H. vm_compute. reflexivity.
Defined.

(** 250 seven-character identifiers need the body form; 100 do not. *)
Example long_lists_are_posted :
  UseTrialMeta.shouldPost (sampleIds 1000 250) = true
  /\ UseTrialMeta.shouldPost (sampleIds 1000 100) = false.
Proof. split; vm_compute; reflexivity. Qed.

End Transports.

(** ** [Number] on strings of digits *)

Section NumberOfDigits.
Import RouteSpec.

Lemma inRange_bounds (lo hi : nat) (c : ascii) :
  Js.inRange lo hi c = true <-> (lo <= Js.code c <= hi)%nat.
Proof.
  unfold Js.inRange. rewrite andb_true_iff, !Nat.leb_le. tauto.
Qed.

Lemma digit_not_whitespace (c : ascii) :
  Js.isDigit c = true -> Js.isWhiteSpace c = false.
Proof.
  unfold Js.isDigit, Js.isWhiteSpace. intros H%inRange_bounds.
  apply orb_false_iff. split.
  - destruct (Js.inRange 9 13 c) eqn:E; [|reflexivity].
    apply inRange_bounds in E. lia.
  - apply Nat.eqb_neq. lia.
Qed.

Lemma digit_eqb_other (c d : ascii) :
  Js.isDigit c = true -> Js.isDigit d = false -> Ascii.eqb c d = false.
Proof.
  intros Hc Hd. destruct (Ascii.eqb_spec c d) as [->|]; congruence.
Qed.

Lemma digitVal_bounds (c : ascii) :
  Js.isDigit c = true -> 0 <= Js.digitVal c <= 9.
Proof.
  unfold Js.isDigit, Js.digitVal. intros H%inRange_bounds. lia.
Qed.


Lemma trimEnd_digits (s : string) :
  Js.allChars Js.isDigit s = true -> Js.trimEnd s = s.
Proof.
  induction s as [|c r IH]; [reflexivity|].
  simpl. intros [Hc Hr]%andb_prop. rewrite (IH Hr).
  rewrite (digit_not_whitespace c Hc). destruct r; reflexivity.
Qed.

Lemma trim_digits (s : string) :
  Js.allChars Js.isDigit s = true -> Js.trim s = s.
Proof.
  intros H. unfold Js.trim.
  assert (Hs : Js.trimStart s = s).
  { destruct s as [|c r]; [reflexivity|]. simpl in *.
    apply andb_prop in H as [Hc _].
    rewrite (digit_not_whitespace c Hc). reflexivity. }
  rewrite Hs. apply trimEnd_digits. exact H.
Qed.

Lemma readDigits_digits (s : string) (acc : Z) (n : nat) :
  Js.allChars Js.isDigit s = true ->
  Js.readDigits s acc n = (digitsFrom s acc, (n + String.length s)%nat, "").
Proof.
  revert acc n. induction s as [|c r IH]; intros acc n; simpl.
  - intros _. rewrite Nat.add_0_r. reflexivity.
  - intros [Hc Hr]%andb_prop. rewrite Hc, (IH _ _ Hr).
    rewrite Nat.add_succ_r. reflexivity.
Qed.

Lemma Qred_integer (v : Z) : Qred (v # 1) = (v # 1).
Proof.
  unfold Qred.
  pose proof (Z.ggcd_gcd v 1) as Hg.
  pose proof (Z.ggcd_correct_divisors v 1) as Hd.
  destruct (Z.ggcd v 1) as [g [aa bb]]. simpl in Hg, Hd.
  rewrite Z.gcd_1_r in Hg. subst g. destruct Hd as [Ha Hb].
  f_equal; lia.
Qed.

(** On a non-empty string of digits [Number] is the number they write. *)
Lemma Number_digits (s : string) :
  s <> "" -> Js.allChars Js.isDigit s = true ->
  Js.Number s = Js.ofZ (digitsValue s).
Proof.
  intros Hne Hall. unfold Js.Number. rewrite (trim_digits s Hall).
  assert (Hdec : Js.signedDecimal s = Js.ofZ (digitsValue s)).
  { destruct s as [|c r]; [congruence|].
    pose proof Hall as Hall'. simpl in Hall'.
    apply andb_prop in Hall' as [Hc Hr].
    unfold Js.signedDecimal, Js.splitSign.
    rewrite (digit_eqb_other c "-" Hc eq_refl).
    rewrite (digit_eqb_other c "+" Hc eq_refl).
    assert (Hinf : String.eqb (String c r) "Infinity" = false).
    { simpl. rewrite (digit_eqb_other c "I" Hc eq_refl). reflexivity. }
    rewrite Hinf. unfold Js.unsignedDecimal.
    rewrite (readDigits_digits _ 0 0 Hall).
    cbn [String.length Nat.add]. cbn [Z.of_nat Z.pow Z.to_pos].
    change (10 ^ 0) with 1. change (Z.to_pos 1) with 1%positive.
    rewrite Z.mul_1_r, Z.add_0_r, Qred_integer. reflexivity. }
  destruct s as [|c0 [|c1 r]]; [congruence | exact Hdec |].
  assert (Hc1 : Js.isDigit c1 = true).
  { simpl in Hall. apply andb_prop in Hall as [_ [H1 _]%andb_prop]. exact H1. }
  unfold Js.radixPrefix.
  rewrite !(fun d H => digit_eqb_other c1 d Hc1 H) by reflexivity.
  destruct (negb (Ascii.eqb c0 "0")); exact Hdec.
Qed.

Lemma digitsFrom_grows (s : string) (acc : Z) :
  Js.allChars Js.isDigit s = true -> 0 <= acc -> acc <= digitsFrom s acc.
Proof.
  revert acc. induction s as [|c r IH]; intros acc; simpl; [lia|].
  intros [Hc Hr]%andb_prop Hacc.
  pose proof (digitVal_bounds c Hc).
  specialize (IH (acc * 10 + Js.digitVal c) Hr). lia.
Qed.


Lemma truthyNum_ofZ (v : Z) : Js.truthyNum (Js.ofZ v) = negb (v =? 0).
Proof.
  unfold Js.truthyNum, Js.ofZ, Qeq_bool. simpl.
  rewrite Z.mul_1_r. destruct v; reflexivity.
Qed.

Lemma gt_ofZ (a b : Z) : Js.gt (Js.ofZ a) (Js.ofZ b) = (b <? a).
Proof.
  unfold Js.gt, Js.lt, Js.ofZ, Js.Qltb, Qle_bool. simpl.
  rewrite !Z.mul_1_r. rewrite Z.ltb_antisym. reflexivity.
Qed.

End NumberOfDigits.

(** ** The investigators endpoint *)

Section Investigators.
Import InvestigatorsRoute RouteSpec.
Variable zipcodes_lookup : string -> bool.
Variable zipcodes_radius : string -> Js.Num -> list string.
Variable zipcodes_distance : string -> string -> Js.Num.
Variable select_rows : Plan -> list Row.t.
Variable select_count : Sql -> Z.



Lemma testDigits_truthy (n : nat) (s : string) :
  Js.testDigits (S n) s = true -> Js.truthy (Some s) = true.
Proof. destruct s; [discriminate | reflexivity]. Qed.


Lemma year_number (y : string) :
  Js.testDigits 4 y = true -> Js.Number y = Js.ofZ (digitsValue y).
Proof.
  unfold Js.testDigits. intros [Hlen Hall]%andb_prop.
  apply Number_digits; [|exact Hall].
  intros ->. discriminate Hlen.
Qed.





End Investigators.


(** ** Page clamping *)

Section Clamping.
Import InvestigatorsRoute RouteSpec.

Lemma Math_max_one (n : Js.Num) :
  n <> Js.NaN ->
  Js.Math_max n (Js.ofZ 1) = Js.PosInf
  \/ exists x, Js.Math_max n (Js.ofZ 1) = Js.Fin x /\ (1 <= x)%Q.
Proof.
  intros Hn. destruct n as [| |x|]; [congruence | | | left; reflexivity].
  - right. exists (inject_Z 1). split; [reflexivity | apply Qle_refl].
  - right. unfold Js.Math_max, Js.ofZ. cbn [Js.lt]. unfold Js.Qltb.
    destruct (Qle_bool x (inject_Z 1)) eqn:E; cbn [negb].
    + exists (inject_Z 1). split; [reflexivity | apply Qle_refl].
    + exists x. split; [reflexivity|].
      destruct (Qlt_le_dec 1 x) as [Hlt|Hle]; [apply Qlt_le_weak; exact Hlt|].
      apply Qle_bool_iff in Hle. change (inject_Z 1) with 1%Q in E. congruence.
Qed.

Lemma Math_max_below_one (n : Js.Num) :
  Js.le n (Js.ofZ 1) -> Js.Math_max n (Js.ofZ 1) = Js.ofZ 1.
Proof.
  destruct n as [| |x|]; cbn [Js.le Js.ofZ]; try tauto; try reflexivity.
  intros Hle. unfold Js.Math_max, Js.ofZ. cbn [Js.lt]. unfold Js.Qltb.
  apply Qle_bool_iff in Hle. rewrite Hle. reflexivity.
Qed.

Lemma offset_nonneg (x : Q) :
  (1 <= x)%Q -> (inject_Z 0 <= (x - inject_Z 1) * inject_Z ITEMS_PER_PAGE)%Q.
Proof.
  intros Hx. change (inject_Z 0) with 0%Q.
  apply Qmult_le_0_compat; [|discriminate].
  unfold Qminus. rewrite <- Qle_minus_iff. exact Hx.
Qed.

Lemma plan_limit (zipcodes_lookup : string -> bool)
      (zipcodes_radius : string -> Js.Num -> list string)
      (q : Query) (zip : string) (p : Plan) :
  plan zipcodes_lookup zipcodes_radius q = JsonOk (zip, p) ->
  limit p = ITEMS_PER_PAGE /\ offset p = offsetOf q.
Proof.
  unfold plan.
  destruct (negb (isValidYear (q_startYear q)) || negb (isValidYear (q_endYear q)));
    [discriminate|].
  destruct (swapYears _ _) as [s e].
  destruct (negb (Js.testDigits 5 _)); [discriminate|].
  destruct (negb (zipcodes_lookup _)); [discriminate|].
  intros [= _ <-]. split; reflexivity.
Qed.

Lemma offset_of_page (k : Z) :
  Js.mul (Js.sub (Js.ofZ k) (Js.ofZ 1)) (Js.ofZ ITEMS_PER_PAGE)
  = Js.ofZ ((k - 1) * ITEMS_PER_PAGE).
Proof.
  unfold Js.mul, Js.sub, Js.ofZ, inject_Z, Qminus, Qplus, Qopp, Qmult.
  cbn [Qnum Qden]. f_equal. f_equal. unfold ITEMS_PER_PAGE. lia.
Qed.

Lemma Math_max_above_one (n : Js.Num) :
  Js.lt (Js.ofZ 1) n = true -> Js.Math_max n (Js.ofZ 1) = n.
Proof.
  intros H.
  destruct n as [| |x|]; try discriminate H; [|reflexivity].
  unfold Js.Math_max, Js.ofZ in *. rewrite H. reflexivity.
Qed.

(** C10.  When the page parameter (or its default "1") converts to a
    number, the page used is at least 1 and the offset passed to the row
    query is not negative; a page parameter that converts to a number not
    above 1 (0, a negative number, the empty string) gives the page, the
    offset and the response of page 1; a number above 1 is used as the
    page unchanged, so that a page written in digits as k (between 1 and
    10^15, where the arithmetic is exact) gives page k and offset
    (k - 1) * ITEMS_PER_PAGE; and the offset and limit of the row query are
    this offset and ITEMS_PER_PAGE. *)
Theorem page_is_clamped
        (zipcodes_lookup : string -> bool)
        (zipcodes_radius : string -> Js.Num -> list string)
        (zipcodes_distance : string -> string -> Js.Num)
        (select_rows : Plan -> list Row.t)
        (select_count : Sql -> Z)
        (q : Query) :
  Js.Number (default "1" (q_page q)) <> Js.NaN ->
  Js.le (Js.ofZ 1) (pageOf q)
  /\ Js.le (Js.ofZ 0) (offsetOf q)
  /\ (Js.le (Js.Number (default "1" (q_page q))) (Js.ofZ 1) ->
      pageOf q = Js.ofZ 1
      /\ offsetOf q = offsetOf (withPage q (Some "1"))
      /\ GET zipcodes_lookup zipcodes_radius zipcodes_distance select_rows
             select_count q
         = GET zipcodes_lookup zipcodes_radius zipcodes_distance select_rows
               select_count (withPage q (Some "1")))
  /\ (Js.lt (Js.ofZ 1) (Js.Number (default "1" (q_page q))) = true ->
      pageOf q = Js.Number (default "1" (q_page q)))
  /\ (forall s, q_page q = Some s -> Js.testDigitsPlus s = true ->
        1 <= digitsValue s <= 10 ^ 15 ->
        pageOf q = Js.ofZ (digitsValue s)
        /\ offsetOf q = Js.ofZ ((digitsValue s - 1) * ITEMS_PER_PAGE))
  /\ (forall zip p,
        plan zipcodes_lookup zipcodes_radius q = JsonOk (zip, p) ->
        offset p = offsetOf q /\ limit p = ITEMS_PER_PAGE).
Proof.
  intros Hnum.
  assert (Hfirst :
    Js.le (Js.ofZ 1) (pageOf q)
    /\ Js.le (Js.ofZ 0) (offsetOf q)
    /\ (Js.le (Js.Number (default "1" (q_page q))) (Js.ofZ 1) ->
        pageOf q = Js.ofZ 1
        /\ offsetOf q = offsetOf (withPage q (Some "1"))
        /\ GET zipcodes_lookup zipcodes_radius zipcodes_distance select_rows
               select_count q
           = GET zipcodes_lookup zipcodes_radius zipcodes_distance select_rows
                 select_count (withPage q (Some "1")))).
  { unfold offsetOf, pageOf.
    destruct (Math_max_one _ Hnum) as [Hinf|(x & Hx & Hle)].
    - rewrite Hinf. split; [exact I|]. split; [exact I|].
      intros Hbelow. rewrite (Math_max_below_one _ Hbelow) in Hinf. discriminate.
    - rewrite Hx. split; [exact Hle|]. split; [apply offset_nonneg; exact Hle|].
      intros Hbelow. pose proof (Math_max_below_one _ Hbelow) as Hone.
      assert (Hoff : offsetOf q = offsetOf (withPage q (Some "1"))).
      { unfold offsetOf, pageOf. rewrite Hone. reflexivity. }
      split; [congruence|]. split; [rewrite <- Hx; exact Hoff|].
      unfold GET, plan. rewrite Hoff. reflexivity. }
  destruct Hfirst as (H1 & H2 & H3).
  split; [exact H1|]. split; [exact H2|]. split; [exact H3|].
  split; [|split].
  - intros Habove. unfold pageOf. apply Math_max_above_one. exact Habove.
  - intros s Hs Hdigits Hrange.
    assert (Hn : Js.Number (default "1" (q_page q)) = Js.ofZ (digitsValue s)).
    { rewrite Hs. cbn [from_option id]. unfold Js.testDigitsPlus in Hdigits.
      apply andb_prop in Hdigits as [Hne Hall].
      apply Number_digits; [|exact Hall].
      intros ->. discriminate Hne. }
    assert (Hp : pageOf q = Js.ofZ (digitsValue s)).
    { unfold pageOf. rewrite Hn.
      destruct (Z.eq_dec (digitsValue s) 1) as [->|Hneq]; [reflexivity|].
      apply Math_max_above_one.
      change (Js.gt (Js.ofZ (digitsValue s)) (Js.ofZ 1) = true).
      rewrite gt_ofZ. apply Z.ltb_lt. lia. }
    split; [exact Hp|].
    unfold offsetOf. rewrite Hp. apply offset_of_page.
  - intros zip p Hp.
    destruct (plan_limit _ _ _ _ _ Hp) as [Hl Ho]. split; assumption.
Qed.

Lemma page_is_clamped_witness :
  offsetOf (exampleQuery None None) = offsetOf (withPage (exampleQuery None None) (Some "-3"))
  /\ exampleGET (withPage (exampleQuery None None) (Some "0"))
     = exampleGET (withPage (exampleQuery None None) (Some "1"))
  /\ (pageOf (withPage (exampleQuery None None) (Some "3")) = Js.ofZ 3
      /\ offsetOf (withPage (exampleQuery None None) (Some "3")) = Js.ofZ 12).
Proof.
  split; [|split].
  - symmetry.
    apply (page_is_clamped anyZip onlyItself noDistance (memRows table2015)
             (memCount table2015) (withPage (exampleQuery None None) (Some "-3")));
      vm_compute; congruence.
  - apply (page_is_clamped anyZip onlyItself noDistance (memRows table2015)
             (memCount table2015) (withPage (exampleQuery None None) (Some "0")));
      vm_compute; congruence.
  - destruct (page_is_clamped anyZip onlyItself noDistance (memRows table2015)
                (memCount table2015)
                (withPage (exampleQuery None None) (Some "3")))
      as (_ & _ & _ & _ & Hdigits & _); [vm_compute; congruence|].
    apply (Hdigits "3"); [reflexivity | reflexivity | vm_compute; split; discriminate].
Defined.

(** A page parameter that is not a number is not clamped: the offset is
    NaN. *)
Example page_not_a_number :
  offsetOf (withPage (exampleQuery None None) (Some "two")) = Js.NaN.
Proof. vm_compute. reflexivity. Qed.

Example page_three :
  offsetOf (withPage (exampleQuery None None) (Some "3")) = Js.Fin 12.
Proof. vm_compute. reflexivity. Qed.

End Clamping.

(** ** The reconciler *)

Section Reconciler.
Import Page PageSpec.

Lemma isActive_alt (f : TrialFilters) :
  isActive f
  = negb (Nat.eqb (length (phases f)) 0
          && sponsorIs (sponsorType f) Any
          && negb (recruitingOnly f)).
Proof.
  destruct f as [[|ph phs] [] []]; reflexivity.
Qed.

Lemma isActive_iff (f : TrialFilters) :
  isActive f = true <-> f <> DEFAULT_FILTERS.
Proof.
  destruct f as [[|ph phs] [] []]; unfold DEFAULT_FILTERS;
    (split; [intros H; first [discriminate H | congruence]
            | intros H; first [reflexivity | congruence]]).
Qed.

Lemma isActive_default : isActive DEFAULT_FILTERS = false.
Proof. reflexivity. Qed.

Lemma filter_sublist {A} (f : A -> bool) (l : list A) :
  List.filter f l `sublist_of` l.
Proof.
  induction l as [|x l IH]; simpl; [constructor|].
  destruct (f x); [apply sublist_skip | apply sublist_cons]; exact IH.
Qed.

Lemma slice_sublist {A} (a b : Z) (l : list A) : Js.slice a b l `sublist_of` l.
Proof.
  unfold Js.slice. etransitivity; [apply sublist_take | apply sublist_drop].
Qed.

Lemma Forall_sublist_of {A} (P : A -> Prop) (l1 l2 : list A) :
  l1 `sublist_of` l2 -> Forall P l2 -> Forall P l1.
Proof.
  intros Hsub Hall. rewrite Forall_forall in *.
  intros x Hx. apply Hall. eapply elem_of_sublist; eassumption.
Qed.

Lemma existsb_eqb_In (x : string) (l : list string) :
  existsb (String.eqb x) l = true -> In x l.
Proof.
  intros (y & Hy & Heq)%existsb_exists.
  apply String.eqb_eq in Heq. subst. exact Hy.
Qed.

Lemma keep_attributed (f : TrialFilters) (m : gmap string TrialMeta.t)
      (p : Physician.t) :
  keep f m p = true -> exists meta, attributed m p meta.
Proof.
  unfold keep, attributed.
  destruct (Physician.nctId p) as [i|]; [|discriminate].
  destruct i as [|c r]; [discriminate|]. simpl.
  destruct (m !! String c r) as [meta|] eqn:E; [|discriminate].
  intros _. exists meta, (String c r). repeat split; [discriminate | exact E].
Qed.

Lemma keep_satisfies (f : TrialFilters) (m : gmap string TrialMeta.t)
      (p : Physician.t) :
  keep f m p = true -> satisfies f m p.
Proof.
  unfold keep, satisfies, attributed.
  destruct (Physician.nctId p) as [i|]; [|discriminate].
  destruct i as [|c r]; [discriminate|]. simpl.
  destruct (m !! String c r) as [meta|] eqn:E; [|discriminate].
  intros H. exists meta. split.
  { exists (String c r). repeat split; [discriminate | exact E]. }
  destruct ((0 <? Z.of_nat (length (phases f)))
            && negb (existsb (String.eqb (TrialMeta.phase meta)) (phases f)))
    eqn:Hph; [discriminate|].
  destruct (sponsorIs (sponsorType f) Industry
            && negb (match TrialMeta.fundedBy meta with
                     | Some s => String.eqb (Js.toLowerCase s) "industry"
                     | None => false
                     end)) eqn:Hsp; [discriminate|].
  destruct (recruitingOnly f
            && negb (match TrialMeta.overallStatus meta with
                     | Some s => Js.startsWith (Js.toLowerCase s) "recruit"
                     | None => false
                     end)) eqn:Hre; [discriminate|].
  clear H. unfold matches. repeat split.
  - intros Hne. apply existsb_eqb_In.
    destruct (phases f) as [|x xs]; [congruence|].
    simpl in Hph. apply negb_false_iff in Hph. exact Hph.
  - intros Hind. rewrite Hind in Hsp. simpl in Hsp.
    destruct (TrialMeta.fundedBy meta) as [s|]; [|discriminate].
    exists s. split; [reflexivity|].
    apply negb_false_iff in Hsp. apply String.eqb_eq. exact Hsp.
  - intros Hrec. rewrite Hrec in Hre. simpl in Hre.
    destruct (TrialMeta.overallStatus meta) as [s|]; [|discriminate].
    exists s. split; [reflexivity|].
    apply negb_false_iff in Hre. exact Hre.
Qed.

Lemma filter_keeps {A} (f : A -> bool) (l : list A) :
  Forall (fun x => f x = true) (List.filter f l).
Proof.
  rewrite Forall_forall. intros x Hx. apply list_elem_of_In in Hx.
  apply filter_In in Hx. tauto.
Qed.

(** In filtered mode the filtered list is the callback applied to [base]. *)
Lemma filteredPhysicians_active (st : State) :
  isTrialFilterActive st = true ->
  filteredPhysicians st
  = List.filter (keep (filters st) (metaMap st)) (base st).
Proof.
  intros Hact. unfold filteredPhysicians.
  unfold isTrialFilterActive in *. rewrite isActive_alt in Hact.
  apply negb_true_iff in Hact. rewrite isActive_alt, Hact. simpl.
  destruct (base st); reflexivity.
Qed.

Lemma filteredPhysicians_identity (st : State) :
  isTrialFilterActive st = false ->
  filteredPhysicians st = pagePhysicians st.
Proof.
  intros Hact. unfold filteredPhysicians, base. rewrite Hact. simpl.
  destruct (allPhysicians st); destruct (pagePhysicians st); reflexivity.
Qed.

(** C1.  Under a filter other than the identity, with the full unpaged set
    held, the filtered list and the page of it that is displayed are
    subsequences of the full set (its order is kept), and every element of
    them satisfies the filter predicate: it has an attributes record, whose
    phase is among the selected phases if any is selected, whose sponsor
    class is "industry" up to case if the sponsor constraint is
    industry-only, and whose overall status starts with "recruit" up to
    case if recruiting-only is set. *)
Theorem filtered_is_subsequence (st : State) (all : list Physician.t) :
  filters st <> DEFAULT_FILTERS ->
  allPhysicians st = Some all ->
  filteredPhysicians st `sublist_of` all
  /\ displayPhysicians st `sublist_of` filteredPhysicians st
  /\ displayPhysicians st `sublist_of` all
  /\ Forall (satisfies (filters st) (metaMap st)) (filteredPhysicians st)
  /\ Forall (satisfies (filters st) (metaMap st)) (displayPhysicians st)
  /\ totalCountToShow st = Z.of_nat (length (filteredPhysicians st)).
Proof.
  intros Hne Hall. apply isActive_iff in Hne.
  assert (Hbase : base st = all).
  { unfold base. rewrite Hall. unfold isTrialFilterActive. rewrite Hne. reflexivity. }
  assert (Hf : filteredPhysicians st
               = List.filter (keep (filters st) (metaMap st)) all).
  { rewrite filteredPhysicians_active by exact Hne. rewrite Hbase. reflexivity. }
  assert (Hd : displayPhysicians st `sublist_of` filteredPhysicians st).
  { unfold displayPhysicians, paginatedPhysicians, isTrialFilterActive.
    rewrite Hne. apply slice_sublist. }
  assert (Hsat : Forall (satisfies (filters st) (metaMap st)) (filteredPhysicians st)).
  { rewrite Hf. eapply Forall_impl; [apply filter_keeps|].
    intros p Hp. apply keep_satisfies. exact Hp. }
  assert (Hsub : filteredPhysicians st `sublist_of` all).
  { rewrite Hf. apply filter_sublist. }
  repeat split; try assumption.
  - etransitivity; eassumption.
  - eapply Forall_sublist_of; eassumption.
  - unfold totalCountToShow, isTrialFilterActive. rewrite Hne. reflexivity.
Qed.

Lemma filtered_is_subsequence_witness :
  filteredPhysicians
    (loaded industryRecruiting [inv1] (Some [inv1; inv2; inv3])
            (Some [meta1; meta2]) None)
  `sublist_of` [inv1; inv2; inv3].
Proof.
  apply (filtered_is_subsequence
           (loaded industryRecruiting [inv1] (Some [inv1; inv2; inv3])
                   (Some [meta1; meta2]) None)
           [inv1; inv2; inv3]).
  - discriminate.
  - reflexivity.
Defined.

(** The two scenarios: industry-only and recruiting keeps investigator 2,
    phase 2 keeps investigator 1. *)
Example scenario_industry_recruiting :
  displayPhysicians
    (loaded industryRecruiting [inv1; inv2] (Some [inv1; inv2])
            (Some [meta1; meta2]) None)
  = [inv2].
Proof. vm_compute. reflexivity. Qed.

Example scenario_phase_two :
  displayPhysicians
    (loaded phaseTwo [inv1; inv2] (Some [inv1; inv2])
            (Some [meta1; meta2]) None)
  = [inv1].
Proof. vm_compute. reflexivity. Qed.

End Reconciler.

(** ** Unfiltered mode, missing attributes, and a failed full-set fetch *)

Section Modes.
Import Page PageSpec.

(** C4.  Under the identity filter (no phase, sponsor "Any", recruiting-only
    off) the list displayed is the physicians of the server's page as they
    came, neither filtered nor re-paginated, the total shown is the
    server's totalCount, and the number of pages is derived from it. *)
Theorem identity_filter_shows_server_page (st : State) (resp : ApiResponse.t) :
  filters st = DEFAULT_FILTERS ->
  data st = Some resp ->
  filteredPhysicians st = ApiResponse.physicians resp
  /\ displayPhysicians st = ApiResponse.physicians resp
  /\ totalCountToShow st = ApiResponse.totalCount resp
  /\ totalPagesToShow st = Js.ceilDiv (ApiResponse.totalCount resp) ITEMS_PER_PAGE
  /\ (isSearching st = false -> ApiResponse.physicians resp <> [] ->
      results (render st)
      = Cards (ApiResponse.physicians resp)
              (Js.ceilDiv (ApiResponse.totalCount resp) ITEMS_PER_PAGE)).
Proof.
  intros Hid Hdata.
  assert (Hact : isTrialFilterActive st = false).
  { unfold isTrialFilterActive. rewrite Hid. reflexivity. }
  assert (Hf : filteredPhysicians st = ApiResponse.physicians resp).
  { rewrite filteredPhysicians_identity by exact Hact.
    unfold pagePhysicians. rewrite Hdata. reflexivity. }
  assert (Hd : displayPhysicians st = ApiResponse.physicians resp).
  { unfold displayPhysicians, paginatedPhysicians. rewrite Hact. exact Hf. }
  assert (Ht : serverTotalCount st = ApiResponse.totalCount resp).
  { unfold serverTotalCount. rewrite Hdata.
    destruct (Z.eqb_spec (ApiResponse.totalCount resp) 0); congruence. }
  assert (Hp : totalPagesToShow st
               = Js.ceilDiv (ApiResponse.totalCount resp) ITEMS_PER_PAGE).
  { unfold totalPagesToShow. rewrite Hact, Ht. reflexivity. }
  repeat split; try assumption.
  - unfold totalCountToShow. rewrite Hact. exact Ht.
  - intros Hs Hne. unfold render. cbn [results]. rewrite Hs, Hd, Hp.
    destruct (ApiResponse.physicians resp); [congruence | reflexivity].
Qed.

Lemma identity_filter_shows_server_page_witness :
  displayPhysicians
    (loaded DEFAULT_FILTERS [inv1; inv3; inv2] None (Some [meta1]) None)
  = [inv1; inv3; inv2].
Proof.
  apply (identity_filter_shows_server_page
           (loaded DEFAULT_FILTERS [inv1; inv3; inv2] None (Some [meta1]) None)
           (ApiResponse.mk [inv1; inv3; inv2] 40));
    reflexivity.
Defined.

Lemma keep_unattributable (f : TrialFilters) (m : gmap string TrialMeta.t)
      (p : Physician.t) :
  unattributable m p -> keep f m p = false.
Proof.
  intros Hun. destruct (keep f m p) eqn:E; [|reflexivity].
  destruct (keep_attributed f m p E) as [meta Hmeta].
  destruct (Hun meta Hmeta).
Qed.

Lemma unattributable_without_metadata (p : Physician.t) :
  unattributable (metaMapOf []) p.
Proof.
  intros meta (i & _ & _ & Hlook). unfold metaMapOf in Hlook.
  cbn [foldl] in Hlook. rewrite lookup_empty in Hlook. discriminate.
Qed.

Lemma filter_none {A} (f : A -> bool) (l : list A) :
  (forall x, f x = false) -> List.filter f l = [].
Proof.
  intros Hf. induction l as [|x l IH]; simpl; [reflexivity|].
  rewrite Hf. exact IH.
Qed.

(** C5.  Under a filter other than the identity, an investigator without a
    trial identifier, or whose identifier has no attributes record in the
    lookup, is in neither the filtered list nor the displayed page; when
    no metadata is held (the fetch for the identifiers failed) the filtered
    list, the displayed page and the total are empty, the warning is
    rendered when the fetch reported an error, and the results section
    renders the placeholder rather than any card.  Under the identity
    filter every investigator of the server page is displayed, attributable
    or not. *)
Theorem unattributable_is_excluded (st : State) :
  (filters st <> DEFAULT_FILTERS ->
   forall p, unattributable (metaMap st) p ->
             ~ In p (filteredPhysicians st) /\ ~ In p (displayPhysicians st))
  /\ (filters st <> DEFAULT_FILTERS ->
      trialMetaData st = None ->
      filteredPhysicians st = []
      /\ displayPhysicians st = []
      /\ totalCountToShow st = 0
      /\ (is_Some (metaError st) -> metaWarning (render st) = true)
      /\ (isSearching st = false -> is_Some (searchParams st) ->
          error st = None ->
          results (render st)
          = EmptyPlaceholder "No PIs match the selected filters."))
  /\ (filters st = DEFAULT_FILTERS ->
      forall p, In p (pagePhysicians st) -> In p (displayPhysicians st)).
Proof.
  split; [|split].
  - intros Hne%isActive_iff p Hun.
    assert (Hnf : ~ In p (filteredPhysicians st)).
    { rewrite filteredPhysicians_active by exact Hne.
      intros [_ Hk]%filter_In.
      rewrite (keep_unattributable _ _ _ Hun) in Hk. discriminate. }
    split; [exact Hnf|]. intros Hd. apply Hnf.
    apply list_elem_of_In. apply list_elem_of_In in Hd.
    eapply elem_of_sublist; [exact Hd|].
    unfold displayPhysicians, paginatedPhysicians, isTrialFilterActive.
    rewrite Hne. apply slice_sublist.
  - intros Hne%isActive_iff Hmeta.
    assert (Hf : filteredPhysicians st = []).
    { rewrite filteredPhysicians_active by exact Hne.
      apply filter_none. intros p. apply keep_unattributable.
      unfold metaMap, trialMeta. rewrite Hmeta.
      apply unattributable_without_metadata. }
    assert (Hd : displayPhysicians st = []).
    { unfold displayPhysicians, paginatedPhysicians, isTrialFilterActive.
      rewrite Hne, Hf. unfold Js.slice. rewrite drop_nil, take_nil. reflexivity. }
    repeat split; try assumption.
    + unfold totalCountToShow, filteredTotalCount, isTrialFilterActive.
      rewrite Hne, Hf. reflexivity.
    + intros Herr. unfold render. cbn [metaWarning].
      apply bool_decide_eq_true. exact Herr.
    + intros Hs Hsp Herr. unfold render. cbn [results].
      rewrite Hs, Hd, Herr. cbn [isNonEmpty].
      rewrite (bool_decide_eq_true_2 _ Hsp).
      rewrite bool_decide_eq_false_2; [reflexivity|].
      intros [x Hx]. discriminate.
  - intros Hid p Hp.
    assert (Hact : isTrialFilterActive st = false).
    { unfold isTrialFilterActive. rewrite Hid. reflexivity. }
    unfold displayPhysicians, paginatedPhysicians. rewrite Hact.
    rewrite filteredPhysicians_identity by exact Hact. exact Hp.
Qed.

Lemma unattributable_is_excluded_witness :
  ~ In inv3 (displayPhysicians
               (loaded recruiting [inv3] (Some [inv3; inv2])
                       (Some [meta1; meta2]) None))
  /\ displayPhysicians
       (loaded recruiting [inv1; inv2] (Some [inv1; inv2]) None
               (Some "Failed to fetch trial meta (502)"))
     = []
  /\ In inv3 (displayPhysicians
                (loaded DEFAULT_FILTERS [inv3; inv2] None None None)).
Proof.
  split; [|split].
  - apply (unattributable_is_excluded
             (loaded recruiting [inv3] (Some [inv3; inv2])
                     (Some [meta1; meta2]) None)).
    + discriminate.
    + intros meta (i & Hi & _). discriminate Hi.
  - apply (unattributable_is_excluded
             (loaded recruiting [inv1; inv2] (Some [inv1; inv2]) None
                     (Some "Failed to fetch trial meta (502)")));
      [discriminate | reflexivity].
  - apply (unattributable_is_excluded
             (loaded DEFAULT_FILTERS [inv3; inv2] None None None));
      [reflexivity | left; reflexivity].
Defined.




End Modes.

(** ** Client-side pages of the filtered list *)

Section ClientPages.
Import Page PageSpec ExtraSpec.

Lemma seqZ_snoc (m : nat) : seqZ 1 (Z.of_nat (S m)) = (seqZ 1 (Z.of_nat m) ++ [Z.of_nat m + 1])%list.
Proof.
  rewrite Nat2Z.inj_succ, <- Z.add_1_r, seqZ_app by lia.
  rewrite (seqZ_cons (1 + Z.of_nat m) 1) by lia.
  rewrite (seqZ_nil (Z.succ (1 + Z.of_nat m))) by lia.
  f_equal. f_equal. lia.
Qed.

Lemma pages_take {A} (l : list A) (m : nat) :
  flat_map (fun k => Js.slice ((k - 1) * ITEMS_PER_PAGE)
                              ((k - 1) * ITEMS_PER_PAGE + ITEMS_PER_PAGE) l)
           (seqZ 1 (Z.of_nat m))
  = take (6 * m) l.
Proof.
  induction m as [|m IH].
  - rewrite Nat.mul_0_r, take_0. reflexivity.
  - rewrite seqZ_snoc, flat_map_app, IH. cbn [flat_map]. rewrite app_nil_r.
    rewrite slice_window by (unfold ITEMS_PER_PAGE; lia).
    replace (Z.to_nat ((Z.of_nat m + 1 - 1) * ITEMS_PER_PAGE)) with (6 * m)%nat
      by (unfold ITEMS_PER_PAGE; lia).
    change (Z.to_nat ITEMS_PER_PAGE) with 6%nat.
    rewrite take_take_drop. f_equal. lia.
Qed.

Lemma ceilDiv_covers (n : Z) : 0 <= n -> n <= 6 * Js.ceilDiv n 6 < n + 6.
Proof.
  intros Hn. unfold Js.ceilDiv.
  pose proof (Z.div_mod (- n) 6 ltac:(lia)).
  pose proof (Z.mod_pos_bound (- n) 6 ltac:(lia)). lia.
Qed.

Lemma display_active (st : State) :
  isTrialFilterActive st = true ->
  displayPhysicians st = pageOfList st (filteredPhysicians st).
Proof.
  intros Hact. unfold displayPhysicians, paginatedPhysicians. rewrite Hact.
  reflexivity.
Qed.

Lemma display_window (st : State) :
  isTrialFilterActive st = true -> 1 <= currentPage st ->
  displayPhysicians st
  = take 6 (drop (Z.to_nat ((currentPage st - 1) * 6)) (filteredPhysicians st)).
Proof.
  intros Hact Hk. rewrite display_active by exact Hact. unfold pageOfList.
  rewrite slice_window by (unfold ITEMS_PER_PAGE; lia). reflexivity.
Qed.

(** X1.  In filtered mode the pages 1, 2, ..., totalPagesToShow that
    [handlePageChange] can show are consecutive pieces of the filtered
    list: put one after the other they are the whole filtered list, with
    nothing lost or repeated. *)
Theorem client_pages_cover_filtered_list (st : State) :
  isTrialFilterActive st = true ->
  flat_map (fun k => displayPhysicians (Search.handlePageChange k st))
           (seqZ 1 (totalPagesToShow st))
  = filteredPhysicians st.
Proof.
  intros Hact.
  assert (Hp : totalPagesToShow st
               = Js.ceilDiv (Z.of_nat (length (filteredPhysicians st))) 6).
  { unfold totalPagesToShow. rewrite Hact. reflexivity. }
  pose proof (ceilDiv_covers (Z.of_nat (length (filteredPhysicians st)))
                ltac:(lia)) as Hc.
  rewrite Hp.
  rewrite <- (Z2Nat.id (Js.ceilDiv _ 6)) by lia.
  etransitivity; [|apply (take_ge (filteredPhysicians st)
                            (6 * Z.to_nat (Js.ceilDiv (Z.of_nat (length (filteredPhysicians st))) 6)));
                   lia].
  rewrite <- pages_take. apply flat_map_ext. intros k.
  rewrite display_active by exact Hact. reflexivity.
Qed.

Lemma client_pages_cover_filtered_list_witness :
  (displayPhysicians (Search.handlePageChange 1 twoPages)
   ++ displayPhysicians (Search.handlePageChange 2 twoPages))%list
  = replicate 7 inv2.
Proof.
  pose proof (client_pages_cover_filtered_list twoPages eq_refl) as H.
  vm_compute in H. vm_compute. exact H.
Defined.

(** X2.  In filtered mode, on a page number of at least 1: the page shows
    at most ITEMS_PER_PAGE investigators; it shows at least one when the
    page number is at most totalPagesToShow; and on a page number above
    totalPagesToShow (the page number is kept when the filter changes) it
    shows none, so that the placeholder "No PIs match the selected
    filters." is rendered whatever the filtered list holds. *)
Theorem client_page_bounds (st : State) :
  isTrialFilterActive st = true ->
  1 <= currentPage st ->
  Z.of_nat (length (displayPhysicians st)) <= ITEMS_PER_PAGE
  /\ (currentPage st <= totalPagesToShow st -> displayPhysicians st <> [])
  /\ (totalPagesToShow st < currentPage st ->
      displayPhysicians st = []
      /\ (isSearching st = false -> is_Some (searchParams st) ->
          error st = None ->
          results (render st)
          = EmptyPlaceholder "No PIs match the selected filters."))
  /\ (forall f, currentPage (setFilters f st) = currentPage st).
Proof.
  intros Hact Hk.
  assert (Hp : totalPagesToShow st
               = Js.ceilDiv (Z.of_nat (length (filteredPhysicians st))) 6).
  { unfold totalPagesToShow. rewrite Hact. reflexivity. }
  pose proof (ceilDiv_covers (Z.of_nat (length (filteredPhysicians st)))
                ltac:(lia)) as Hc.
  rewrite (display_window st Hact Hk), Hp.
  split; [|split; [|split]].
  - rewrite length_take. unfold ITEMS_PER_PAGE. lia.
  - intros Hle Hnil. apply (f_equal length) in Hnil.
    rewrite length_take, length_drop in Hnil. cbn [length] in Hnil. lia.
  - intros Hgt.
    assert (Hd : take 6 (drop (Z.to_nat ((currentPage st - 1) * 6))
                              (filteredPhysicians st)) = []).
    { rewrite drop_ge by lia. apply take_nil. }
    split; [exact Hd|].
    intros Hs Hsp Herr. unfold render. cbn [results].
    rewrite Hs, (display_window st Hact Hk), Hd, Herr. cbn [isNonEmpty].
    rewrite (bool_decide_eq_true_2 _ Hsp).
    rewrite bool_decide_eq_false_2; [reflexivity|].
    intros [x Hx]. discriminate.
  - intros f. reflexivity.
Qed.

Lemma client_page_bounds_witness :
  filteredPhysicians stalePage = [inv2]
  /\ results (render stalePage)
     = EmptyPlaceholder "No PIs match the selected filters.".
Proof.
  split; [reflexivity|].
  apply (client_page_bounds stalePage);
    first [reflexivity | vm_compute; congruence | exists someSearch; reflexivity].
Defined.

(** X3.  In filtered mode, when the line "Showing a-b of n results" is
    rendered on a page number of at least 1, n is the length of the
    filtered list, a is the position of the first investigator shown, b the
    position of the last one, and 1 <= a <= b <= n. *)
Theorem results_count_is_consistent (st : State) (a b n : Z) :
  isTrialFilterActive st = true ->
  1 <= currentPage st ->
  resultsCount (render st) = Some (a, b, n) ->
  n = Z.of_nat (length (filteredPhysicians st))
  /\ a = (currentPage st - 1) * ITEMS_PER_PAGE + 1
  /\ b = a + Z.of_nat (length (displayPhysicians st)) - 1
  /\ 1 <= a <= b /\ b <= n.
Proof.
  intros Hact Hk Hshow. unfold render in Hshow. cbn [resultsCount] in Hshow.
  destruct (displayPhysicians st) as [|p ps] eqn:Hd.
  { cbn [isNonEmpty] in Hshow. rewrite andb_false_r in Hshow. discriminate. }
  match type of Hshow with
  | (if ?c then _ else _) = _ => destruct c; [|discriminate]
  end.
  injection Hshow as <- <- <-.
  assert (Hn : totalCountToShow st = Z.of_nat (length (filteredPhysicians st))).
  { unfold totalCountToShow. rewrite Hact. reflexivity. }
  pose proof (f_equal length Hd) as HL.
  rewrite (display_window st Hact Hk), length_take, length_drop in HL.
  rewrite Hn. unfold ITEMS_PER_PAGE. cbn [length] in *. lia.
Qed.

Lemma results_count_is_consistent_witness :
  resultsCount (render (Search.handlePageChange 2 twoPages)) = Some (7, 7, 7)
  /\ 7 = Z.of_nat (length (filteredPhysicians (Search.handlePageChange 2 twoPages))).
Proof.
  split; [vm_compute; reflexivity|].
  apply (results_count_is_consistent (Search.handlePageChange 2 twoPages) 7 7 7).
  - reflexivity.
  - vm_compute. congruence.
  - vm_compute. reflexivity.
Defined.

End ClientPages.

(** ** The pagination controls *)

Section Pagination.
Import PaginationControls ExtraSpec.

Lemma seqZ_sorted (m n : Z) : StronglySorted Z.lt (seqZ m n).
Proof.
  remember (Z.to_nat n) as k eqn:Hk. revert m n Hk.
  induction k as [|k IH]; intros m n Hk.
  - rewrite seqZ_nil by lia. constructor.
  - rewrite seqZ_cons by lia. apply StronglySorted_cons. split.
    + apply Forall_seqZ. intros. lia.
    + apply IH. lia.
Qed.

Lemma numbersOf_numbers (l : list Z) : numbersOf (map PageNumber l) = l.
Proof.
  unfold numbersOf. induction l as [|x l IH]; [reflexivity|].
  cbn. f_equal. exact IH.
Qed.

Lemma numbersOf_getPageNumbers (currentPage totalPages : Z) :
  1 < totalPages ->
  numbersOf (getPageNumbers currentPage totalPages)
  = ([1] ++ seqZ (Z.max 2 (currentPage - 1))
                 (Z.min (totalPages - 1) (currentPage + 1)
                  - Z.max 2 (currentPage - 1) + 1)
         ++ [totalPages])%list.
Proof.
  intros Htp. unfold getPageNumbers.
  destruct (Z.ltb_spec 1 totalPages); [|lia].
  unfold numbersOf. rewrite !omap_app. fold numbersOf.
  change (omap _ (map PageNumber ?l)) with (numbersOf (map PageNumber l)).
  rewrite numbersOf_numbers.
  destruct (2 <? Z.max 2 (currentPage - 1));
    destruct (Z.min (totalPages - 1) (currentPage + 1) <? totalPages - 1);
    reflexivity.
Qed.

Lemma page_numbers_in_range (currentPage totalPages : Z) :
  1 < totalPages -> 1 <= currentPage <= totalPages ->
  forall n, In n (numbersOf (getPageNumbers currentPage totalPages)) ->
            1 <= n <= totalPages.
Proof.
  intros Htp Hcp n Hn. rewrite (numbersOf_getPageNumbers _ _ Htp) in Hn.
  apply list_elem_of_In in Hn.
  apply elem_of_app in Hn as [->%list_elem_of_singleton|Hn]; [lia|].
  apply elem_of_app in Hn as [Hn%elem_of_seqZ | ->%list_elem_of_singleton]; lia.
Qed.

Lemma no_ellipsis_among_numbers (l : list Z) :
  ~ In EllipsisStart (map PageNumber l) /\ ~ In EllipsisEnd (map PageNumber l).
Proof.
  split; intros (x & Hx & _)%in_map_iff; discriminate.
Qed.

(** X4.  When there is more than one page and the current page is one of
    them, the page numbers offered by the pagination controls are strictly
    increasing (so none is repeated), start at 1, end at the last page,
    lie between the two, and include the current page and its neighbours;
    an ellipsis is put after page 1 exactly when the current page is
    above 3, and before the last page exactly when more than one page lies
    between the current page and the last. *)
Theorem page_numbers_shape (currentPage totalPages : Z) :
  1 < totalPages ->
  1 <= currentPage <= totalPages ->
  let items := getPageNumbers currentPage totalPages in
  StronglySorted Z.lt (numbersOf items)
  /\ head (numbersOf items) = Some 1
  /\ last (numbersOf items) = Some totalPages
  /\ (forall n, In n (numbersOf items) -> 1 <= n <= totalPages)
  /\ (forall n, 1 <= n <= totalPages -> currentPage - 1 <= n <= currentPage + 1 ->
                In n (numbersOf items))
  /\ (In EllipsisStart items <-> 3 < currentPage)
  /\ (In EllipsisEnd items <-> currentPage + 2 < totalPages).
Proof.
  intros Htp Hcp items. subst items.
  rewrite (numbersOf_getPageNumbers _ _ Htp).
  set (startPage := Z.max 2 (currentPage - 1)).
  set (endPage := Z.min (totalPages - 1) (currentPage + 1)).
  split; [|split; [|split; [|split; [|split; [|split]]]]].
  - apply (StronglySorted_app_2 _ [1]).
    + intros x1 x2 ->%list_elem_of_singleton [Hx%elem_of_seqZ | ->%list_elem_of_singleton]%elem_of_app;
        subst startPage; lia.
    + repeat constructor.
    + apply StronglySorted_app_2; [|apply seqZ_sorted|repeat constructor].
      intros x1 x2 Hx1%elem_of_seqZ ->%list_elem_of_singleton.
      subst startPage endPage. lia.
  - reflexivity.
  - rewrite app_assoc. apply last_snoc.
  - intros n Hn. apply (page_numbers_in_range currentPage totalPages Htp Hcp).
    rewrite (numbersOf_getPageNumbers _ _ Htp). exact Hn.
  - intros n Hn Hnear. apply list_elem_of_In.
    destruct (Z.eq_dec n 1) as [->|]; [apply elem_of_app; left; apply list_elem_of_singleton; reflexivity|].
    apply elem_of_app. right.
    destruct (Z.eq_dec n totalPages) as [->|];
      [apply elem_of_app; right; apply list_elem_of_singleton; reflexivity|].
    apply elem_of_app. left. apply elem_of_seqZ. subst startPage endPage. lia.
  - unfold getPageNumbers. fold startPage endPage. rewrite !in_app_iff.
    destruct (no_ellipsis_among_numbers
                (seqZ startPage (endPage - startPage + 1))) as [Hs He].
    destruct (Z.ltb_spec 2 startPage);
      destruct (endPage <? totalPages - 1); destruct (1 <? totalPages);
      simpl; subst startPage;
      (split; [intros H'; try lia; exfalso;
               repeat (destruct H' as [H'|H']; try discriminate H'; try tauto)
              | intros H'; try lia; tauto]).
  - unfold getPageNumbers. fold startPage endPage. rewrite !in_app_iff.
    destruct (no_ellipsis_among_numbers
                (seqZ startPage (endPage - startPage + 1))) as [Hs He].
    destruct (2 <? startPage);
      destruct (Z.ltb_spec endPage (totalPages - 1)); destruct (1 <? totalPages);
      simpl; subst endPage;
      (split; [intros H'; try lia; exfalso;
               repeat (destruct H' as [H'|H']; try discriminate H'; try tauto)
              | intros H'; try lia; tauto]).
Qed.

Lemma page_numbers_shape_witness :
  numbersOf (getPageNumbers 5 9) = [1; 4; 5; 6; 9]
  /\ StronglySorted Z.lt (numbersOf (getPageNumbers 5 9)).
Proof.
  split; [reflexivity|].
  apply (page_numbers_shape 5 9); lia.
Defined.

Lemma links_are_page_numbers (items : list PageItem) (p : Z) :
  In (PageLink p) ([Previous] ++ map toControl items ++ [Next]) ->
  In p (numbersOf items).
Proof.
  intros Hc.
  apply in_app_iff in Hc as [[Hc|[]]|Hc]; [discriminate|].
  apply in_app_iff in Hc as [Hc|[Hc|[]]]; [|discriminate].
  apply in_map_iff in Hc as (item & Hitem & Hin).
  destruct item as [n| |]; try discriminate. injection Hitem as ->.
  apply list_elem_of_In. unfold numbersOf. apply list_elem_of_omap.
  exists (PageNumber p). split; [apply list_elem_of_In; exact Hin | reflexivity].
Qed.

(** X5.  When the pagination controls are rendered with a current page
    between 1 and the number of pages, every click either does nothing or
    asks for a page between 1 and the number of pages: "previous" is inert
    on page 1, "next" on the last page, and an ellipsis always. *)
Theorem clicks_stay_in_range (currentPage totalPages : Z)
        (controls : list Control) (c : Control) (page : Z) :
  1 <= currentPage <= totalPages ->
  render currentPage totalPages = Some controls ->
  In c controls ->
  onClick currentPage totalPages c = Some page ->
  1 <= page <= totalPages.
Proof.
  intros Hcp Hr Hc Hclick. unfold render in Hr.
  destruct (Z.leb_spec totalPages 1) as [|Htp]; [discriminate|].
  injection Hr as <-.
  destruct c as [|p| |]; simpl in Hclick.
  - destruct (Z.ltb_spec 1 currentPage); [|discriminate].
    injection Hclick as <-. lia.
  - injection Hclick as <-.
    pose proof (links_are_page_numbers
                  (getPageNumbers currentPage totalPages) p Hc) as Hin.
    destruct (page_numbers_in_range currentPage totalPages Htp Hcp p Hin). lia.
  - discriminate.
  - destruct (Z.ltb_spec currentPage totalPages); [|discriminate].
    injection Hclick as <-. lia.
Qed.

Lemma clicks_stay_in_range_witness :
  onClick 5 9 Next = Some 6 /\ 1 <= 6 <= 9.
Proof.
  split; [reflexivity|].
  apply (clicks_stay_in_range 5 9
           ([Previous] ++ map toControl (getPageNumbers 5 9) ++ [Next]) Next 6).
  - lia.
  - reflexivity.
  - vm_compute. tauto.
  - reflexivity.
Defined.

End Pagination.

(** ** Entering and leaving filtered mode; the metadata lookup *)

Section FilteredMode.
Import Page PageSpec ExtraSpec.

(** X6.  When the full-set fetch issued on entering filtered mode
    resolves, the reconciler holds the fetched list with no error and no
    loading flag, and from then on filters that list and not the server
    page: the filtered list is the filter callback applied to the fetched
    physicians, the total shown is its length, and the identifiers whose
    metadata is requested are the non-empty trial identifiers of the
    fetched physicians, in order. *)
Theorem full_set_replaces_page (st : State) (res : ApiResponse.t) :
  isTrialFilterActive st = true ->
  is_Some (searchParams st) ->
  let after := fetchAllResolved res (fst (fetchAllEffect st)) in
  allPhysicians after = Some (ApiResponse.physicians res)
  /\ allLoading after = false
  /\ allError after = None
  /\ allPhysiciansDataAvailable after = true
  /\ filteredPhysicians after
     = List.filter (keep (filters st) (metaMap st)) (ApiResponse.physicians res)
  /\ totalCountToShow after = Z.of_nat (length (filteredPhysicians after))
  /\ nctIds after
     = List.filter Js.truthyStr
                   (omap Physician.nctId (ApiResponse.physicians res)).
Proof.
  intros Hact Hsp after.
  assert (Heff : fetchAllEffect st
                 = (set_all st (allPhysicians st) true None false, true)).
  { unfold fetchAllEffect. rewrite Hact, (bool_decide_eq_true_2 _ Hsp). reflexivity. }
  subst after. rewrite Heff. cbn [fst].
  assert (Hact' : isTrialFilterActive
                    (fetchAllResolved res
                       (set_all st (allPhysicians st) true None false)) = true)
    by exact Hact.
  repeat (split; [reflexivity|]). split; [|split].
  - rewrite (filteredPhysicians_active _ Hact'). unfold base.
    cbn [allPhysicians fetchAllResolved set_all]. rewrite Hact'. reflexivity.
  - unfold totalCountToShow. rewrite Hact'. reflexivity.
  - unfold nctIds, base. cbn [allPhysicians fetchAllResolved set_all].
    rewrite Hact'.
    induction (ApiResponse.physicians res) as [|p ps IH]; [reflexivity|].
    cbn [omap list_omap]. destruct (Physician.nctId p) as [[|c r]|]; cbn.
    + exact IH.
    + f_equal. exact IH.
    + exact IH.
Qed.

Lemma full_set_replaces_page_witness :
  filteredPhysicians
    (fetchAllResolved (ApiResponse.mk sevenRecruiting 8)
       (fst (fetchAllEffect
               (loaded recruiting [inv1] None (Some [meta1; meta2]) None))))
  = replicate 7 inv2.
Proof.
  destruct (full_set_replaces_page
              (loaded recruiting [inv1] None (Some [meta1; meta2]) None)
              (ApiResponse.mk sevenRecruiting 8))
    as (_ & _ & _ & _ & Hf & _).
  - reflexivity.
  - exists someSearch. reflexivity.
  - rewrite Hf. reflexivity.
Defined.

(** X7.  Setting the filters back to their defaults (which is also what
    the "retry" button of a failed full-set fetch does) leaves filtered
    mode whatever the state was: no fetch is issued, the full set and its
    error are dropped, and the display and the total are those of the
    server page again. *)
Theorem resetting_filters_restores_server_page (st : State) :
  let reset := fetchAllEffect (setFilters DEFAULT_FILTERS st) in
  snd reset = false
  /\ allPhysicians (fst reset) = None
  /\ allError (fst reset) = None
  /\ allErrorMessage (render (fst reset)) = None
  /\ allPhysiciansDataAvailable (fst reset) = false
  /\ displayPhysicians (fst reset) = pagePhysicians st
  /\ totalCountToShow (fst reset) = serverTotalCount st.
Proof.
  cbn zeta. unfold fetchAllEffect.
  change (isTrialFilterActive (setFilters DEFAULT_FILTERS st)) with false.
  cbn [andb fst snd].
  repeat (split; [reflexivity|]). split.
  - unfold displayPhysicians, paginatedPhysicians.
    change (isTrialFilterActive (set_all (setFilters DEFAULT_FILTERS st) None
              (allLoading (setFilters DEFAULT_FILTERS st)) None false))
      with false.
    cbv iota. rewrite filteredPhysicians_identity by reflexivity. reflexivity.
  - reflexivity.
Qed.

Lemma metaMapOf_lookup_from (tms : list TrialMeta.t) (m : gmap string TrialMeta.t)
      (k : string) :
  foldl (fun m tm => <[TrialMeta.nctId tm := tm]> m) m tms !! k
  = match last (List.filter (fun tm => String.eqb (TrialMeta.nctId tm) k) tms) with
    | Some tm => Some tm
    | None => m !! k
    end.
Proof.
  revert m. induction tms as [|tm tms IH]; intros m; [reflexivity|].
  cbn [foldl List.filter]. rewrite IH.
  destruct (String.eqb_spec (TrialMeta.nctId tm) k) as [Heq|Hne].
  - rewrite last_cons.
    destruct (last (List.filter _ tms)); [reflexivity|].
    rewrite <- Heq. apply lookup_insert_eq.
  - destruct (last (List.filter _ tms)); [reflexivity|].
    apply lookup_insert_ne. exact Hne.
Qed.

(** X8.  The lookup built from the metadata records maps an identifier to
    the last record of the list that carries it, and to nothing when no
    record carries it; so whatever it returns for an identifier is a record
    of the list with that identifier, and when the registry sent two
    records for one identifier the later one is used. *)
Theorem metaMap_is_last_record (tms : list TrialMeta.t) (k : string) :
  metaMapOf tms !! k
  = last (List.filter (fun tm => String.eqb (TrialMeta.nctId tm) k) tms)
  /\ (forall tm, metaMapOf tms !! k = Some tm ->
                 TrialMeta.nctId tm = k /\ In tm tms)
  /\ (~ In k (map TrialMeta.nctId tms) -> metaMapOf tms !! k = None)
  /\ (In k (map TrialMeta.nctId tms) -> is_Some (metaMapOf tms !! k)).
Proof.
  assert (Hl : metaMapOf tms !! k
               = last (List.filter (fun tm => String.eqb (TrialMeta.nctId tm) k) tms)).
  { unfold metaMapOf. rewrite metaMapOf_lookup_from, lookup_empty.
    destruct (last _); reflexivity. }
  split; [exact Hl|]. rewrite Hl. split; [|split].
  - intros tm Hlast. apply last_Some in Hlast as [l' Hl'].
    assert (Hin : In tm (List.filter (fun tm => String.eqb (TrialMeta.nctId tm) k) tms)).
    { rewrite Hl'. apply in_app_iff. right. left. reflexivity. }
    apply filter_In in Hin as [Hin Heq]. apply String.eqb_eq in Heq. tauto.
  - intros Hnot.
    destruct (List.filter _ tms) as [|x xs] eqn:E; [reflexivity|].
    exfalso. apply Hnot.
    assert (Hx : In x (List.filter (fun tm => String.eqb (TrialMeta.nctId tm) k) tms))
      by (rewrite E; left; reflexivity).
    apply filter_In in Hx as [Hx Heq]. apply String.eqb_eq in Heq.
    apply in_map_iff. exists x. tauto.
  - intros (tm & Hid & Hin)%in_map_iff.
    assert (Hx : In tm (List.filter (fun tm => String.eqb (TrialMeta.nctId tm) k) tms)).
    { apply filter_In. split; [exact Hin|]. apply String.eqb_eq. exact Hid. }
    destruct (List.filter _ tms) as [|x xs]; [destruct Hx|].
    destruct (last (x :: xs)) eqn:E; [eexists; reflexivity|].
    apply last_None in E. discriminate.
Qed.

Lemma metaMap_is_last_record_witness :
  metaMapOf [meta1; TrialMeta.mk "NCT01" "3" None None; meta2] !! "NCT01"
  = Some (TrialMeta.mk "NCT01" "3" None None)
  /\ metaMapOf [meta1; meta2] !! "NCT09" = None.
Proof.
  split.
  - rewrite (proj1 (metaMap_is_last_record
                      [meta1; TrialMeta.mk "NCT01" "3" None None; meta2] "NCT01")).
    reflexivity.
  - apply (metaMap_is_last_record [meta1; meta2] "NCT09").
    simpl. intros [H|[H|[]]]; discriminate H.
Defined.

End FilteredMode.

(** ** The search form *)

Section SearchForm.
Import Page PageSpec ExtraSpec RouteSpec.

Lemma ge_ofZ (a b : Z) : Js.ge (Js.ofZ a) (Js.ofZ b) = (b <=? a).
Proof.
  unfold Js.ge, Js.lt, Js.ofZ, Js.Qltb, Qle_bool. simpl.
  rewrite !Z.mul_1_r, negb_involutive. reflexivity.
Qed.

Lemma leb_ofZ (a b : Z) : Js.leb (Js.ofZ a) (Js.ofZ b) = (a <=? b).
Proof. unfold Js.leb. apply ge_ofZ. Qed.

Lemma zip_check (z : string) :
  negb (Js.truthyStr z) || negb (Nat.eqb (String.length z) 5)
  || negb (Js.testDigitsPlus z)
  = negb (Js.testDigits 5 z).
Proof.
  unfold Js.testDigits, Js.testDigitsPlus.
  destruct z as [|c r]; [reflexivity|]. cbn [Js.truthyStr negb orb andb].
  destruct (Nat.eqb (String.length (String c r)) 5); reflexivity.
Qed.

Lemma isValidYear_iff (y : string) :
  Search.isValidYear y = true <-> validYearText y.
Proof.
  unfold Search.isValidYear, validYearText.
  destruct (String.eqb_spec y "") as [->|Hne]; [simpl; tauto|].
  cbn [orb]. destruct (Js.testDigits 4 y) eqn:Hd.
  - rewrite (year_number y Hd), ge_ofZ, leb_ofZ. cbn [andb].
    rewrite andb_true_iff, !Z.leb_le. split; [intros; right|intros [|]]; tauto.
  - cbn [andb]. split; [discriminate|]. intros [|[]]; congruence.
Qed.

Lemma yearOf_valid (y : string) :
  validYearText y -> Search.yearOf y = Js.ofZ <$> yearValue y.
Proof.
  unfold Search.yearOf, yearValue. intros [->|[Hd _]]; [reflexivity|].
  destruct y as [|c r]; [discriminate|]. cbn [Js.truthyStr String.eqb].
  rewrite (year_number _ Hd). reflexivity.
Qed.

Lemma yearValue_range (y : string) (v : Z) :
  validYearText y -> yearValue y = Some v -> 1900 <= v <= 2100.
Proof.
  unfold yearValue. intros [->|[_ Hr]]; [discriminate|].
  destruct (String.eqb y ""); [discriminate|]. intros [= <-]. exact Hr.
Qed.

Lemma handleSearch_valid (f : Form.t) (st : State) :
  validForm f ->
  Search.handleSearch f st
  = Search.setSearchParams
      (Some {| zipCode := Form.zipCode f;
               radius := Form.radius f;
               startYear := Js.ofZ <$> fst (ascending (yearValue (Form.startYear f))
                                                      (yearValue (Form.endYear f)));
               endYear := Js.ofZ <$> snd (ascending (yearValue (Form.startYear f))
                                                    (yearValue (Form.endYear f))) |})
      (Search.setCurrentPage 1 (setFilters DEFAULT_FILTERS st)).
Proof.
  intros (Hzip & Hsy & Hey). unfold Search.handleSearch.
  rewrite zip_check, Hzip. cbn [negb].
  rewrite (proj2 (isValidYear_iff _) Hsy), (proj2 (isValidYear_iff _) Hey).
  cbn [negb orb].
  rewrite (yearOf_valid _ Hsy), (yearOf_valid _ Hey).
  destruct (yearValue (Form.startYear f)) as [a|] eqn:Ha;
    destruct (yearValue (Form.endYear f)) as [b|] eqn:Hb;
    cbn [fmap option_fmap option_map Search.truthyYear andb ascending fst snd];
    try reflexivity.
  - pose proof (yearValue_range _ _ Hsy Ha). pose proof (yearValue_range _ _ Hey Hb).
    rewrite !truthyNum_ofZ. cbn [default from_option id]. rewrite gt_ofZ.
    destruct (Z.eqb_spec a 0); [lia|]. destruct (Z.eqb_spec b 0); [lia|].
    cbn [negb andb].
    destruct (Z.ltb_spec b a).
    + rewrite Z.min_r, Z.max_l by lia. reflexivity.
    + rewrite Z.min_l, Z.max_r by lia. reflexivity.
  - rewrite andb_false_r. reflexivity.
Qed.

(** X9.  [handleSearch] always puts the filters back to their defaults,
    also when it rejects the input; and when the postal code is not exactly
    five digits, or a year is neither blank nor four digits between 1900
    and 2100, it starts no search: the search parameters and the current
    page stay as they were. *)
Theorem rejected_search_only_resets_filters (f : Form.t) (st : State) :
  filters (Search.handleSearch f st) = DEFAULT_FILTERS
  /\ isTrialFilterActive (Search.handleSearch f st) = false
  /\ (~ validForm f ->
      Search.handleSearch f st = setFilters DEFAULT_FILTERS st
      /\ searchParams (Search.handleSearch f st) = searchParams st
      /\ currentPage (Search.handleSearch f st) = currentPage st).
Proof.
  assert (Hinv : ~ validForm f ->
                 Search.handleSearch f st = setFilters DEFAULT_FILTERS st).
  { intros Hn. unfold Search.handleSearch. rewrite zip_check.
    destruct (Js.testDigits 5 (Form.zipCode f)) eqn:Hz; [|reflexivity].
    cbn [negb].
    destruct (Search.isValidYear (Form.startYear f)) eqn:Hs; [|reflexivity].
    destruct (Search.isValidYear (Form.endYear f)) eqn:He; [|reflexivity].
    exfalso. apply Hn. repeat split; [exact Hz | apply isValidYear_iff ..]; assumption. }
  assert (Hf : filters (Search.handleSearch f st) = DEFAULT_FILTERS).
  { unfold Search.handleSearch.
    repeat match goal with
           | |- context [if ?c then _ else _] => destruct c
           end; reflexivity. }
  split; [exact Hf|]. split.
  - unfold isTrialFilterActive. rewrite Hf. reflexivity.
  - intros Hn. rewrite (Hinv Hn). repeat split.
Qed.

Lemma rejected_search_only_resets_filters_witness :
  Search.handleSearch badZipForm twoPages = setFilters DEFAULT_FILTERS twoPages.
Proof.
  apply (rejected_search_only_resets_filters badZipForm twoPages).
  intros (Hzip & _). vm_compute in Hzip. discriminate Hzip.
Defined.

(** X10.  When the form is acceptable, [handleSearch] starts a search on
    page 1 with the postal code and radius as typed and with the typed
    years as numbers, smaller one first when both are given; the stored
    years lie between 1900 and 2100 and are never inverted. *)
Theorem accepted_search_orders_years (f : Form.t) (st : State) :
  validForm f ->
  currentPage (Search.handleSearch f st) = 1
  /\ exists sp,
      searchParams (Search.handleSearch f st) = Some sp
      /\ zipCode sp = Form.zipCode f
      /\ radius sp = Form.radius f
      /\ startYear sp
         = Js.ofZ <$> fst (ascending (yearValue (Form.startYear f))
                                     (yearValue (Form.endYear f)))
      /\ endYear sp
         = Js.ofZ <$> snd (ascending (yearValue (Form.startYear f))
                                     (yearValue (Form.endYear f)))
      /\ (forall a, startYear sp = Some (Js.ofZ a) -> 1900 <= a <= 2100)
      /\ (forall b, endYear sp = Some (Js.ofZ b) -> 1900 <= b <= 2100)
      /\ (forall a b, startYear sp = Some (Js.ofZ a) ->
                      endYear sp = Some (Js.ofZ b) -> a <= b).
Proof.
  intros Hv. rewrite (handleSearch_valid f st Hv).
  destruct Hv as (_ & Hsy & Hey).
  split; [reflexivity|]. eexists. split; [reflexivity|].
  cbn [zipCode radius startYear endYear].
  repeat (split; [reflexivity|]).
  assert (HofZ : forall x y, Some (Js.ofZ x) = Some (Js.ofZ y) -> x = y).
  { intros x y [= H]. exact H. }
  destruct (yearValue (Form.startYear f)) as [a|] eqn:Ha;
    destruct (yearValue (Form.endYear f)) as [b|] eqn:Hb;
    cbn [fmap option_fmap option_map ascending fst snd];
    try pose proof (yearValue_range _ _ Hsy Ha);
    try pose proof (yearValue_range _ _ Hey Hb);
    repeat split; intros; try discriminate;
    repeat match goal with
           | H : Some (Js.ofZ _) = Some (Js.ofZ _) |- _ => apply HofZ in H
           end; lia.
Qed.

Lemma accepted_search_orders_years_witness :
  searchParams (Search.handleSearch invertedForm twoPages)
  = Some {| zipCode := "77030"; radius := Js.ofZ 15;
            startYear := Some (Js.ofZ 2015); endYear := Some (Js.ofZ 2024) |}.
Proof.
  destruct (accepted_search_orders_years invertedForm twoPages)
    as (_ & sp & Hsp & Hz & Hr & Hs & He & _).
  - repeat split; try reflexivity; right; split; first [reflexivity | vm_compute; split; congruence].
  - rewrite Hsp. destruct sp. cbn in *. subst. reflexivity.
Defined.

End SearchForm.

(** ** From the search form to the database query *)

Section FormToQuery.
Import Page PageSpec ExtraSpec RouteSpec InvestigatorsRoute.

Lemma toString_ofZ (v : Z) : Js.toString (Js.ofZ v) = pretty v.
Proof. reflexivity. Qed.

Lemma year_table :
  forallb (fun v => Js.testDigits 4 (pretty v) && (digitsValue (pretty v) =? v))
          (seqZ 1900 201) = true.
Proof. vm_compute. reflexivity. Qed.

Lemma year_text (v : Z) :
  1900 <= v <= 2100 ->
  Js.testDigits 4 (pretty v) = true /\ digitsValue (pretty v) = v.
Proof.
  intros Hv. pose proof year_table as Ht. rewrite forallb_forall in Ht.
  specialize (Ht v). rewrite andb_true_iff, Z.eqb_eq in Ht. apply Ht.
  apply list_elem_of_In, elem_of_seqZ. lia.
Qed.

Lemma server_reads_year (v : Z) :
  1900 <= v <= 2100 ->
  isValidYear (Some (pretty v)) = true
  /\ yearNum (Some (pretty v)) = Some (Js.ofZ v).
Proof.
  intros Hv. destruct (year_text v Hv) as [Hd Hval].
  unfold isValidYear, yearNum. cbn [default from_option id].
  rewrite (testDigits_truthy _ _ Hd), Hd, (year_number _ Hd), Hval.
  split; reflexivity.
Qed.

Lemma request_year (o : option Z) :
  (forall v, o = Some v -> 1900 <= v <= 2100) ->
  match Js.ofZ <$> o with
  | Some y => if Js.truthyNum y then Some (Js.toString y) else None
  | None => None
  end = pretty <$> o.
Proof.
  intros Hr. destruct o as [v|]; [|reflexivity].
  cbn [fmap option_fmap option_map].
  specialize (Hr v eq_refl). rewrite truthyNum_ofZ.
  destruct (Z.eqb_spec v 0); [lia | reflexivity].
Qed.

Lemma plan_of_clean_query (zipcodes_lookup : string -> bool)
      (zipcodes_radius : string -> Js.Num -> list string)
      (q : Query) (zip : string) (a b : option Z) :
  q_zip q = Some zip -> Js.testDigits 5 zip = true ->
  q_startYear q = pretty <$> a -> q_endYear q = pretty <$> b ->
  (forall v, a = Some v -> 1900 <= v <= 2100) ->
  (forall v, b = Some v -> 1900 <= v <= 2100) ->
  (forall x y, a = Some x -> b = Some y -> x <= y) ->
  plan zipcodes_lookup zipcodes_radius q
  = if zipcodes_lookup zip
    then JsonOk (zip,
                 {| whereExpr :=
                      expectedWhere
                        (zipcodes_radius zip (Js.Number (default "15" (q_radius q))))
                        a b;
                    limit := ITEMS_PER_PAGE;
                    offset := offsetOf q |})
    else JsonError "Unknown zip" 404.
Proof.
  intros Hz Hzip Hs He Ha Hb Hab. unfold plan. rewrite Hz, Hs, He.
  cbn [default from_option id]. rewrite Hzip. cbn [negb].
  destruct a as [x|]; destruct b as [y|]; cbn [fmap option_fmap option_map];
    try (destruct (server_reads_year x (Ha x eq_refl)) as [Hvx Hnx]; rewrite Hvx, Hnx);
    try (destruct (server_reads_year y (Hb y eq_refl)) as [Hvy Hny]; rewrite Hvy, Hny);
    cbn [negb orb];
    try (pose proof (Ha x eq_refl)); try (pose proof (Hb y eq_refl));
    unfold swapYears, whereClauses, truthyOpt, expectedWhere, yearClauses.
  - specialize (Hab x y eq_refl eq_refl).
    rewrite !truthyNum_ofZ, gt_ofZ.
    destruct (Z.eqb_spec x 0); [lia|]. destruct (Z.eqb_spec y 0); [lia|].
    destruct (Z.ltb_spec y x); [lia|]. cbn [negb andb].
    rewrite !truthyNum_ofZ.
    destruct (Z.eqb_spec x 0); [lia|]. destruct (Z.eqb_spec y 0); [lia|].
    destruct (zipcodes_lookup zip); reflexivity.
  - change (yearNum None) with (@None Js.Num). change (isValidYear None) with true.
    cbn [negb orb]. rewrite !truthyNum_ofZ.
    destruct (Z.eqb_spec x 0); [lia|].
    destruct (zipcodes_lookup zip); reflexivity.
  - change (yearNum None) with (@None Js.Num). change (isValidYear None) with true.
    cbn [negb orb]. rewrite !truthyNum_ofZ.
    destruct (Z.eqb_spec y 0); [lia|].
    destruct (zipcodes_lookup zip); reflexivity.
  - change (yearNum None) with (@None Js.Num). change (isValidYear None) with true.
    destruct (zipcodes_lookup zip); reflexivity.
Qed.

(** X11.  A search accepted by the form is never refused by the endpoint's
    validation, on any page: the page query either fails with "Unknown
    zip" (the postal code is not in the package's table) or is fulfilled
    with the rows of the database query whose condition is: postal code
    within the radius, start date from 1 January of the earlier year typed
    and up to 31 December of the later one, each bound present exactly when
    its year was typed. *)
Theorem accepted_search_reaches_database
        (zipcodes_lookup : string -> bool)
        (zipcodes_radius : string -> Js.Num -> list string)
        (zipcodes_distance : string -> string -> Js.Num)
        (select_rows : Plan -> list Row.t)
        (select_count : Sql -> Z)
        (f : Form.t) (st : State) (k : Z) :
  validForm f ->
  let zip := Form.zipCode f in
  let years := ascending (yearValue (Form.startYear f))
                         (yearValue (Form.endYear f)) in
  let w := expectedWhere
             (zipcodes_radius zip (Js.Number (Js.toString (Form.radius f))))
             (fst years) (snd years) in
  let q := Api.request zip (Form.radius f) (Js.ofZ k)
                       (Js.ofZ <$> fst years) (Js.ofZ <$> snd years) in
  Search.pageQuery
    (GET zipcodes_lookup zipcodes_radius zipcodes_distance select_rows select_count)
    (Search.handlePageChange k (Search.handleSearch f st))
  = if zipcodes_lookup zip
    then Api.Fulfilled
           {| ApiResponse.physicians :=
                map (toPhysician zipcodes_distance zip)
                    (select_rows {| whereExpr := w;
                                    limit := ITEMS_PER_PAGE;
                                    offset := offsetOf q |});
              ApiResponse.totalCount := select_count w |}
    else Api.Failed "Unknown zip".
Proof.
  intros Hv zip years w q. rewrite (handleSearch_valid f st Hv).
  unfold Search.pageQuery, Search.handlePageChange.
  cbn [searchParams Search.setCurrentPage Search.setSearchParams currentPage
       zipCode radius startYear endYear].
  fold zip years. destruct Hv as (Hzip & Hsy & Hey).
  unfold Api.fetchResults. fold zip in Hzip. rewrite Hzip. cbn [negb].
  fold q. unfold GET.
  assert (Hrange : (forall v, fst years = Some v -> 1900 <= v <= 2100)
                   /\ (forall v, snd years = Some v -> 1900 <= v <= 2100)
                   /\ (forall x y, fst years = Some x -> snd years = Some y -> x <= y)).
  { subst years. unfold ascending.
    destruct (yearValue (Form.startYear f)) as [a|] eqn:Ha;
      destruct (yearValue (Form.endYear f)) as [b|] eqn:Hb;
      cbn [fst snd];
      try pose proof (yearValue_range _ _ Hsy Ha);
      try pose proof (yearValue_range _ _ Hey Hb);
      repeat split; intros; simplify_eq; lia. }
  destruct Hrange as (Ha & Hb & Hab).
  rewrite (plan_of_clean_query zipcodes_lookup zipcodes_radius q zip
             (fst years) (snd years) eq_refl Hzip
             (request_year _ Ha) (request_year _ Hb) Ha Hb Hab).
  destruct (zipcodes_lookup zip); reflexivity.
Qed.

Lemma accepted_search_reaches_database_witness :
  Search.pageQuery exampleGET (Search.handlePageChange 1 (Search.handleSearch invertedForm twoPages))
  = Api.Fulfilled
      {| ApiResponse.physicians :=
           map (toPhysician noDistance "77030") table2015;
         ApiResponse.totalCount := 1 |}.
Proof.
  assert (Hv : validForm invertedForm).
  { repeat split; try reflexivity; right; split;
      first [reflexivity | vm_compute; split; congruence]. }
  pose proof (accepted_search_reaches_database anyZip onlyItself noDistance
                (memRows table2015) (memCount table2015)
                invertedForm twoPages 1 Hv) as H.
  etransitivity; [exact H|]. vm_compute. reflexivity.
Defined.

End FormToQuery.

(** ** The full-set fetch *)

Section FullSetFetch.
Import Page PageSpec ExtraSpec RouteSpec InvestigatorsRoute.

Lemma filter_length_le {A} (f : A -> bool) (l : list A) :
  (length (List.filter f l) <= length l)%nat.
Proof.
  induction l as [|x l IH]; simpl; [lia|]. destruct (f x); simpl; lia.
Qed.

(** X12.  The full-set fetch of filtered mode sends the request of page 1
    of the paged query ([fetchResults] takes no "fetch all" argument and
    the endpoint always limits the row query to ITEMS_PER_PAGE rows from
    offset 0 for page 1).  So, with a database that honours the limit, the
    set it brings back has at most ITEMS_PER_PAGE investigators, and once
    it has resolved filtered mode has at most one page. *)
Theorem full_set_fetch_is_first_page
        (zipcodes_lookup : string -> bool)
        (zipcodes_radius : string -> Js.Num -> list string)
        (zipcodes_distance : string -> string -> Js.Num)
        (select_rows : Plan -> list Row.t)
        (select_count : Sql -> Z)
        (sp : SearchParams) (res : ApiResponse.t) :
  (forall p, 0 <= limit p -> Z.of_nat (length (select_rows p)) <= limit p) ->
  Search.fullSetQuery
    (GET zipcodes_lookup zipcodes_radius zipcodes_distance select_rows select_count)
    sp = Api.Fulfilled res ->
  (forall st, searchParams st = Some sp ->
     Search.pageQuery
       (GET zipcodes_lookup zipcodes_radius zipcodes_distance select_rows select_count)
       (Search.handlePageChange 1 st) = Api.Fulfilled res)
  /\ (exists zip p,
        plan zipcodes_lookup zipcodes_radius
             (Api.request (zipCode sp) (radius sp) (Js.ofZ 1) (startYear sp) (endYear sp))
        = JsonOk (zip, p)
        /\ limit p = ITEMS_PER_PAGE /\ offset p = Js.Fin 0
        /\ ApiResponse.physicians res
           = map (toPhysician zipcodes_distance zip) (select_rows p))
  /\ Z.of_nat (length (ApiResponse.physicians res)) <= ITEMS_PER_PAGE
  /\ (forall st, isTrialFilterActive st = true -> is_Some (searchParams st) ->
        totalPagesToShow (fetchAllResolved res (fst (fetchAllEffect st))) <= 1).
Proof.
  intros Hlimit Hfull.
  assert (Hplan : exists zip p,
             plan zipcodes_lookup zipcodes_radius
                  (Api.request (zipCode sp) (radius sp) (Js.ofZ 1)
                               (startYear sp) (endYear sp))
             = JsonOk (zip, p)
             /\ limit p = ITEMS_PER_PAGE /\ offset p = Js.Fin 0
             /\ ApiResponse.physicians res
                = map (toPhysician zipcodes_distance zip) (select_rows p)).
  { unfold Search.fullSetQuery, Api.fetchResults in Hfull.
    destruct (negb (Js.testDigits 5 (zipCode sp))); [discriminate|].
    unfold GET in Hfull.
    destruct (plan zipcodes_lookup zipcodes_radius _) as [[zip p]|e s] eqn:Hp;
      [|destruct (Js.truthyStr e); discriminate].
    injection Hfull as <-. exists zip, p.
    destruct (plan_limit _ _ _ _ _ Hp) as [Hl Ho].
    repeat split; [exact Hl | rewrite Ho; reflexivity]. }
  assert (Hlen : Z.of_nat (length (ApiResponse.physicians res)) <= ITEMS_PER_PAGE).
  { destruct Hplan as (zip & p & _ & Hl & _ & ->).
    rewrite length_map, <- Hl. apply Hlimit. rewrite Hl. unfold ITEMS_PER_PAGE. lia. }
  split; [|split; [exact Hplan|split; [exact Hlen|]]].
  - intros st Hsp. unfold Search.pageQuery, Search.handlePageChange.
    cbn [searchParams Search.setCurrentPage currentPage]. rewrite Hsp. exact Hfull.
  - intros st Hact Hsp.
    assert (Heff : fetchAllEffect st
                   = (set_all st (allPhysicians st) true None false, true)).
    { unfold fetchAllEffect. rewrite Hact, (bool_decide_eq_true_2 _ Hsp). reflexivity. }
    rewrite Heff. cbn [fst].
    assert (Hact' : isTrialFilterActive
                      (fetchAllResolved res
                         (set_all st (allPhysicians st) true None false)) = true)
      by exact Hact.
    unfold totalPagesToShow, filteredTotalPages, filteredTotalCount.
    rewrite Hact', (filteredPhysicians_active _ Hact').
    unfold base. cbn [allPhysicians fetchAllResolved set_all]. rewrite Hact'.
    pose proof (filter_length_le
                  (keep (filters (fetchAllResolved res
                                    (set_all st (allPhysicians st) true None false)))
                        (metaMap (fetchAllResolved res
                                    (set_all st (allPhysicians st) true None false))))
                  (ApiResponse.physicians res)) as Hf.
    match goal with
    | |- Js.ceilDiv ?n _ <= 1 =>
        pose proof (ceilDiv_covers n ltac:(lia)); unfold ITEMS_PER_PAGE in *; lia
    end.
Qed.

Lemma full_set_fetch_is_first_page_witness :
  exists res,
    Search.fullSetQuery exampleGET someSearch = Api.Fulfilled res
    /\ Z.of_nat (length (ApiResponse.physicians res)) <= ITEMS_PER_PAGE.
Proof.
  eexists. split; [vm_compute; reflexivity|].
  eapply (full_set_fetch_is_first_page anyZip onlyItself noDistance
            (memRows table2015) (memCount table2015) someSearch).
  - intros p Hp. unfold memRows. destruct (offset p); cbn [length]; try lia.
    rewrite length_take. lia.
  - vm_compute. reflexivity.
Defined.

End FullSetFetch.

(** ** Identifier lists on the way to the registry *)

Section IdentifierLists.
Import TrialMetaRoute Spec.

Lemma trimEnd_cons (c : ascii) (r : string) (d : ascii) (r' : string) :
  Js.trimEnd r = String d r' ->
  Js.trimEnd (String c r) = String c (String d r').
Proof. intros H. cbn [Js.trimEnd]. rewrite H. reflexivity. Qed.

Lemma trimEnd_idem (s : string) : Js.trimEnd (Js.trimEnd s) = Js.trimEnd s.
Proof.
  induction s as [|c r IH]; [reflexivity|].
  destruct (Js.trimEnd r) as [|d r'] eqn:Hr.
  - cbn [Js.trimEnd]. rewrite Hr.
    destruct (Js.isWhiteSpace c) eqn:Hc; [reflexivity|].
    cbn [Js.trimEnd]. rewrite Hc. reflexivity.
  - rewrite (trimEnd_cons c r d r' Hr). apply trimEnd_cons. exact IH.
Qed.

Lemma trimEnd_head (c : ascii) (r : string) :
  Js.isWhiteSpace c = false ->
  Js.trimEnd (String c r) = String c (Js.trimEnd r).
Proof.
  intros Hc. cbn [Js.trimEnd]. rewrite Hc.
  destruct (Js.trimEnd r); reflexivity.
Qed.

Lemma trimStart_head (s : string) :
  Js.trimStart s = EmptyString
  \/ exists c r, Js.trimStart s = String c r /\ Js.isWhiteSpace c = false.
Proof.
  induction s as [|c r IH]; [left; reflexivity|].
  cbn [Js.trimStart]. destruct (Js.isWhiteSpace c) eqn:Hc; [exact IH|].
  right. exists c, r. split; [reflexivity | exact Hc].
Qed.

Lemma trim_idem (s : string) : Js.trim (Js.trim s) = Js.trim s.
Proof.
  unfold Js.trim.
  destruct (trimStart_head s) as [-> | (c & r & -> & Hc)]; [reflexivity|].
  rewrite (trimEnd_head c r Hc). cbn [Js.trimStart]. rewrite Hc.
  rewrite <- (trimEnd_head c r Hc). apply trimEnd_idem.
Qed.

Lemma allChars_trimStart (p : ascii -> bool) (s : string) :
  Js.allChars p s = true -> Js.allChars p (Js.trimStart s) = true.
Proof.
  induction s as [|c r IH]; [reflexivity|].
  intros H. cbn [Js.trimStart]. destruct (Js.isWhiteSpace c); [|exact H].
  apply IH. cbn [Js.allChars] in H. apply andb_prop in H as [_ H]. exact H.
Qed.

Lemma allChars_trimEnd (p : ascii -> bool) (s : string) :
  Js.allChars p s = true -> Js.allChars p (Js.trimEnd s) = true.
Proof.
  induction s as [|c r IH]; [reflexivity|].
  cbn [Js.allChars]. intros [Hc Hr]%andb_prop. specialize (IH Hr).
  cbn [Js.trimEnd]. destruct (Js.trimEnd r) as [|d r'].
  - destruct (Js.isWhiteSpace c); [reflexivity|].
    cbn [Js.allChars]. rewrite Hc. reflexivity.
  - change (Js.allChars p (String c (String d r')))
      with (p c && Js.allChars p (String d r')).
    rewrite Hc, IH. reflexivity.
Qed.

Lemma split_pieces (s : string) : forallb noComma (Js.split "," s) = true.
Proof.
  induction s as [|c r IH]; [reflexivity|].
  cbn [Js.split]. destruct (Ascii.eqb c ",") eqn:Hc.
  - cbn [forallb]. rewrite IH. reflexivity.
  - destruct (Js.split "," r) as [|hd tl]; cbn [forallb] in *.
    + unfold noComma. cbn [Js.allChars]. rewrite Hc. reflexivity.
    + apply andb_prop in IH as [Hhd Htl]. rewrite Htl, andb_true_r.
      unfold noComma in *. cbn [Js.allChars]. rewrite Hc, Hhd. reflexivity.
Qed.

Lemma idsOfQuery_clean (idsParam : option string) :
  forallb clean (idsOfQuery idsParam) = true.
Proof.
  unfold idsOfQuery.
  pose proof (split_pieces (default "" idsParam)) as H.
  induction (Js.split "," (default "" idsParam)) as [|a l IH]; [reflexivity|].
  cbn [forallb] in H. apply andb_prop in H as [Ha Hl].
  cbn [map List.filter].
  destruct (Nat.eqb (String.length (Js.trim a)) 0) eqn:Hlen; cbn [negb];
    [exact (IH Hl)|].
  cbn [forallb]. rewrite (IH Hl), andb_true_r.
  unfold clean. rewrite trim_idem, String.eqb_refl, andb_true_r.
  apply andb_true_intro. split.
  - destruct (Js.trim a); [discriminate | reflexivity].
  - unfold noComma, Js.trim in *.
    apply allChars_trimEnd, allChars_trimStart. exact Ha.
Qed.

(** X13.  Whatever the [ids] query parameter holds (absent, empty, stray
    commas, padded items), every identifier the GET handler hands to the
    lookup is non-empty, free of commas and already trimmed; and writing
    the parsed list back as a comma-joined query string and parsing that
    gives the same list again. *)
Theorem query_ids_are_normalised (idsParam : option string) :
  Forall (fun id => id <> "" /\ noComma id = true /\ Js.trim id = id)
         (idsOfQuery idsParam)
  /\ idsOfQuery (Some (UseTrialMeta.queryString (idsOfQuery idsParam)))
     = idsOfQuery idsParam.
Proof.
  pose proof (idsOfQuery_clean idsParam) as Hclean.
  split.
  - apply Forall_forall. intros id Hin.
    rewrite forallb_forall in Hclean.
    apply list_elem_of_In in Hin. specialize (Hclean id Hin).
    unfold clean in Hclean.
    apply andb_prop in Hclean as [[Ht Hc]%andb_prop Htrim].
    apply String.eqb_eq in Htrim.
    split; [|split; assumption].
    intros ->. discriminate.
  - unfold UseTrialMeta.queryString.
    destruct (idsOfQuery idsParam) as [|a l] eqn:Hids; [reflexivity|].
    apply idsOfQuery_join; [discriminate | exact Hclean].
Qed.

Lemma compare_ascii_refl (a : ascii) : Ascii.compare a a = Eq.
Proof. unfold Ascii.compare. apply N.compare_refl. Qed.

Lemma compare_ascii_eq (a b : ascii) : Ascii.compare a b = Eq -> a = b.
Proof.
  unfold Ascii.compare. intros H%N.compare_eq_iff.
  rewrite <- (ascii_N_embedding a), <- (ascii_N_embedding b), H. reflexivity.
Qed.

Lemma compare_ascii_lt_trans (a b c : ascii) :
  Ascii.compare a b = Lt -> Ascii.compare b c = Lt -> Ascii.compare a c = Lt.
Proof.
  unfold Ascii.compare. rewrite !N.compare_lt_iff. lia.
Qed.

Lemma compare_string_lt_trans (s1 s2 s3 : string) :
  String.compare s1 s2 = Lt -> String.compare s2 s3 = Lt ->
  String.compare s1 s3 = Lt.
Proof.
  revert s2 s3. induction s1 as [|a r1 IH]; intros [|b r2] [|c r3];
    cbn [String.compare]; try discriminate; try reflexivity.
  destruct (Ascii.compare a b) eqn:Hab; try discriminate;
    destruct (Ascii.compare b c) eqn:Hbc; try discriminate; intros H1 H2.
  - apply compare_ascii_eq in Hab, Hbc. subst. rewrite compare_ascii_refl.
    exact (IH _ _ H1 H2).
  - apply compare_ascii_eq in Hab. subst. rewrite Hbc. reflexivity.
  - apply compare_ascii_eq in Hbc. subst. rewrite Hab. reflexivity.
  - rewrite (compare_ascii_lt_trans _ _ _ Hab Hbc). reflexivity.
Qed.

Lemma compare_string_refl (s : string) : String.compare s s = Eq.
Proof.
  induction s as [|a r IH]; [reflexivity|].
  cbn [String.compare]. rewrite compare_ascii_refl. exact IH.
Qed.

Lemma strLe_trans (s1 s2 s3 : string) :
  Js.strLe s1 s2 -> Js.strLe s2 s3 -> Js.strLe s1 s3.
Proof.
  unfold Js.strLe, String.leb.
  destruct (String.compare s1 s2) eqn:H12; [| |discriminate];
    destruct (String.compare s2 s3) eqn:H23; try discriminate; intros _ _.
  - apply String.compare_eq_iff in H12, H23. subst.
    rewrite compare_string_refl. reflexivity.
  - apply String.compare_eq_iff in H12. subst. rewrite H23. reflexivity.
  - apply String.compare_eq_iff in H23. subst. rewrite H12. reflexivity.
  - rewrite (compare_string_lt_trans _ _ _ H12 H23). reflexivity.
Qed.

Lemma strLe_total (s1 s2 : string) : Js.strLe s1 s2 \/ Js.strLe s2 s1.
Proof.
  unfold Js.strLe. destruct (String.leb_total s1 s2); auto.
Qed.

Lemma strLe_antisym (s1 s2 : string) :
  Js.strLe s1 s2 -> Js.strLe s2 s1 -> s1 = s2.
Proof. unfold Js.strLe. apply String.leb_antisym. Qed.

Lemma sort_unique (l1 l2 : list string) :
  l1 ≡ₚ l2 -> Js.sort l1 = Js.sort l2.
Proof.
  intros Hp. unfold Js.sort.
  assert (HT : Transitive Js.strLe) by exact strLe_trans.
  assert (HA : AntiSymm eq Js.strLe) by exact strLe_antisym.
  assert (HO : Total Js.strLe) by exact strLe_total.
  apply (Sorted_unique Js.strLe).
  - apply Sorted_merge_sort; assumption.
  - apply Sorted_merge_sort; assumption.
  - rewrite !merge_sort_Permutation. exact Hp.
Qed.

(** X14.  The cache key of the metadata query does not depend on the order
    in which the identifiers are listed: two lists that are rearrangements
    of each other get the same key, and are enabled together.  The key's
    identifiers are a rearrangement of the ones asked for, in ascending
    order. *)
Theorem cache_key_ignores_order (ids1 ids2 : list string) :
  ids1 ≡ₚ ids2 ->
  UseTrialMeta.queryKey ids1 = UseTrialMeta.queryKey ids2
  /\ UseTrialMeta.enabled ids1 = UseTrialMeta.enabled ids2
  /\ UseTrialMeta.keyIds ids1 ≡ₚ ids1
  /\ StronglySorted (fun a b => String.leb a b = true) (UseTrialMeta.keyIds ids1).
Proof.
  intros Hp. unfold UseTrialMeta.queryKey, UseTrialMeta.enabled, UseTrialMeta.keyIds.
  split; [|split; [|split]].
  - rewrite (sort_unique _ _ Hp). reflexivity.
  - rewrite (Permutation_length Hp). reflexivity.
  - unfold Js.sort. apply merge_sort_Permutation.
  - assert (HT : Transitive Js.strLe) by exact strLe_trans.
    assert (HO : Total Js.strLe) by exact strLe_total.
    exact (StronglySorted_merge_sort Js.strLe ids1).
Qed.

Lemma cache_key_ignores_order_witness :
  UseTrialMeta.queryKey ["NCT02"; "NCT01"; "NCT03"]
  = UseTrialMeta.queryKey ["NCT03"; "NCT02"; "NCT01"].
Proof.
  refine (proj1 (cache_key_ignores_order
                   ["NCT02"; "NCT01"; "NCT03"] ["NCT03"; "NCT02"; "NCT01"] _)).
  change ([ "NCT02"; "NCT01"; "NCT03" ] ≡ₚ [ "NCT03"; "NCT02"; "NCT01" ]).
  apply perm_trans with ["NCT01"; "NCT02"; "NCT03"]; [apply perm_swap|].
  apply perm_trans with ["NCT01"; "NCT03"; "NCT02"];
    [apply perm_skip, perm_swap|].
  apply perm_trans with ["NCT03"; "NCT01"; "NCT02"]; [apply perm_swap|].
  apply perm_skip, perm_swap.
Defined.

End IdentifierLists.

(** ** Failures between the registry, the route and the hook *)

Section LookupFailures.
Import TrialMetaRoute Spec ExtraSpec.

Lemma continues_rejected (fetch : CtRequest -> Fetched)
      (r : Run (list CtStudy)) (req : CtRequest) (m : string) :
  continues fetch [] [] r ->
  In req (requests r) -> fetch req = Rejected m ->
  outcome r = Threw m /\ last (requests r) = Some req.
Proof.
  intros (new & Hlog & H) Hin Hf. simpl in Hlog. rewrite Hlog in Hin |- *.
  assert (Hnot : ~ succeeds fetch req).
  { intros (res' & Hf' & _). rewrite Hf in Hf'. discriminate. }
  assert (Hall : forall l, Forall (succeeds fetch) l -> ~ In req l).
  { intros l Hl Hreq. rewrite Forall_forall in Hl. apply Hnot, Hl.
    apply list_elem_of_In. exact Hreq. }
  destruct (outcome r) as [out'|m'|].
  - destruct H as [Hs _]. destruct (Hall _ Hs Hin).
  - destruct H as (pre & lst & -> & Hpre & Hlast).
    apply in_app_or in Hin as [Hin|[<-|[]]]; [destruct (Hall _ Hpre Hin)|].
    rewrite last_snoc. split; [|reflexivity].
    destruct Hlast as [Hrej|(res' & Hf' & _)].
    + rewrite Hf in Hrej. injection Hrej as <-. reflexivity.
    + rewrite Hf in Hf'. discriminate.
  - destruct (Hall _ H Hin).
Qed.

(** X15.  When the registry cannot be reached for some request of a
    metadata fetch (the [fetch] call is rejected with message [m]), that
    request is the last one issued, the fetch throws [m], and both
    handlers answer with [m] as the error and status 500, or 502 when [m]
    happens to contain "ClinicalTrials"; no record is returned. *)
Theorem network_failure_aborts (fetch : CtRequest -> Fetched) (fuel : nat)
        (ids : list string) (req : CtRequest) (m : string) :
  In req (requests (fetchTrialMeta fetch fuel ids)) ->
  fetch req = Rejected m ->
  outcome (fetchTrialMeta fetch fuel ids) = Threw m
  /\ last (requests (fetchTrialMeta fetch fuel ids)) = Some req
  /\ (forall idsParam, idsOfQuery idsParam = ids ->
        GET fetch fuel idsParam
        = Some (JsonError m (if Js.includes m "ClinicalTrials" then 502 else 500)))
  /\ (forall body, idsOfBody body = ids ->
        POST fetch fuel (Parsed body)
        = Some (JsonError m (if Js.includes m "ClinicalTrials" then 502 else 500))).
Proof.
  intros Hin Hf.
  destruct (continues_rejected fetch _ req m
              (fetchBatches_continues fetch fuel (batches ids) [] []) Hin Hf)
    as [Hout Hlast].
  assert (Hthrow : outcome (fetchTrialMeta fetch fuel ids) = Threw m).
  { unfold fetchTrialMeta. cbn [outcome]. rewrite Hout. reflexivity. }
  assert (Hne : ids <> []).
  { intros ->. exact Hin. }
  assert (Hresp : forall missing,
             respond fetch missing fuel ids
             = Some (JsonError m (if Js.includes m "ClinicalTrials"
                                  then 502 else 500))).
  { intros missing. unfold respond. destruct ids as [|i ids']; [congruence|].
    rewrite Hthrow. reflexivity. }
  split; [exact Hthrow|]. split; [exact Hlast|]. split.
  - intros idsParam <-. apply Hresp.
  - intros body <-. apply Hresp.
Qed.

Lemma network_failure_aborts_witness :
  GET (unreachable "connect ETIMEDOUT") 1 (Some "NCT01")
  = Some (JsonError "connect ETIMEDOUT" 500).
Proof.
  destruct (network_failure_aborts (unreachable "connect ETIMEDOUT") 1 ["NCT01"]
              {| filter_ids := "NCT01"; pageSize := "1"; pageToken := None |}
              "connect ETIMEDOUT") as (_ & _ & Hget & _).
  - vm_compute. left. reflexivity.
  - reflexivity.
  - apply (Hget (Some "NCT01")). reflexivity.
Defined.




End LookupFailures.

(** ** The phase chips of the filter drawer *)

Section PhaseChips.
Import TrialMetaRoute ExtraSpec TrialFilterDrawer.

Lemma counts_from (meta : list TrialMeta.t) (m : gmap string Z) (p : string) :
  foldl (fun m study =>
           let phase := TrialMeta.phase study in
           <[phase := default 0 (m !! phase) + 1]> m) m meta !! p
  = let n := Z.of_nat (length (studiesInPhase p meta)) in
    match m !! p with
    | Some k => Some (k + n)
    | None => if n =? 0 then None else Some n
    end.
Proof.
  revert m. induction meta as [|s meta IH]; intros m.
  - cbn. destruct (m !! p); [f_equal; lia | reflexivity].
  - cbn [foldl]. rewrite IH. cbv zeta. unfold studiesInPhase.
    cbn [List.filter].
    destruct (String.eqb (TrialMeta.phase s) p) eqn:E.
    + apply String.eqb_eq in E. rewrite E, lookup_insert_eq.
      cbn [length]. rewrite Nat2Z.inj_succ.
      destruct (m !! p) as [k|]; cbn [from_option id].
      * f_equal. lia.
      * destruct (Z.eqb_spec (Z.succ (Z.of_nat (length (List.filter
                    (fun study => String.eqb (TrialMeta.phase study) p) meta)))) 0);
          [lia | f_equal; lia].
    + apply String.eqb_neq in E. rewrite lookup_insert_ne by exact E.
      reflexivity.
Qed.

Lemma chipCount_length (meta : list TrialMeta.t) (p : string) :
  default 0 (chipCount meta p) = Z.of_nat (length (studiesInPhase p meta)).
Proof.
  unfold chipCount, counts. rewrite counts_from, lookup_empty. cbv zeta.
  destruct (Z.eqb_spec (Z.of_nat (length (studiesInPhase p meta))) 0) as [E|E];
    cbn [from_option id]; [lia|].
  apply Z.eqb_neq in E. rewrite E. reflexivity.
Qed.

Lemma normalizePhase_option (s : CtStudy) :
  In (normalizePhase s) PHASE_OPTIONS.
Proof.
  rewrite normalizePhase_unfold.
  destruct (Js.matchClass _ _) as [m|] eqn:E.
  - apply matchClass_some in E as (d & -> & Hd).
    apply inRange_phaseDigit in Hd.
    destruct Hd as [<-|[<-|[<-|[<-|[]]]]]; simpl; tauto.
  - simpl. tauto.
Qed.

Lemma phase_partition (meta : list TrialMeta.t) :
  Forall (fun study => In (TrialMeta.phase study) PHASE_OPTIONS) meta ->
  foldr Z.add 0
        (map (fun p => Z.of_nat (length (studiesInPhase p meta))) PHASE_OPTIONS)
  = Z.of_nat (length meta).
Proof.
  induction 1 as [|s meta Hs _ IH]; [reflexivity|].
  unfold PHASE_OPTIONS, studiesInPhase in *. cbn [map foldr List.filter] in *.
  destruct Hs as [<-|[<-|[<-|[<-|[<-|[]]]]]]; cbn [String.eqb Ascii.eqb Bool.eqb];
    cbn [length]; lia.
Qed.

(** X17.  The number on the chip of phase [p] in the filter drawer is the
    number of metadata records of that phase, and the chip carries no
    number when there is none.  For the records the metadata route
    returns, whose phases are all among the five chips, the numbers on
    the chips add up to the number of records. *)
Theorem phase_chips_count_records (meta : list TrialMeta.t) (p : string) :
  In p PHASE_OPTIONS ->
  chipCount meta p
  = (if (0 <? length (studiesInPhase p meta))%nat
     then Some (Z.of_nat (length (studiesInPhase p meta)))
     else None)
  /\ (forall studies,
        chipTotal (map trimStudy studies) = Z.of_nat (length studies)).
Proof.
  intros _. split.
  - unfold chipCount, counts. rewrite counts_from, lookup_empty. cbv zeta.
    destruct (length (studiesInPhase p meta)) as [|n]; [reflexivity|].
    reflexivity.
  - intros studies. unfold chipTotal.
    rewrite (map_ext _ (fun p => Z.of_nat (length (studiesInPhase p (map trimStudy studies)))))
      by (intros q; apply chipCount_length).
    rewrite phase_partition, length_map; [reflexivity|].
    apply Forall_forall. intros tm Hin.
    apply list_elem_of_In, in_map_iff in Hin as (s & <- & _).
    apply normalizePhase_option.
Qed.

Lemma phase_chips_count_records_witness :
  chipCount [PageSpec.meta1; PageSpec.meta2; PageSpec.meta2] "3" = Some 2.
Proof.
  refine (eq_trans
            (proj1 (phase_chips_count_records
                      [PageSpec.meta1; PageSpec.meta2; PageSpec.meta2] "3" _)) _).
  - right. right. left. reflexivity.
  - vm_compute. reflexivity.
Defined.

End PhaseChips.
